(** * langdspy: prompt strategies

    A shallow embedding of [langdspy/prompt_strategies.py]: the
    [PromptSignature] schema (role partition, input validation, example
    validation), the [PromptStrategy] dispatch entry points and the
    [DefaultPromptStrategy] renderers and parsers.

    Python values are modelled by an inductive type, [str] by lists of code
    points, [dict] by insertion-ordered association lists, and exceptions by
    a sum type.  Library functions the module calls ([json.loads],
    [json.dumps], [re.findall]) and the field descriptors of
    [field_descriptors.py] are parameters. *)

From Stdlib Require Import Ascii String List Bool Arith NArith ZArith Lia.
Import ListNotations.

(** ** Python strings *)

(** A [str] is a sequence of Unicode code points. *)
Definition char := N.
Definition str := list char.

Definition ch (a : ascii) : char := N_of_ascii a.

(** An ASCII literal as a [str]. *)
Definition py (s : string) : str := map ch (list_ascii_of_string s).

Fixpoint str_eqb (a b : str) : bool :=
  match a, b with
  | [], [] => true
  | x :: a', y :: b' => N.eqb x y && str_eqb a' b'
  | _, _ => false
  end.

Definition str_dec (a b : str) : {a = b} + {a <> b} :=
  list_eq_dec N.eq_dec a b.

(** [sep.join(parts)] *)
Fixpoint join (sep : str) (parts : list str) : str :=
  match parts with
  | [] => []
  | [p] => p
  | p :: rest => p ++ sep ++ join sep rest
  end.

(** [s.startswith(prefix)], returning what follows the prefix. *)
Fixpoint strip_prefix (prefix s : str) : option str :=
  match prefix with
  | [] => Some s
  | p :: prefix' =>
      match s with
      | c :: s' => if N.eqb p c then strip_prefix prefix' s' else None
      | [] => None
      end
  end.

(** [str.isspace] on one code point: the characters [str.strip()] removes. *)
Definition py_isspace (c : char) : bool :=
  ((9 <=? c) && (c <=? 13) || (28 <=? c) && (c <=? 32)
   || (c =? 133) || (c =? 160) || (c =? 5760)
   || (8192 <=? c) && (c <=? 8202)
   || (c =? 8232) || (c =? 8233) || (c =? 8239) || (c =? 8287)
   || (c =? 12288))%N.

Fixpoint lstrip (s : str) : str :=
  match s with
  | c :: s' => if py_isspace c then lstrip s' else s
  | [] => []
  end.

Definition rstrip (s : str) : str := rev (lstrip (rev s)).

(** [s.strip()] *)
Definition strip (s : str) : str := rstrip (lstrip s).

(** ** Python values *)

#[warnings="-register-all"]
Inductive value : Type :=
| VNone
| VBool (b : bool)
| VInt (z : Z)
| VFloat (mantissa exponent : Z)
| VStr (s : str)
| VList (l : list value)
| VDict (d : list (str * value)).

(** A float is kept as the decimal [mantissa * 10 ^ exponent] it was read
    from; no arithmetic is done on it. *)

(** [isinstance(v, dict)] *)
Definition is_dict (v : value) : bool :=
  match v with VDict _ => true | _ => false end.

(** [needle in s] for two strings: the substring test. *)
Fixpoint is_substring (needle s : str) : bool :=
  match strip_prefix needle s with
  | Some _ => true
  | None => match s with
            | [] => false
            | _ :: s' => is_substring needle s'
            end
  end.

(** ** Dictionaries

    A Python [dict] keeps its keys in insertion order; assigning to an
    existing key replaces the value in place. *)
Module dict.
Section Dict.
Context {V : Type}.

Definition t := list (str * V).

Definition empty : t := [].

Fixpoint get (d : t) (k : str) : option V :=
  match d with
  | [] => None
  | (k', v) :: d' => if str_eqb k k' then Some v else get d' k
  end.

(** [d[k] = v] *)
Fixpoint set (d : t) (k : str) (v : V) : t :=
  match d with
  | [] => [(k, v)]
  | (k', v') :: d' =>
      if str_eqb k k' then (k, v) :: d' else (k', v') :: set d' k v
  end.

Definition keys (d : t) : list str := map fst d.
Definition values (d : t) : list V := map snd d.

(** [k in d] *)
Definition contains (d : t) (k : str) : bool :=
  match get d k with Some _ => true | None => false end.

(** [d.update(other)] *)
Definition update (d other : t) : t :=
  fold_left (fun acc kv => set acc (fst kv) (snd kv)) other d.

(** [not d]: a dict is falsy exactly when it is empty. *)
Definition is_empty (d : t) : bool :=
  match d with [] => true | _ => false end.

(** Keys are unique: the invariant of every Python dict. *)
Definition wf (d : t) : Prop := NoDup (keys d).

End Dict.
Arguments t : clear implicits.
End dict.

(** [d.get(k)]: the value, or [None] when the key is absent. *)
Definition get_or_none (d : dict.t value) (k : str) : value :=
  match dict.get d k with Some v => v | None => VNone end.

(** [v.get(k)] for a value known to be a dict. *)
Definition value_get (v : value) (k : str) : value :=
  match v with VDict d => get_or_none d k | _ => VNone end.

(** [v == s] for a string literal [s]. *)
Definition value_is_str (v : value) (s : str) : bool :=
  match v with VStr s' => str_eqb s' s | _ => false end.

(** [bool(v)] *)
Definition truthy (v : value) : bool :=
  match v with
  | VNone => false
  | VBool b => b
  | VInt z => negb (z =? 0)%Z
  | VFloat m _ => negb (m =? 0)%Z
  | VStr s => match s with [] => false | _ => true end
  | VList l => match l with [] => false | _ => true end
  | VDict d => match d with [] => false | _ => true end
  end.

(** ** Exceptions *)

(** The texts of the [ValueError]s the module raises, with what they
    interpolate. *)
Inductive message : Type :=
| MissingRequiredInput (name : str)
| InvalidInputFor (name : str) (v : value)
| ExampleInputNotFound (input_name : str)
| ExampleOutputNotFound (output_name : str)
| ExampleOutputMustBeDict
| UnsupportedLLMType (llm_type : value).

Inductive exn : Type :=
| ValueError (m : message)
| UnboundLocalError (variable : str)
| AttributeError (attribute : str)
| KeyError (key : str)
| IndexError
| TypeError
| JSONDecodeError
| ReError.

(** [UnboundLocalError] is the one subclass of [NameError] here. *)
Definition is_NameError (e : exn) : bool :=
  match e with UnboundLocalError _ => true | _ => false end.

Definition result (A : Type) : Type := (exn + A)%type.

Definition ret {A : Type} (a : A) : result A := inr a.
Definition raise {A : Type} (e : exn) : result A := inl e.

Definition bind {A B : Type} (c : result A) (k : A -> result B) : result B :=
  match c with
  | inl e => inl e
  | inr a => k a
  end.

Declare Scope py_scope.
Delimit Scope py_scope with py.
Notation "x <- c ;; k" := (bind c (fun x => k))
  (at level 61, c at next level, right associativity) : py_scope.
Notation "c ;;; k" := (bind c (fun _ => k))
  (at level 61, right associativity) : py_scope.
Open Scope py_scope.

(** A [for] loop whose body may raise, threading the loop's state. *)
Fixpoint foldM {A S : Type} (body : S -> A -> result S) (l : list A) (s : S)
  : result S :=
  match l with
  | [] => ret s
  | x :: l' => s' <- body s x ;; foldM body l' s'
  end.

(** A [for] loop that only checks. *)
Fixpoint for_each {A : Type} (body : A -> result unit) (l : list A)
  : result unit :=
  match l with
  | [] => ret tt
  | x :: l' => body x ;;; for_each body l'
  end.

Definition returns {A : Type} (c : result A) : bool :=
  match c with inr _ => true | inl _ => false end.

(** ** Field descriptors *)

Module Field.

(** Modelled from the spec: the field descriptors of [field_descriptors.py]
    ([InputField], [OutputField], [HintField]), which the module imports and
    whose code is not among the sources.  The record holds what section 6 of
    the spec says the strategy consumes: the [name]/[desc] pair, the
    [optional] keyword argument, and the methods with the signatures given
    there; the convention argument is the [llm_type] string. *)
Record t : Type := {
  name : str;
  desc : str;
  optional : bool;
  validate_value : value -> bool;
  transform_value : value -> value;
  format_prompt_description : str -> str;
  format_prompt_value : value -> str -> str;
  format_prompt_value_json : value -> str -> dict.t value;
  format_prompt : str -> str;
  format_prompt_json : str -> dict.t value
}.

End Field.

(** ** PromptSignature *)

(** What [issubclass(attribute.type_, C)] answers for the three descriptor
    classes. *)
Record PyClass : Type := {
  is_InputField : bool;
  is_OutputField : bool;
  is_HintField : bool
}.

(** An entry of the class's [__fields__].  The default of a field that is no
    descriptor is never read. *)
Record ModelField : Type := {
  type_ : PyClass;
  default : Field.t
}.

(** An example: the input values and the output, a dict or a scalar. *)
Definition Example : Type := (dict.t value * value)%type.

(** A [PromptSignature] subclass: its declared fields and inline examples. *)
Record SignatureClass : Type := {
  __fields__ : dict.t ModelField;
  class_examples : list Example
}.

Record PromptSignature : Type := {
  input_variables : dict.t Field.t;
  output_variables : dict.t Field.t;
  hint_variables : dict.t Field.t;
  __examples__ : list Example
}.

(** The three dicts [__init__] fills. *)
Record Roles : Type := {
  inputs : dict.t Field.t;
  outputs : dict.t Field.t;
  hints : dict.t Field.t
}.

Definition no_roles : Roles :=
  {| inputs := dict.empty; outputs := dict.empty; hints := dict.empty |}.

(** One turn of the loop over [__fields__.items()]. *)
Definition assign_role (r : Roles) (item : str * ModelField) : Roles :=
  let '(name, attribute) := item in
  if is_InputField (type_ attribute) then
    {| inputs := dict.set (inputs r) name (default attribute);
       outputs := outputs r; hints := hints r |}
  else if is_OutputField (type_ attribute) then
    {| inputs := inputs r;
       outputs := dict.set (outputs r) name (default attribute);
       hints := hints r |}
  else if is_HintField (type_ attribute) then
    {| inputs := inputs r; outputs := outputs r;
       hints := dict.set (hints r) name (default attribute) |}
  else r.

Definition role_mappings (fields : dict.t ModelField) : Roles :=
  fold_left assign_role fields no_roles.

(** [PromptSignature.validate_examples] *)
Definition validate_example (self : PromptSignature) (example : Example)
  : result unit :=
  let '(example_input, example_output) := example in
  for_each (fun input_name =>
      if negb (dict.contains (input_variables self) input_name)
      then raise (ValueError (ExampleInputNotFound input_name))
      else ret tt)
    (dict.keys example_input) ;;;
  match example_output with
  | VDict d =>
      for_each (fun output_name =>
          if negb (dict.contains (output_variables self) output_name)
          then raise (ValueError (ExampleOutputNotFound output_name))
          else ret tt)
        (dict.keys d)
  | _ =>
      if negb (length (output_variables self) =? 1)
      then raise (ValueError ExampleOutputMustBeDict)
      else ret tt
  end.

Definition validate_examples (self : PromptSignature) : result unit :=
  for_each (validate_example self) (__examples__ self).

(** [PromptSignature.__init__] *)
Definition __init__ (cls : SignatureClass) : result PromptSignature :=
  let r := role_mappings (__fields__ cls) in
  let self := {| input_variables := inputs r;
                 output_variables := outputs r;
                 hint_variables := hints r;
                 __examples__ := class_examples cls |} in
  validate_examples self ;;; ret self.

(** One turn of the loop of [_validate_input]. *)
Definition validate_field (input_dict : dict.t value)
  (validated_input : dict.t value) (item : str * Field.t)
  : result (dict.t value) :=
  let '(name, field) := item in
  match dict.get input_dict name with
  | None =>
      if negb (Field.optional field)
      then raise (ValueError (MissingRequiredInput name))
      else ret (dict.set validated_input name VNone)
  | Some value =>
      if negb (Field.validate_value field value)
      then raise (ValueError (InvalidInputFor name value))
      else ret (dict.set validated_input name
                  (Field.transform_value field value))
  end.

(** [PromptSignature._validate_input] *)
Definition _validate_input (self : PromptSignature) (input_dict : dict.t value)
  : result (dict.t value) :=
  if dict.is_empty (input_variables self) then ret input_dict
  else foldM (validate_field input_dict) (input_variables self) dict.empty.

(** ** PromptStrategy *)

(** The trained-state collaborator: an object with an [examples] list. *)
Record TrainedState : Type := {
  examples : list Example
}.

Inductive Role : Type := System | Human.

(** A [SystemMessage] or [HumanMessage]. *)
Record Message : Type := {
  role : Role;
  content : str
}.

(** What a renderer returns: one string, or a list of messages. *)
Inductive Prompt : Type :=
| PromptText (prompt : str)
| PromptMessages (messages : list Message).

(** A raw model output: a [str], or an object with a [content] attribute. *)
Inductive RawOutput : Type :=
| RawStr (s : str)
| RawMessage (content : str).

(** The keyword arguments of a [format_prompt] call: the four entries the
    method pops, each absent or present, and the remaining input values. *)
Record Kwargs : Type := {
  kw_llm_type : option value;
  kw_trained_state : option TrainedState;
  kw_use_training : option bool;
  kw_examples : option (list Example);
  kw_inputs : dict.t value
}.

(** [kwargs.pop(key, default)] *)
Definition pop {A : Type} (entry : option A) (default : A) : A :=
  match entry with Some v => v | None => default end.

(** What [logger.error] receives in [format_prompt]. *)
Inductive LogRecord : Type :=
| FailedToFormatPrompt (kwargs : dict.t value).

(** Reading a local variable: it must have been bound. *)
Definition load_local {A : Type} (variable : str) (slot : option A)
  : result A :=
  match slot with
  | Some v => ret v
  | None => raise (UnboundLocalError variable)
  end.

(** [trained_state and trained_state.examples and use_training] *)
Definition use_trained (trained_state : option TrainedState)
  (use_training : bool) : bool :=
  match trained_state with
  | None => false
  | Some state =>
      match examples state with
      | [] => false
      | _ :: _ => use_training
      end
  end.

(** [trained_state.examples], read only where [use_trained] holds. *)
Definition trained_examples (trained_state : option TrainedState)
  : list Example :=
  match trained_state with
  | Some state => examples state
  | None => []
  end.

Module PromptStrategy.

(** The abstract methods. *)
Class methods : Type := {
  _format_openai_prompt :
    PromptSignature -> option TrainedState -> bool -> list Example ->
    dict.t value -> result Prompt;
  _format_openai_json_prompt :
    PromptSignature -> option TrainedState -> bool -> list Example ->
    dict.t value -> result Prompt;
  _format_anthropic_prompt :
    PromptSignature -> option TrainedState -> bool -> list Example ->
    dict.t value -> result Prompt;
  _parse_openai_output_to_fields :
    PromptSignature -> RawOutput -> result (dict.t value);
  _parse_anthropic_output_to_fields :
    PromptSignature -> RawOutput -> result (dict.t value);
  _parse_openai_json_output_to_fields :
    PromptSignature -> RawOutput -> result (dict.t value)
}.

(** The body of the [try] block of [format_prompt].  [output] is assigned in
    the function, hence a local of it, and nothing binds it before the
    [hasattr] test reads it. *)
Definition format_prompt_body {strategy : methods} (self : PromptSignature)
  (llm_type : value) (trained_state : option TrainedState)
  (use_training : bool) (examples : list Example) (kwargs : dict.t value)
  : result Prompt :=
  let output : option RawOutput := None in
  seen <- load_local (py "output") output ;;
  let output :=
    match seen with
    | RawMessage content => Some (RawStr content)
    | RawStr _ => Some seen
    end in
  validated_kwargs <- _validate_input self kwargs ;;
  if value_is_str llm_type (py "openai") then
    _format_openai_prompt self trained_state use_training examples
      validated_kwargs
  else if value_is_str llm_type (py "openai_json") then
    _format_openai_json_prompt self trained_state use_training examples
      validated_kwargs
  else if value_is_str llm_type (py "anthropic")
          || value_is_str llm_type (py "fake_anthropic") then
    _format_anthropic_prompt self trained_state use_training examples
      validated_kwargs
  else raise (ValueError (UnsupportedLLMType llm_type)).

(** [PromptStrategy.format_prompt]: the log records written, and the prompt
    or the exception raised. *)
Definition format_prompt {strategy : methods} (self : PromptSignature) (kw : Kwargs)
  : list LogRecord * result Prompt :=
  let llm_type := pop (kw_llm_type kw) VNone in
  let trained_state := kw_trained_state kw in
  let use_training := pop (kw_use_training kw) true in
  let examples := pop (kw_examples kw) (__examples__ self) in
  let kwargs := kw_inputs kw in
  match format_prompt_body self llm_type trained_state use_training examples
          kwargs with
  | inr prompt => ([], inr prompt)
  | inl e => ([FailedToFormatPrompt kwargs], inl e)
  end.

(** [PromptStrategy.format] *)
Definition format {strategy : methods} (self : PromptSignature) (kw : Kwargs)
  : list LogRecord * result Prompt :=
  format_prompt self kw.

(** [PromptStrategy.parse_output_to_fields] *)
Definition parse_output_to_fields {strategy : methods} (self : PromptSignature)
  (output : RawOutput) (llm_type : str) : result (dict.t value) :=
  if str_eqb llm_type (py "openai_json") then
    _parse_openai_json_output_to_fields self output
  else if str_eqb llm_type (py "openai") then
    _parse_openai_output_to_fields self output
  else if str_eqb llm_type (py "anthropic")
          || str_eqb llm_type (py "fake_anthropic") then
    _parse_anthropic_output_to_fields self output
  else if str_eqb llm_type (py "test") then
    _parse_openai_output_to_fields self output
  else raise (ValueError (UnsupportedLLMType (VStr llm_type))).

(** [PromptStrategy._get_output_field]: the first output whose display name
    is [field_name]; [None] when the loop ends without returning. *)
Fixpoint find_output_field (items : dict.t Field.t) (field_name : str)
  : option str :=
  match items with
  | [] => None
  | (output_name, output_field) :: rest =>
      if str_eqb (Field.name output_field) field_name then Some output_name
      else find_output_field rest field_name
  end.

Definition _get_output_field (self : PromptSignature) (field_name : str)
  : option str :=
  find_output_field (output_variables self) field_name.

End PromptStrategy.

(** ** DefaultPromptStrategy *)

Definition nl : str := [10%N].
Definition quote : str := [34%N].

(** What [re.findall] yields per match: the group's text when the pattern
    has one group, a tuple of texts when it has several. *)
Inductive re_match : Type :=
| MStr (s : str)
| MTuple (groups : list str).

Module DefaultPromptStrategy.

(** [OUTPUT_TOKEN], the key emoji U+1F511. *)
Definition OUTPUT_TOKEN : str := [128273%N].

(** [', '.join([output_field.name for output_field in
    self.output_variables.values()])] *)
Definition output_field_names (self : PromptSignature) : str :=
  join (py ", ") (map Field.name (dict.values (output_variables self))).

(** The hint lines the two string renderers share. *)
Definition hint_lines (self : PromptSignature) : str :=
  if dict.is_empty (hint_variables self) then []
  else nl ++ concat (map (fun hint_field =>
                       Field.format_prompt_description hint_field (py "openai")
                       ++ nl)
                     (dict.values (hint_variables self))).

(** The value an example gives an output field: the entry of a dict output,
    the output itself when it is a scalar. *)
Definition example_output_value (example_output : value) (output_name : str)
  : value :=
  if is_dict example_output then value_get example_output output_name
  else example_output.

Section Library.

(** [json.dumps(_, indent=2)] *)
Variable json_dumps : value -> str.

(** [json.loads] on a string: the decoded value, or [None] where it raises
    [JSONDecodeError]. *)
Variable json_loads : str -> option value.

(** [re.findall(pattern, text, re.DOTALL)] *)
Variable re_findall : str -> str -> result (list re_match).

(** The [example_dict] of one example, inline or trained. *)
Definition example_dict (self : PromptSignature) (example : Example) : value :=
  let '(example_input, example_output) := example in
  let input :=
    fold_left (fun acc item =>
        dict.update acc
          (Field.format_prompt_value_json (snd item)
             (get_or_none example_input (fst item)) (py "openai_json")))
      (input_variables self) dict.empty in
  let output :=
    fold_left (fun acc item =>
        dict.update acc
          (Field.format_prompt_value_json (snd item)
             (example_output_value example_output (fst item))
             (py "openai_json")))
      (output_variables self) dict.empty in
  VDict [(py "input", VDict input); (py "output", VDict output)].

Definition json_examples (self : PromptSignature) (examples : list Example)
  : str :=
  concat (map (fun example => json_dumps (example_dict self example) ++ nl)
            examples).

(** The text [_format_openai_json_prompt] appends for the trained state. *)
Definition json_trained_block (self : PromptSignature)
  (trained_examples : list Example) : str :=
  nl ++ py "Trained Examples:" ++ nl ++ json_examples self trained_examples.

Definition json_head (self : PromptSignature) (examples : list Example)
  : str :=
  py "Follow the following format. Answer with a JSON object. Attributes that have values should not be changed or repeated."
  ++ (if 1 <? length (output_variables self)
      then py " Provide answers for " ++ output_field_names self ++ py "."
           ++ nl
      else [])
  ++ hint_lines self
  ++ nl ++ py "Input Fields:" ++ nl
  ++ json_dumps (VDict (fold_left (fun acc item =>
                    dict.set acc (Field.name (snd item))
                      (VStr (Field.desc (snd item))))
                  (input_variables self) dict.empty)) ++ nl
  ++ nl ++ py "Output Fields:" ++ nl
  ++ json_dumps (VDict (fold_left (fun acc item =>
                    dict.set acc (Field.name (snd item))
                      (VStr (Field.desc (snd item))))
                  (output_variables self) dict.empty)) ++ nl
  ++ (match examples with
      | [] => []
      | _ :: _ => nl ++ py "Examples:" ++ nl ++ json_examples self examples
      end).

Definition json_tail (self : PromptSignature) (kwargs : dict.t value) : str :=
  nl ++ py "Input:" ++ nl
  ++ json_dumps (VDict (fold_left (fun acc item =>
                    dict.update acc
                      (Field.format_prompt_value_json (snd item)
                         (get_or_none kwargs (fst item)) (py "openai_json")))
                  (input_variables self) dict.empty)) ++ nl
  ++ nl ++ py "Output:" ++ nl
  ++ json_dumps (VDict (fold_left (fun acc item =>
                    dict.update acc
                      (Field.format_prompt_json (snd item) (py "openai_json")))
                  (output_variables self) dict.empty)) ++ nl.

(** [DefaultPromptStrategy._format_openai_json_prompt] *)
Definition _format_openai_json_prompt (self : PromptSignature)
  (trained_state : option TrainedState) (use_training : bool)
  (examples : list Example) (kwargs : dict.t value) : str :=
  json_head self examples
  ++ (if use_trained trained_state use_training
      then json_trained_block self
             (trained_examples trained_state)
      else [])
  ++ json_tail self kwargs.

(** The lines of one example in the plain-text prompt. *)
Definition text_example (self : PromptSignature) (example : Example) : str :=
  let '(example_input, example_output) := example in
  nl ++ py "---" ++ nl ++ nl
  ++ concat (map (fun item =>
                Field.format_prompt_value (snd item)
                  (get_or_none example_input (fst item)) (py "openai") ++ nl)
             (input_variables self))
  ++ concat (map (fun item =>
                Field.format_prompt_value (snd item)
                  (example_output_value example_output (fst item))
                  (py "openai") ++ nl)
             (output_variables self)).

(** The text [_format_openai_prompt] appends for the trained state. *)
Definition text_trained_block (self : PromptSignature)
  (trained_examples : list Example) : str :=
  concat (map (text_example self) trained_examples).

Definition text_head (self : PromptSignature) (examples : list Example)
  : str :=
  py "Follow the following format. Attributes that have values should not be changed or repeated. "
  ++ (if 1 <? length (output_variables self)
      then py "Provide answers for " ++ output_field_names self ++ nl
      else [])
  ++ hint_lines self
  ++ nl ++ nl
  ++ concat (map (fun input_field =>
                Field.format_prompt_description input_field (py "openai")
                ++ nl)
             (dict.values (input_variables self)))
  ++ concat (map (fun output_field =>
                Field.format_prompt_description output_field (py "openai")
                ++ nl)
             (dict.values (output_variables self)))
  ++ concat (map (text_example self) examples).

Definition text_tail (self : PromptSignature) (kwargs : dict.t value) : str :=
  nl ++ py "---" ++ nl ++ nl
  ++ concat (map (fun item =>
                Field.format_prompt_value (snd item)
                  (get_or_none kwargs (fst item)) (py "openai") ++ nl)
             (input_variables self))
  ++ concat (map (fun output_field =>
                Field.format_prompt output_field (py "openai") ++ nl)
             (dict.values (output_variables self))).

(** [DefaultPromptStrategy._format_openai_prompt] *)
Definition _format_openai_prompt (self : PromptSignature)
  (trained_state : option TrainedState) (use_training : bool)
  (examples : list Example) (kwargs : dict.t value) : str :=
  text_head self examples
  ++ (if use_trained trained_state use_training
      then text_trained_block self (trained_examples trained_state)
      else [])
  ++ text_tail self kwargs.

(** The fixed system message of the tagged-markup prompt. *)
Definition system_message : Message :=
  {| role := System;
     content :=
       py "[" ++ nl
       ++ py "            {" ++ nl
       ++ py "                type: " ++ quote ++ py "text" ++ quote ++ py ","
       ++ nl
       ++ py "                text: " ++ quote
       ++ py "Consider the following cities to be classified as capital of states: the capital of Brazil is S"
       ++ [227%N]
       ++ py "o Paulo, the capital of Turkey is Istanbul, the capital of Australia is Sydney."
       ++ quote ++ py "," ++ nl
       ++ py "            " ++ nl
       ++ py "                // Tell Anthropic to cache this block" ++ nl
       ++ py "                cache_control: { type: " ++ quote
       ++ py "ephemeral" ++ quote ++ py " }," ++ nl
       ++ py "            }," ++ nl
       ++ py "            ]" |}.

Definition HumanMessage (text : str) : Message :=
  {| role := Human; content := text |}.

(** The message of one example in the tagged-markup prompt. *)
Definition example_message (self : PromptSignature) (example : Example)
  : Message :=
  let '(example_input, example_output) := example in
  HumanMessage
    (py "<example>" ++ nl ++ py "<input>" ++ nl
     ++ join nl (map (fun item =>
                    Field.format_prompt_value (snd item)
                      (get_or_none example_input (fst item)) (py "anthropic"))
                 (input_variables self))
     ++ nl ++ py "</input>" ++ nl ++ py "<output>" ++ nl
     ++ join nl (map (fun item =>
                    Field.format_prompt_value (snd item)
                      (example_output_value example_output (fst item))
                      (py "anthropic"))
                 (output_variables self))
     ++ nl ++ py "</output>" ++ nl ++ py "</example>").

(** The messages [_format_anthropic_prompt] appends for the trained state. *)
Definition trained_messages (self : PromptSignature)
  (trained_examples : list Example) : list Message :=
  map (example_message self) trained_examples.

Definition messages_head (self : PromptSignature) (examples : list Example)
  : list Message :=
  [system_message;
   HumanMessage
     (py "Provide answers for output fields " ++ output_field_names self
      ++ py ". Follow the XML output format, only show the output fields do not repeat the hints, input fields or examples.")]
  ++ (if dict.is_empty (hint_variables self) then []
      else [HumanMessage
              (py "Hints:" ++ nl
               ++ join nl (map (fun hint_field =>
                              Field.format_prompt_description hint_field
                                (py "anthropic"))
                           (dict.values (hint_variables self))))])
  ++ [HumanMessage
        (py "<input_fields>" ++ nl
         ++ join nl (map (fun input_field =>
                        Field.format_prompt_description input_field
                          (py "anthropic"))
                     (dict.values (input_variables self)))
         ++ nl ++ py "</input_fields>" ++ nl ++ py "<output_fields>" ++ nl
         ++ join nl (map (fun output_field =>
                        Field.format_prompt_description output_field
                          (py "anthropic"))
                     (dict.values (output_variables self)))
         ++ nl ++ py "</output_fields>")]
  ++ map (example_message self) examples.

Definition messages_tail (self : PromptSignature) (kwargs : dict.t value)
  : list Message :=
  [HumanMessage
     (py "<input>" ++ nl
      ++ join nl (map (fun item =>
                     Field.format_prompt_value (snd item)
                       (get_or_none kwargs (fst item)) (py "anthropic"))
                  (input_variables self))
      ++ nl ++ py "</input>");
   HumanMessage
     (py "Respond with the output in the following format:" ++ nl
      ++ py "<output>" ++ nl ++ py "[Your response here]" ++ nl
      ++ py "</output>")].

(** [DefaultPromptStrategy._format_anthropic_prompt] *)
Definition _format_anthropic_prompt (self : PromptSignature)
  (trained_state : option TrainedState) (use_training : bool)
  (examples : list Example) (kwargs : dict.t value) : list Message :=
  messages_head self examples
  ++ (if use_trained trained_state use_training
      then trained_messages self (trained_examples trained_state)
      else [])
  ++ messages_tail self kwargs.

(** [s.split(sep)] for a non-empty separator: [skip] counts the code
    points of a separator still to pass over, [chunk] holds the current
    piece in reverse. *)
Fixpoint split_go (sep : str) (skip : nat) (chunk : str) (s : str)
  : list str :=
  match s with
  | [] => [rev chunk]
  | c :: s' =>
      match skip with
      | S k => split_go sep k chunk s'
      | O =>
          match strip_prefix sep s with
          | Some _ => rev chunk :: split_go sep (length sep - 1) [] s'
          | None => split_go sep 0 (c :: chunk) s'
          end
      end
  end.

Definition split (sep s : str) : list str := split_go sep 0 [] s.

(** The longest prefix without a colon, and what follows it. *)
Fixpoint span_name (s : str) : str * str :=
  match s with
  | [] => ([], [])
  | c :: s' =>
      if (c =? 58)%N then ([], s)
      else let '(field_name, rest) := span_name s' in (c :: field_name, rest)
  end.

(** The text up to the first newline. *)
Fixpoint line_content (s : str) : str :=
  match s with
  | [] => []
  | c :: s' => if (c =? 10)%N then [] else c :: line_content s'
  end.

(** [re.match(pattern, line, re.MULTILINE)] for the pattern of the source,
    a group of one or more characters other than a colon at the start, a
    colon and a space, and a group of any characters: the two groups.  The
    first group stops at the first colon and cannot be empty; a colon and a
    space must follow it; without [re.DOTALL] the second group ends before
    the first newline. *)
Definition match_field (line : str) : option (str * str) :=
  match span_name line with
  | ((_ :: _) as field_name, c1 :: c2 :: rest) =>
      if (c1 =? 58)%N && (c2 =? 32)%N
      then Some (field_name, line_content rest)
      else None
  | _ => None
  end.

(** What one chunk resolves to: the output field it names and its content.
    An output name that is falsy is passed over like an unknown display
    name. *)
Definition resolve_line (self : PromptSignature) (line : str)
  : option (str * str) :=
  match match_field line with
  | Some (field_name, field_content) =>
      match PromptStrategy._get_output_field self field_name with
      | Some output_field =>
          if truthy (VStr output_field)
          then Some (output_field, field_content)
          else None
      | None => None
      end
  | None => None
  end.

(** One turn of the loop over the chunks. *)
Definition parse_line (self : PromptSignature) (parsed_fields : dict.t value)
  (line : str) : dict.t value :=
  match resolve_line self line with
  | Some (output_field, field_content) =>
      dict.set parsed_fields output_field (VStr field_content)
  | None => parsed_fields
  end.

(** [next(iter(parsed_fields.values()), None)] *)
Definition first_value (parsed_fields : dict.t value) : value :=
  match dict.values parsed_fields with
  | v :: _ => v
  | [] => VNone
  end.

(** [DefaultPromptStrategy._parse_openai_output_to_fields]; the [except]
    clause re-raises what it catches. *)
Definition _parse_openai_output_to_fields (self : PromptSignature)
  (output : RawOutput) : result (dict.t value) :=
  match output with
  | RawMessage _ => raise (AttributeError (py "split"))
  | RawStr output =>
      let lines := split OUTPUT_TOKEN output in
      let parsed_fields := fold_left (parse_line self) lines dict.empty in
      if length (output_variables self) =? 1 then
        if negb (truthy (first_value parsed_fields)) then
          match dict.keys (output_variables self) with
          | key :: _ =>
              ret (dict.set parsed_fields key (VStr (last lines [])))
          | [] => raise IndexError
          end
        else ret parsed_fields
      else ret parsed_fields
  end.

(** The pattern [fr"<{name}>(.*?)</{name}>"] *)
Definition tag_pattern (name : str) : str :=
  py "<" ++ name ++ py ">(.*?)</" ++ name ++ py ">".

(** One turn of the loop of the tagged-markup parser. *)
Definition parse_tag (output : str) (parsed_fields : dict.t value)
  (item : str * Field.t) : result (dict.t value) :=
  let '(output_name, output_field) := item in
  matches <- re_findall (tag_pattern (Field.name output_field)) output ;;
  match matches with
  | [] => ret parsed_fields
  | first :: _ =>
      match last matches first with
      | MStr last_match =>
          ret (dict.set parsed_fields output_name (VStr (strip last_match)))
      | MTuple _ => raise (AttributeError (py "strip"))
      end
  end.

(** [DefaultPromptStrategy._parse_anthropic_output_to_fields]; the [except]
    clause re-raises what it catches. *)
Definition _parse_anthropic_output_to_fields (self : PromptSignature)
  (output : RawOutput) : result (dict.t value) :=
  let output :=
    match output with
    | RawMessage content => content
    | RawStr s => s
    end in
  foldM (parse_tag output) (output_variables self) dict.empty.

(** [name in json_output] *)
Definition json_contains (json_output : value) (name : str) : result bool :=
  match json_output with
  | VDict d => ret (dict.contains d name)
  | VList l => ret (existsb (fun v => value_is_str v name) l)
  | VStr s => ret (is_substring name s)
  | _ => raise TypeError
  end.

(** [json_output[name]] *)
Definition json_getitem (json_output : value) (name : str) : result value :=
  match json_output with
  | VDict d =>
      match dict.get d name with
      | Some v => ret v
      | None => raise (KeyError name)
      end
  | _ => raise TypeError
  end.

(** One turn of the loop of the JSON parser. *)
Definition parse_json_field (json_output : value)
  (parsed_fields : dict.t value) (item : str * Field.t)
  : result (dict.t value) :=
  let '(output_name, output_field) := item in
  present <- json_contains json_output (Field.name output_field) ;;
  if (present : bool) then
    field_value <- json_getitem json_output (Field.name output_field) ;;
    ret (dict.set parsed_fields output_name
           (Field.transform_value output_field field_value))
  else ret (dict.set parsed_fields output_name VNone).

(** [DefaultPromptStrategy._parse_openai_json_output_to_fields]; both
    [except] clauses re-raise what they catch.  [json.loads] raises
    [TypeError] on what is not a string. *)
Definition _parse_openai_json_output_to_fields (self : PromptSignature)
  (output : RawOutput) : result (dict.t value) :=
  match output with
  | RawMessage _ => raise TypeError
  | RawStr s =>
      match json_loads s with
      | None => raise JSONDecodeError
      | Some json_output =>
          foldM (parse_json_field json_output) (output_variables self)
            dict.empty
      end
  end.

(** [DefaultPromptStrategy] as an implementation of the abstract methods. *)
Definition strategy : PromptStrategy.methods :=
  {| PromptStrategy._format_openai_prompt := fun self ts ut ex kw =>
       ret (PromptText (_format_openai_prompt self ts ut ex kw));
     PromptStrategy._format_openai_json_prompt := fun self ts ut ex kw =>
       ret (PromptText (_format_openai_json_prompt self ts ut ex kw));
     PromptStrategy._format_anthropic_prompt := fun self ts ut ex kw =>
       ret (PromptMessages (_format_anthropic_prompt self ts ut ex kw));
     PromptStrategy._parse_openai_output_to_fields :=
       _parse_openai_output_to_fields;
     PromptStrategy._parse_anthropic_output_to_fields :=
       _parse_anthropic_output_to_fields;
     PromptStrategy._parse_openai_json_output_to_fields :=
       _parse_openai_json_output_to_fields |}.

End Library.
End DefaultPromptStrategy.

(** ** Library instances

    Executable stand-ins for the library parameters, used to run the
    strategy on concrete inputs. *)

Module Reference.

(** *** A decoder for JSON texts

    It reads the JSON grammar without [\u] escapes and without the
    literals [NaN] and [Infinity]; numbers with a fraction or an exponent
    become [VFloat]. *)

Definition is_json_ws (c : char) : bool :=
  ((c =? 32) || (c =? 9) || (c =? 10) || (c =? 13))%N.

Fixpoint skip_ws (s : str) : str :=
  match s with
  | c :: s' => if is_json_ws c then skip_ws s' else s
  | [] => []
  end.

Definition unescape (c : char) : option char :=
  (if c =? 34 then Some 34
   else if c =? 92 then Some 92
   else if c =? 47 then Some 47
   else if c =? 98 then Some 8
   else if c =? 102 then Some 12
   else if c =? 110 then Some 10
   else if c =? 114 then Some 13
   else if c =? 116 then Some 9
   else None)%N.

(** The characters of a string literal after its opening quote, and what
    follows the closing quote. *)
Fixpoint string_body (s : str) : option (str * str) :=
  match s with
  | [] => None
  | c :: s' =>
      if (c =? 34)%N then Some ([], s')
      else if (c =? 92)%N then
        match s' with
        | e :: s'' =>
            match unescape e, string_body s'' with
            | Some u, Some (body, rest) => Some (u :: body, rest)
            | _, _ => None
            end
        | [] => None
        end
      else if (c <? 32)%N then None
      else match string_body s' with
           | Some (body, rest) => Some (c :: body, rest)
           | None => None
           end
  end.

Definition is_digit (c : char) : bool := ((48 <=? c) && (c <=? 57))%N.

(** The digits at the front of [s], as a number and a count, and the rest. *)
Fixpoint digits (acc : Z) (count : nat) (s : str) : Z * nat * str :=
  match s with
  | c :: s' =>
      if is_digit c
      then digits (10 * acc + Z.of_N (c - 48)) (S count) s'
      else (acc, count, s)
  | [] => (acc, count, [])
  end.

(** A number without its sign: an integer part without a leading zero, an
    optional fraction, an optional exponent. *)
Definition unsigned_number (s : str) : option (value * str) :=
  match s with
  | [] => None
  | c :: s' =>
      if negb (is_digit c) then None
      else
        let '(int_part, _, rest) :=
          if (c =? 48)%N then (0%Z, 1, s') else digits 0 0 s in
        let '(has_frac, mantissa, scale, rest) :=
          match rest with
          | d :: f =>
              if (d =? 46)%N
              then let '(m, k, r) := digits int_part 0 f in (true, m, k, r)
              else (false, int_part, 0, rest)
          | [] => (false, int_part, 0, rest)
          end in
        if has_frac && (scale =? 0) then None
        else
          match rest with
          | e :: x =>
              if ((e =? 101) || (e =? 69))%N then
                let '(negative, x) :=
                  match x with
                  | sign :: y =>
                      if (sign =? 45)%N then (true, y)
                      else if (sign =? 43)%N then (false, y)
                      else (false, x)
                  | [] => (false, x)
                  end in
                let '(exponent, k, r) := digits 0 0 x in
                if k =? 0 then None
                else Some (VFloat mantissa
                             ((if negative then - exponent else exponent)
                              - Z.of_nat scale)%Z, r)
              else if has_frac
                   then Some (VFloat mantissa (- Z.of_nat scale)%Z, rest)
                   else Some (VInt mantissa, rest)
          | [] =>
              if has_frac
              then Some (VFloat mantissa (- Z.of_nat scale)%Z, rest)
              else Some (VInt mantissa, rest)
          end
  end.

Definition negate (v : value) : value :=
  match v with
  | VInt z => VInt (- z)
  | VFloat m e => VFloat (- m) e
  | _ => v
  end.

(** A JSON value at the front of [s]; [fuel] bounds the nesting and the
    number of members and elements. *)
Fixpoint json_value (fuel : nat) (s : str) : option (value * str) :=
  match fuel with
  | O => None
  | S fuel' =>
      match skip_ws s with
      | [] => None
      | c :: s' =>
          if (c =? 123)%N then
            match skip_ws s' with
            | d :: s'' =>
                if (d =? 125)%N then Some (VDict [], s'')
                else json_members fuel' dict.empty (skip_ws s')
            | [] => None
            end
          else if (c =? 91)%N then
            match skip_ws s' with
            | d :: s'' =>
                if (d =? 93)%N then Some (VList [], s'')
                else json_elements fuel' [] (skip_ws s')
            | [] => None
            end
          else if (c =? 34)%N then
            match string_body s' with
            | Some (body, rest) => Some (VStr body, rest)
            | None => None
            end
          else if (c =? 45)%N then
            match unsigned_number s' with
            | Some (v, rest) => Some (negate v, rest)
            | None => None
            end
          else if is_digit c then unsigned_number (c :: s')
          else
            match strip_prefix (py "true") (c :: s'),
                  strip_prefix (py "false") (c :: s'),
                  strip_prefix (py "null") (c :: s') with
            | Some rest, _, _ => Some (VBool true, rest)
            | _, Some rest, _ => Some (VBool false, rest)
            | _, _, Some rest => Some (VNone, rest)
            | _, _, _ => None
            end
      end
  end
with json_members (fuel : nat) (acc : dict.t value) (s : str)
  : option (value * str) :=
  match fuel with
  | O => None
  | S fuel' =>
      match s with
      | q :: s' =>
          if negb (q =? 34)%N then None
          else
            match string_body s' with
            | None => None
            | Some (key, rest) =>
                match skip_ws rest with
                | colon :: rest' =>
                    if negb (colon =? 58)%N then None
                    else
                      match json_value fuel' rest' with
                      | None => None
                      | Some (v, rest'') =>
                          match skip_ws rest'' with
                          | sep :: more =>
                              if (sep =? 125)%N
                              then Some (VDict (dict.set acc key v), more)
                              else if (sep =? 44)%N
                              then json_members fuel' (dict.set acc key v)
                                     (skip_ws more)
                              else None
                          | [] => None
                          end
                      end
                | [] => None
                end
            end
      | [] => None
      end
  end
with json_elements (fuel : nat) (acc : list value) (s : str)
  : option (value * str) :=
  match fuel with
  | O => None
  | S fuel' =>
      match json_value fuel' s with
      | None => None
      | Some (v, rest) =>
          match skip_ws rest with
          | sep :: more =>
              if (sep =? 93)%N then Some (VList (acc ++ [v]), more)
              else if (sep =? 44)%N
              then json_elements fuel' (acc ++ [v]) more
              else None
          | [] => None
          end
      end
  end.

(** The decoder: one value, with nothing but white space after it. *)
Definition json_loads (s : str) : option value :=
  match json_value (S (length s)) s with
  | Some (v, rest) =>
      match skip_ws rest with
      | [] => Some v
      | _ :: _ => None
      end
  | None => None
  end.

(** *** A matcher for a fragment of the [re] pattern syntax

    The fragment: literal characters, the dot, the quantifiers [?], [*] and
    [+] on one character, greedy or lazy, and capture groups that are
    neither nested nor quantified.  Patterns outside of it, and patterns
    that can match the empty string, are not handled. *)

Inductive atom : Type :=
| AChar (c : char)
| AAny.

Inductive quant : Type := QOpt | QStar | QPlus.

Inductive instr : Type :=
| IAtom (a : atom)
| IRepeat (a : atom) (q : quant) (greedy : bool)
| IOpen
| IClose.

(** The characters with a meaning of their own in a pattern. *)
Definition is_meta (c : char) : bool :=
  existsb (N.eqb c) (py "\.^$*+?{}[]|()").

(** A name the pattern takes literally: no character of it is special. *)
Definition regex_literal (name : str) : bool :=
  forallb (fun c => negb (is_meta c)) name.

Definition quant_of (c : char) : option quant :=
  (if c =? 63 then Some QOpt
   else if c =? 42 then Some QStar
   else if c =? 43 then Some QPlus
   else None)%N.

(** What the compiler has read and not yet emitted: an atom that a
    quantifier may follow, or a quantified atom that [?] may make lazy. *)
Inductive pending : Type :=
| PNone
| PAtom (a : atom)
| PRepeat (a : atom) (q : quant).

Definition flush (p : pending) : list instr :=
  match p with
  | PNone => []
  | PAtom a => [IAtom a]
  | PRepeat a q => [IRepeat a q true]
  end.

Definition emit (p : pending) (more : option (list instr))
  : option (list instr) :=
  option_map (app (flush p)) more.

Fixpoint compile (p : pending) (in_group : bool) (pattern : str)
  : option (list instr) :=
  match pattern with
  | [] => if in_group then None else Some (flush p)
  | c :: rest =>
      match quant_of c with
      | Some q =>
          match p with
          | PNone => None
          | PAtom a => compile (PRepeat a q) in_group rest
          | PRepeat a q0 =>
              if (c =? 63)%N
              then option_map (cons (IRepeat a q0 false))
                     (compile PNone in_group rest)
              else None
          end
      | None =>
          if (c =? 40)%N then
            if in_group then None
            else emit p (option_map (cons IOpen) (compile PNone true rest))
          else if (c =? 41)%N then
            if in_group
            then emit p (option_map (cons IClose) (compile PNone false rest))
            else None
          else if (c =? 46)%N then emit p (compile (PAtom AAny) in_group rest)
          else if is_meta c then None
          else emit p (compile (PAtom (AChar c)) in_group rest)
      end
  end.

(** With [re.DOTALL] the dot matches every character. *)
Definition atom_matches (a : atom) (c : char) : bool :=
  match a with
  | AChar x => N.eqb x c
  | AAny => true
  end.

(** The state of a match attempt: the groups closed so far, last first; the
    text of the open group, reversed; the number of characters consumed. *)
Record mstate : Type := {
  groups : list str;
  open_group : option str;
  consumed : nat
}.

Definition start : mstate :=
  {| groups := []; open_group := None; consumed := 0 |}.

Definition take_char (st : mstate) (c : char) : mstate :=
  {| groups := groups st;
     open_group := option_map (cons c) (open_group st);
     consumed := S (consumed st) |}.

Definition open_ (st : mstate) : mstate :=
  {| groups := groups st; open_group := Some []; consumed := consumed st |}.

Definition close_ (st : mstate) : mstate :=
  {| groups := rev (pop (open_group st) []) :: groups st;
     open_group := None;
     consumed := consumed st |}.

(** The first alternative that succeeds. *)
Definition or_else {A : Type} (first second : option A) : option A :=
  match first with
  | Some r => Some r
  | None => second
  end.

(** A backtracking match of the instructions at the front of the text. *)
Fixpoint run (prog : list instr) : str -> mstate -> option mstate :=
  match prog with
  | [] => fun _ st => Some st
  | IAtom a :: p =>
      fun s st =>
        match s with
        | c :: s' => if atom_matches a c then run p s' (take_char st c) else None
        | [] => None
        end
  | IOpen :: p => fun s st => run p s (open_ st)
  | IClose :: p => fun s st => run p s (close_ st)
  | IRepeat a q greedy :: p =>
      let k := run p in
      let step (more : str -> mstate -> option mstate) s st :=
        match s with
        | c :: s' => if atom_matches a c then more s' (take_char st c) else None
        | [] => None
        end in
      let star :=
        fix star (s : str) (st : mstate) {struct s} : option mstate :=
          let again :=
            match s with
            | c :: s' =>
                if atom_matches a c then star s' (take_char st c) else None
            | [] => None
            end in
          if greedy then or_else again (k s st) else or_else (k s st) again in
      match q with
      | QStar => star
      | QPlus => step star
      | QOpt =>
          fun s st =>
            if greedy then or_else (step k s st) (k s st)
            else or_else (k s st) (step k s st)
      end
  end.

(** What [findall] lists for a match: the matched text without groups, the
    group with one, the tuple of groups with several. *)
Definition match_item (s : str) (st : mstate) : re_match :=
  match rev (groups st) with
  | [] => MStr (firstn (consumed st) s)
  | [g] => MStr g
  | gs => MTuple gs
  end.

(** The matches from left to right, without overlap; [skip] counts the
    characters of the last match still to pass over. *)
Fixpoint findall_go (prog : list instr) (skip : nat) (s : str)
  : option (list re_match) :=
  match s with
  | [] => Some []
  | _ :: s' =>
      match skip with
      | S n => findall_go prog n s'
      | O =>
          match run prog s start with
          | None => findall_go prog 0 s'
          | Some st =>
              match consumed st with
              | O => None
              | S n => option_map (cons (match_item s st))
                         (findall_go prog n s')
              end
          end
      end
  end.

(** [re.findall] on the fragment; [None] outside of it. *)
Definition findall_fragment (pattern text : str)
  : option (list re_match) :=
  match compile PNone false pattern with
  | None => None
  | Some prog =>
      match run prog [] start with
      | Some _ => None
      | None => findall_go prog 0 text
      end
  end.

(** The stand-in for [re.findall].  It is [re.findall] on the fragment;
    outside of it the value is a placeholder, and nothing is derived from
    it. *)
Definition re_findall (pattern text : str) : result (list re_match) :=
  match findall_fragment pattern text with
  | Some matches => ret matches
  | None => raise ReError
  end.

(** The state after consuming a text. *)
Definition take_chars (st : mstate) (text : str) : mstate :=
  fold_left take_char text st.

(** The instructions of a literal text. *)
Definition atoms (text : str) : list instr :=
  map (fun c => IAtom (AChar c)) text.

(** What the pattern of a tag compiles to when the name is literal. *)
Definition tag_program (name : str) : list instr :=
  atoms (py "<" ++ name ++ py ">")
  ++ [IOpen; IRepeat AAny QStar false; IClose]
  ++ atoms (py "</" ++ name ++ py ">").

(** A stand-in for [json.dumps]: the renderers only concatenate what it
    returns, and this one writes the keys of a dict. *)
Definition json_dumps (v : value) : str :=
  match v with
  | VDict d => py "{" ++ join (py ", ") (dict.keys d) ++ py "}"
  | _ => py "null"
  end.

(** A descriptor that accepts every value and passes it on, and formats
    itself as [name: text]. *)
Definition plain_field (name desc : str) (optional : bool) : Field.t :=
  {| Field.name := name;
     Field.desc := desc;
     Field.optional := optional;
     Field.validate_value := fun _ => true;
     Field.transform_value := fun v => v;
     Field.format_prompt_description := fun _ => name ++ py ": " ++ desc;
     Field.format_prompt_value := fun v _ =>
       name ++ py ": " ++ match v with VStr s => s | _ => [] end;
     Field.format_prompt_value_json := fun v _ => [(name, v)];
     Field.format_prompt := fun _ => name ++ py ":";
     Field.format_prompt_json := fun _ => [(name, VStr [])] |}.

End Reference.

(** ** The conditions the specification states *)

(** Some name of [names] is no key of [declared]. *)
Definition undeclared (declared : dict.t Field.t) (names : list str) : bool :=
  existsb (fun name => negb (dict.contains declared name)) names.

(** Following the specification: an example is rejected when an input key
    is undeclared, an output key is undeclared, or the output is scalar
    while more than one output field is declared. *)
Definition rejected_as_specified (self : PromptSignature) (example : Example)
  : bool :=
  undeclared (input_variables self) (dict.keys (fst example))
  || match snd example with
     | VDict d => undeclared (output_variables self) (dict.keys d)
     | _ => 1 <? length (output_variables self)
     end.

(** The roles [__init__] tells apart, in the order it tests them. *)
Definition input_role (item : str * ModelField) : bool :=
  is_InputField (type_ (snd item)).

Definition output_role (item : str * ModelField) : bool :=
  negb (is_InputField (type_ (snd item)))
  && is_OutputField (type_ (snd item)).

Definition hint_role (item : str * ModelField) : bool :=
  negb (is_InputField (type_ (snd item)))
  && negb (is_OutputField (type_ (snd item)))
  && is_HintField (type_ (snd item)).


(** The entry a role mapping holds for a declared field. *)
Definition role_entry (item : str * ModelField) : str * Field.t :=
  (fst item, default (snd item)).

(** Following the specification: the texts between a tag and the first
    closing tag after it, for the occurrences of the tag from left to
    right, an occurrence starting where the one before it has ended. *)
Fixpoint until_tag (close s : str) : option (str * str) :=
  match strip_prefix close s with
  | Some rest => Some ([], rest)
  | None =>
      match s with
      | [] => None
      | c :: s' =>
          match until_tag close s' with
          | Some (body, rest) => Some (c :: body, rest)
          | None => None
          end
      end
  end.

Fixpoint find_tags_go (opening close : str) (skip : nat) (s : str)
  : list str :=
  match s with
  | [] => []
  | _ :: s' =>
      match skip with
      | S n => find_tags_go opening close n s'
      | O =>
          match strip_prefix opening s with
          | None => find_tags_go opening close 0 s'
          | Some inner =>
              match until_tag close inner with
              | None => find_tags_go opening close 0 s'
              | Some (body, _) =>
                  body :: find_tags_go opening close
                            (length opening + length body + length close - 1)
                            s'
              end
          end
      end
  end.

Definition find_tags (name text : str) : list str :=
  find_tags_go (py "<" ++ name ++ py ">") (py "</" ++ name ++ py ">") 0 text.

(** The text a raw output stands for. *)
Definition text_of (output : RawOutput) : str :=
  match output with
  | RawStr s => s
  | RawMessage content => content
  end.

(** A declared input passes validation: it is present and its validator
    accepts the value, or it is absent and optional. *)
Definition accepts (input_dict : dict.t value) (item : str * Field.t) : bool :=
  match dict.get input_dict (fst item) with
  | Some value => Field.validate_value (snd item) value
  | None => Field.optional (snd item)
  end.

(** ** Sample signatures *)

Module Samples.

Definition input_class : PyClass :=
  {| is_InputField := true; is_OutputField := false; is_HintField := false |}.
Definition output_class : PyClass :=
  {| is_InputField := false; is_OutputField := true; is_HintField := false |}.
Definition hint_class : PyClass :=
  {| is_InputField := false; is_OutputField := false; is_HintField := true |}.
(** The class of a field that is no descriptor, [str] for one. *)
Definition other_class : PyClass :=
  {| is_InputField := false; is_OutputField := false; is_HintField := false |}.

Definition field_of (cls : PyClass) (name desc : str) : ModelField :=
  {| type_ := cls; default := Reference.plain_field name desc false |}.

(** A signature class with one input, one output, and the [instance_id]
    field every [PromptSignature] declares. *)
Definition qa_class : SignatureClass :=
  {| __fields__ :=
       [(py "instance_id", field_of other_class (py "instance_id") []);
        (py "question", field_of input_class (py "Question") (py "asked"));
        (py "answer", field_of output_class (py "Answer") (py "given"))];
     class_examples := [] |}.

Definition signature_of (cls : SignatureClass) : PromptSignature :=
  let r := role_mappings (__fields__ cls) in
  {| input_variables := inputs r;
     output_variables := outputs r;
     hint_variables := hints r;
     __examples__ := class_examples cls |}.

Definition qa : PromptSignature := signature_of qa_class.

(** Two outputs, [summary] and [score]. *)
Definition summary_score : PromptSignature :=
  signature_of
    {| __fields__ :=
         [(py "text", field_of input_class (py "text") (py "to sum up"));
          (py "summary", field_of output_class (py "summary") (py "short"));
          (py "score", field_of output_class (py "score") (py "1 to 5"))];
       class_examples := [] |}.

(** Two outputs, [a] and [b]. *)
Definition a_b : PromptSignature :=
  signature_of
    {| __fields__ :=
         [(py "a", field_of output_class (py "a") (py "first"));
          (py "b", field_of output_class (py "b") (py "second"))];
       class_examples := [] |}.

(** No output field, and an example with a scalar output. *)
Definition no_output : PromptSignature :=
  signature_of
    {| __fields__ :=
         [(py "question", field_of input_class (py "Question") (py "asked"))];
       class_examples :=
         [([(py "question", VStr (py "why"))], VStr (py "because"))] |}.

(** An output whose display name holds parentheses. *)
Definition rated : PromptSignature :=
  signature_of
    {| __fields__ :=
         [(py "rating", field_of output_class (py "Score (1-5)") (py "mark"))];
       class_examples := [] |}.

(** A call that asks for a convention the strategy does not know. *)
Definition mistral_call : Kwargs :=
  {| kw_llm_type := Some (VStr (py "mistral"));
     kw_trained_state := None;
     kw_use_training := None;
     kw_examples := None;
     kw_inputs := [(py "question", VStr (py "why"))] |}.

Definition strategy : PromptStrategy.methods :=
  DefaultPromptStrategy.strategy Reference.json_dumps Reference.json_loads
    Reference.re_findall.

End Samples.

(** ** PromptStrategy.validate_inputs *)

(** [k in keys] for a set of keys. *)
Definition key_in (keys : list str) (k : str) : bool :=
  existsb (str_eqb k) keys.

(** [a - b] on sets of keys, kept as lists whose order means nothing. *)
Definition set_difference (a b : list str) : list str :=
  filter (fun k => negb (key_in b k)) a.

(** [a == b] on sets of keys. *)
Definition set_eqb (a b : list str) : bool :=
  forallb (key_in b) a && forallb (key_in a) b.

(** The [ValueError] of [validate_inputs], as the four sets its text is
    joined from; the text names the first two only when they are not
    empty. *)
Record KeyMismatch : Type := {
  missing_keys : list str;
  unexpected_keys : list str;
  expected_keys : list str;
  received_keys : list str
}.

(** What [validate_inputs] hands to [logger.error]. *)
Inductive KeyLog : Type :=
| LogMissingKeys (keys : list str)
| LogUnexpectedKeys (keys : list str)
| LogKeysDoNotMatch (expected received : list str).

(** [PromptStrategy.validate_inputs]: the records logged, and [None] or the
    error raised. *)
Definition validate_inputs (self : PromptSignature)
  (inputs_dict : dict.t value) : list KeyLog * (KeyMismatch + unit) :=
  let expected := dict.keys (input_variables self) in
  let received := dict.keys inputs_dict in
  if negb (set_eqb expected received) then
    let missing := set_difference expected received in
    let unexpected := set_difference received expected in
    ((match missing with [] => [] | _ :: _ => [LogMissingKeys missing] end)
     ++ (match unexpected with
         | [] => []
         | _ :: _ => [LogUnexpectedKeys unexpected]
         end)
     ++ [LogKeysDoNotMatch expected received],
     inl {| missing_keys := missing;
            unexpected_keys := unexpected;
            expected_keys := expected;
            received_keys := received |})
  else ([], inr tt).

(** ** Texts a model answers with *)

(** An example whose scalar output is bound to the output [key]. *)
Definition as_mapping (key : str) (example : Example) : Example :=
  (fst example,
   if is_dict (snd example) then snd example
   else VDict [(key, snd example)]).



(** One answer in the tagged-markup convention. *)
Definition tagged (name content : str) : str :=
  py "<" ++ name ++ py ">" ++ content ++ py "</" ++ name ++ py ">".

(** The answers to all output fields, each in its tag, with text between
    them. *)
Definition tagged_answer (self : PromptSignature) (answer between : str -> str)
  : str :=
  concat (map (fun item =>
                 between (fst item)
                 ++ tagged (Field.name (snd item)) (answer (fst item)))
            (output_variables self)).

(** ** Further sample signatures *)

Module Cases.

(** A required input whose validator accepts strings only. *)
Definition string_field (name desc : str) : Field.t :=
  {| Field.name := name;
     Field.desc := desc;
     Field.optional := false;
     Field.validate_value := fun v =>
       match v with VStr _ => true | _ => false end;
     Field.transform_value := fun v => v;
     Field.format_prompt_description := fun _ => name ++ py ": " ++ desc;
     Field.format_prompt_value := fun v _ =>
       name ++ py ": " ++ match v with VStr s => s | _ => [] end;
     Field.format_prompt_value_json := fun v _ => [(name, v)];
     Field.format_prompt := fun _ => name ++ py ":";
     Field.format_prompt_json := fun _ => [(name, VStr [])] |}.

(** One required string input and one output. *)
Definition strict : PromptSignature :=
  {| input_variables :=
       [(py "question", string_field (py "Question") (py "asked"))];
     output_variables :=
       [(py "answer", Reference.plain_field (py "Answer") (py "given") false)];
     hint_variables := [];
     __examples__ := [] |}.

(** The class of [Samples.qa] with two inline examples, one with a scalar
    output and one with a dict output. *)
Definition qa_examples_class : SignatureClass :=
  {| __fields__ := __fields__ Samples.qa_class;
     class_examples :=
       [([(py "question", VStr (py "who"))], VStr (py "me"));
        ([(py "question", VStr (py "when"))],
         VDict [(py "answer", VStr (py "now"))])] |}.

End Cases.

(** * Properties *)

(** ** Strings and dictionaries *)

Lemma str_eqb_eq (a b : str) : str_eqb a b = true <-> a = b.
Proof.
  revert b; induction a as [|x a IH]; intros [|y b]; simpl; split;
    try congruence; try reflexivity.
  - intros H. apply andb_true_iff in H. destruct H as [H1 H2].
    apply N.eqb_eq in H1. apply IH in H2. congruence.
  - intros H. injection H as -> ->. rewrite N.eqb_refl. simpl. now apply IH.
Qed.

Lemma str_eqb_refl (a : str) : str_eqb a a = true.
Proof. now apply str_eqb_eq. Qed.

Lemma str_eqb_neq (a b : str) : str_eqb a b = false <-> a <> b.
Proof.
  split.
  - intros H E. apply str_eqb_eq in E. congruence.
  - intros H. destruct (str_eqb a b) eqn:E; [|reflexivity].
    apply str_eqb_eq in E. contradiction.
Qed.

Lemma str_eqb_sym (a b : str) : str_eqb a b = str_eqb b a.
Proof.
  destruct (str_eqb a b) eqn:E.
  - apply str_eqb_eq in E. subst. symmetry. apply str_eqb_refl.
  - symmetry. apply str_eqb_neq. apply str_eqb_neq in E. congruence.
Qed.

Lemma strip_prefix_app (p s : str) : strip_prefix p (p ++ s) = Some s.
Proof. induction p as [|c p IH]; simpl; [reflexivity|]. now rewrite N.eqb_refl. Qed.

Lemma strip_prefix_Some (p s r : str) : strip_prefix p s = Some r -> s = p ++ r.
Proof.
  revert s; induction p as [|c p IH]; intros s; simpl.
  - congruence.
  - destruct s as [|d s]; [discriminate|].
    destruct (N.eqb c d) eqn:E; [|discriminate].
    apply N.eqb_eq in E. subst d. intros H. apply IH in H. now subst.
Qed.

Lemma dict_get_set_same {V : Type} (d : dict.t V) k v :
  dict.get (dict.set d k v) k = Some v.
Proof.
  induction d as [|[k' v'] d IH]; simpl.
  - now rewrite str_eqb_refl.
  - destruct (str_eqb k k') eqn:E; simpl.
    + now rewrite str_eqb_refl.
    + now rewrite E.
Qed.

Lemma dict_get_set_other {V : Type} (d : dict.t V) k k' v :
  k' <> k -> dict.get (dict.set d k v) k' = dict.get d k'.
Proof.
  intros Hne. induction d as [|[k0 v0] d IH]; simpl.
  - apply str_eqb_neq in Hne. now rewrite Hne.
  - destruct (str_eqb k k0) eqn:E; simpl.
    + apply str_eqb_eq in E. subst k0.
      apply str_eqb_neq in Hne. now rewrite Hne.
    + destruct (str_eqb k' k0); [reflexivity|apply IH].
Qed.

Lemma dict_in_keys_set {V : Type} (d : dict.t V) k v k' :
  In k' (dict.keys (dict.set d k v)) <-> k' = k \/ In k' (dict.keys d).
Proof.
  unfold dict.keys. induction d as [|[k0 v0] d IH]; simpl.
  - intuition.
  - destruct (str_eqb k k0) eqn:E; simpl.
    + apply str_eqb_eq in E. subst k0. intuition.
    + rewrite IH. intuition.
Qed.

Lemma dict_get_in_keys {V : Type} (d : dict.t V) k v :
  dict.get d k = Some v -> In k (dict.keys d).
Proof.
  unfold dict.keys. induction d as [|[k0 v0] d IH]; simpl; [discriminate|].
  destruct (str_eqb k k0) eqn:E.
  - apply str_eqb_eq in E. now left.
  - intros H. right. now apply IH.
Qed.

Lemma dict_in_keys_get {V : Type} (d : dict.t V) k :
  In k (dict.keys d) -> exists v, dict.get d k = Some v.
Proof.
  unfold dict.keys. induction d as [|[k0 v0] d IH]; simpl; [contradiction|].
  intros [->|H].
  - rewrite str_eqb_refl. now exists v0.
  - destruct (str_eqb k k0); [now exists v0|now apply IH].
Qed.

Lemma dict_get_None {V : Type} (d : dict.t V) k :
  dict.get d k = None <-> ~ In k (dict.keys d).
Proof.
  split.
  - intros H Hin. apply dict_in_keys_get in Hin. destruct Hin as [v Hv].
    congruence.
  - intros H. destruct (dict.get d k) eqn:E; [|reflexivity].
    apply dict_get_in_keys in E. contradiction.
Qed.

Lemma dict_contains_iff {V : Type} (d : dict.t V) k :
  dict.contains d k = true <-> In k (dict.keys d).
Proof.
  unfold dict.contains. split.
  - destruct (dict.get d k) eqn:E; [|discriminate]. intros _.
    eapply dict_get_in_keys; eauto.
  - intros H. apply dict_in_keys_get in H. destruct H as [v ->]. reflexivity.
Qed.

Lemma dict_contains_false {V : Type} (d : dict.t V) k :
  dict.contains d k = false <-> ~ In k (dict.keys d).
Proof.
  rewrite <- dict_contains_iff. destruct (dict.contains d k); split;
    congruence.
Qed.

Lemma dict_set_fresh {V : Type} (d : dict.t V) k v :
  ~ In k (dict.keys d) -> dict.set d k v = d ++ [(k, v)].
Proof.
  unfold dict.keys. induction d as [|[k0 v0] d IH]; simpl; [reflexivity|].
  intros H. destruct (str_eqb k k0) eqn:E.
  - apply str_eqb_eq in E. subst. exfalso. apply H. now left.
  - f_equal. apply IH. intros Hin. apply H. now right.
Qed.

Lemma dict_wf_set {V : Type} (d : dict.t V) k v :
  dict.wf d -> dict.wf (dict.set d k v).
Proof.
  unfold dict.wf, dict.keys. induction d as [|[k0 v0] d IH]; simpl; intros H.
  - constructor; [intros []|constructor].
  - inversion H as [|? ? Hnin Hnd]; subst.
    destruct (str_eqb k k0) eqn:E; simpl.
    + apply str_eqb_eq in E. subst k0. now constructor.
    + constructor; [|now apply IH].
      intros Hin. apply (dict_in_keys_set d k v k0) in Hin.
      destruct Hin as [->|Hin]; [|contradiction].
      now rewrite str_eqb_refl in E.
Qed.

Lemma dict_keys_app {V : Type} (d d' : dict.t V) :
  dict.keys (d ++ d') = dict.keys d ++ dict.keys d'.
Proof. unfold dict.keys. apply map_app. Qed.

(** A loop that stores one value per item of a dict with unique keys builds
    the dict of these values, in the same order. *)
Lemma fold_set_fresh {V W : Type} (h : str -> V -> W) (l : dict.t V)
  (acc : dict.t W) :
  NoDup (dict.keys acc ++ dict.keys l) ->
  fold_left (fun a item => dict.set a (fst item) (h (fst item) (snd item)))
    l acc
  = acc ++ map (fun item => (fst item, h (fst item) (snd item))) l.
Proof.
  revert acc. induction l as [|[k v] l IH]; intros acc Hnd; simpl.
  - now rewrite app_nil_r.
  - simpl in Hnd. rewrite dict_set_fresh.
    + rewrite IH.
      * now rewrite <- app_assoc.
      * rewrite dict_keys_app. simpl. rewrite <- app_assoc. exact Hnd.
    + intros Hin. apply NoDup_remove_2 in Hnd. apply Hnd.
      apply in_or_app. now left.
Qed.

Lemma dict_get_map {V W : Type} (h : str -> V -> W) (l : dict.t V) k :
  dict.get (map (fun item => (fst item, h (fst item) (snd item))) l) k
  = option_map (h k) (dict.get l k).
Proof.
  induction l as [|[k0 v0] l IH]; simpl; [reflexivity|].
  destruct (str_eqb k k0) eqn:E; [|exact IH].
  apply str_eqb_eq in E. now subst.
Qed.

Lemma dict_keys_map {V W : Type} (h : str -> V -> W) (l : dict.t V) :
  dict.keys (map (fun item => (fst item, h (fst item) (snd item))) l)
  = dict.keys l.
Proof.
  unfold dict.keys. rewrite map_map. simpl. reflexivity.
Qed.

(** ** The error monad *)

Lemma foldM_ret {A S : Type} (body : S -> A -> result S) (g : S -> A -> S)
  (l : list A) (s : S) :
  (forall s x, In x l -> body s x = ret (g s x)) ->
  foldM body l s = ret (fold_left g l s).
Proof.
  revert s. induction l as [|x l IH]; intros s H; simpl; [reflexivity|].
  rewrite H by now left. simpl. apply IH. intros s' y Hy. apply H. now right.
Qed.

Lemma for_each_returns {A : Type} (body : A -> result unit) (l : list A) :
  returns (for_each body l) = forallb (fun x => returns (body x)) l.
Proof.
  induction l as [|x l IH]; simpl; [reflexivity|].
  destruct (body x) as [e|[]]; simpl; [reflexivity|exact IH].
Qed.

(** ** The dispatch entry points *)

(** C1: every call of [format_prompt] raises before a renderer is reached:
    the [try] block reads the local [output], which nothing has bound, so
    the call ends in [UnboundLocalError], a [NameError], which the handler
    logs and raises again.  The outcome is the same for every implementation
    of the renderers, every signature and all keyword arguments. *)
Theorem format_prompt_raises_before_dispatch :
  forall (strategy : PromptStrategy.methods) (self : PromptSignature)
         (kw : Kwargs),
  exists e,
    PromptStrategy.format_prompt self kw
    = ([FailedToFormatPrompt (kw_inputs kw)], raise e)
    /\ e = UnboundLocalError (py "output")
    /\ is_NameError e = true.
Proof.
  intros strategy self kw.
  exists (UnboundLocalError (py "output")).
  unfold PromptStrategy.format_prompt, PromptStrategy.format_prompt_body.
  unfold load_local, bind, raise.
  repeat split.
Qed.

(** An unrecognized convention makes [parse_output_to_fields] raise the
    [ValueError] of the unsupported type. *)
Lemma parse_unsupported_convention :
  forall (strategy : PromptStrategy.methods) (self : PromptSignature)
         (output : RawOutput) (llm_type : str),
    ~ In llm_type [py "openai_json"; py "openai"; py "anthropic";
                   py "fake_anthropic"; py "test"] ->
    PromptStrategy.parse_output_to_fields self output llm_type
    = raise (ValueError (UnsupportedLLMType (VStr llm_type))).
Proof.
  intros strategy self output llm_type Hnot.
  unfold PromptStrategy.parse_output_to_fields.
  assert (Hne : forall s, In s [py "openai_json"; py "openai"; py "anthropic";
                               py "fake_anthropic"; py "test"] ->
                          str_eqb llm_type s = false).
  { intros s Hs. apply str_eqb_neq. intros ->. contradiction. }
  rewrite !Hne by (simpl; tauto).
  reflexivity.
Qed.

Lemma parse_unsupported_convention_witness :
  ~ In (py "mistral") [py "openai_json"; py "openai"; py "anthropic";
                       py "fake_anthropic"; py "test"]
  /\ PromptStrategy.parse_output_to_fields (strategy := Samples.strategy)
       Samples.qa (RawStr (py "Answer: 42")) (py "mistral")
     = raise (ValueError (UnsupportedLLMType (VStr (py "mistral")))).
Proof.
  assert (H : ~ In (py "mistral") [py "openai_json"; py "openai";
                                   py "anthropic"; py "fake_anthropic";
                                   py "test"]).
  { simpl. intros [H|[H|[H|[H|[H|[]]]]]]; discriminate H. }
  split; [exact H|].
  exact (parse_unsupported_convention Samples.strategy Samples.qa
           (RawStr (py "Answer: 42")) (py "mistral") H).
Defined.

(** The [test] convention is parsed like the plain-text one. *)
Lemma parse_test_alias :
  forall (strategy : PromptStrategy.methods) (self : PromptSignature)
         (output : RawOutput),
    PromptStrategy.parse_output_to_fields self output (py "test")
    = PromptStrategy.parse_output_to_fields self output (py "openai").
Proof. intros. reflexivity. Qed.

(** C2, at the call [format_prompt(llm_type='mistral', question='why')]: the
    render entry point ends in [UnboundLocalError] and never reaches the
    branch that raises the error of the unsupported convention, while the
    parse entry point raises that error for the same convention. *)
Theorem format_prompt_unsupported_convention :
  PromptStrategy.format_prompt (strategy := Samples.strategy) Samples.qa
    Samples.mistral_call
  = ([FailedToFormatPrompt [(py "question", VStr (py "why"))]],
     raise (UnboundLocalError (py "output")))
  /\ PromptStrategy.parse_output_to_fields (strategy := Samples.strategy)
       Samples.qa (RawStr (py "Answer: 42")) (py "mistral")
     = raise (ValueError (UnsupportedLLMType (VStr (py "mistral")))).
Proof. split; vm_compute; reflexivity. Qed.

(** ** JSON-structured parsing *)

(** The value the JSON parser stores for an output field. *)
Lemma parse_json_field_object (obj : dict.t value)
  (parsed_fields : dict.t value) (item : str * Field.t) :
  DefaultPromptStrategy.parse_json_field (VDict obj) parsed_fields item
  = ret (dict.set parsed_fields (fst item)
           (match dict.get obj (Field.name (snd item)) with
            | Some v => Field.transform_value (snd item) v
            | None => VNone
            end)).
Proof.
  destruct item as [output_name output_field].
  unfold DefaultPromptStrategy.parse_json_field,
    DefaultPromptStrategy.json_contains,
    DefaultPromptStrategy.json_getitem, dict.contains; simpl.
  destruct (dict.get obj (Field.name output_field)); reflexivity.
Qed.

(** C3: when the raw output decodes to a JSON object, the JSON parser
    returns a dict whose keys are the declared output names, in their order;
    an output whose display name is a key of the object holds its own
    transform of that value, every other output holds [None]. *)
Theorem json_parse_covers_declared_outputs :
  forall (json_loads : str -> option value) (self : PromptSignature)
         (raw : str) (obj : dict.t value),
    dict.wf (output_variables self) ->
    json_loads raw = Some (VDict obj) ->
    exists parsed_fields,
      DefaultPromptStrategy._parse_openai_json_output_to_fields json_loads
        self (RawStr raw) = ret parsed_fields
      /\ dict.keys parsed_fields = dict.keys (output_variables self)
      /\ forall output_name output_field,
           dict.get (output_variables self) output_name = Some output_field ->
           dict.get parsed_fields output_name
           = Some (match dict.get obj (Field.name output_field) with
                   | Some v => Field.transform_value output_field v
                   | None => VNone
                   end).
Proof.
  intros json_loads self raw obj Hwf Hloads.
  set (h := fun (_ : str) (f : Field.t) =>
              match dict.get obj (Field.name f) with
              | Some v => Field.transform_value f v
              | None => VNone
              end).
  exists (map (fun item => (fst item, h (fst item) (snd item)))
            (output_variables self)).
  split; [|split].
  - unfold DefaultPromptStrategy._parse_openai_json_output_to_fields.
    rewrite Hloads.
    rewrite (foldM_ret _
               (fun a item => dict.set a (fst item) (h (fst item) (snd item)))).
    + rewrite fold_set_fresh; [reflexivity|exact Hwf].
    + intros s x _. apply parse_json_field_object.
  - apply dict_keys_map.
  - intros output_name output_field Hget.
    rewrite dict_get_map, Hget. reflexivity.
Qed.

Lemma json_parse_covers_declared_outputs_witness :
  dict.wf (output_variables Samples.a_b)
  /\ Reference.json_loads
       (py "{" ++ quote ++ py "a" ++ quote ++ py ": " ++ quote ++ py "1"
        ++ quote ++ py "}")
     = Some (VDict [(py "a", VStr (py "1"))])
  /\ exists parsed_fields,
       DefaultPromptStrategy._parse_openai_json_output_to_fields
         Reference.json_loads Samples.a_b
         (RawStr (py "{" ++ quote ++ py "a" ++ quote ++ py ": " ++ quote
                  ++ py "1" ++ quote ++ py "}"))
       = ret parsed_fields
       /\ dict.keys parsed_fields = dict.keys (output_variables Samples.a_b)
       /\ forall output_name output_field,
            dict.get (output_variables Samples.a_b) output_name
            = Some output_field ->
            dict.get parsed_fields output_name
            = Some (match dict.get [(py "a", VStr (py "1"))]
                            (Field.name output_field) with
                    | Some v => Field.transform_value output_field v
                    | None => VNone
                    end).
Proof.
  assert (Hwf : dict.wf (output_variables Samples.a_b)).
  { unfold dict.wf. vm_compute.
    repeat constructor; simpl; intuition discriminate. }
  assert (Hloads : Reference.json_loads
                     (py "{" ++ quote ++ py "a" ++ quote ++ py ": " ++ quote
                      ++ py "1" ++ quote ++ py "}")
                   = Some (VDict [(py "a", VStr (py "1"))])).
  { vm_compute. reflexivity. }
  split; [exact Hwf|]. split; [exact Hloads|].
  exact (json_parse_covers_declared_outputs Reference.json_loads Samples.a_b
           _ _ Hwf Hloads).
Defined.

(** The round trip of the specification: with outputs [a] and [b], the text
    of the object with the one key [a] parses to [a] bound to its value and
    [b] bound to [None]. *)
Example json_parse_a_b :
  DefaultPromptStrategy._parse_openai_json_output_to_fields
    Reference.json_loads Samples.a_b
    (RawStr (py "{" ++ quote ++ py "a" ++ quote ++ py ": " ++ quote ++ py "1"
             ++ quote ++ py "}"))
  = ret [(py "a", VStr (py "1")); (py "b", VNone)].
Proof. vm_compute. reflexivity. Qed.

(** C4: when the raw output is a string that [json.loads] rejects, the JSON
    parser raises [JSONDecodeError], whatever the signature; it returns no
    dict. *)
Theorem json_parse_malformed_raises :
  forall (json_loads : str -> option value) (self : PromptSignature)
         (raw : str),
    json_loads raw = None ->
    DefaultPromptStrategy._parse_openai_json_output_to_fields json_loads self
      (RawStr raw) = raise JSONDecodeError.
Proof.
  intros json_loads self raw Hloads.
  unfold DefaultPromptStrategy._parse_openai_json_output_to_fields.
  now rewrite Hloads.
Qed.

Lemma json_parse_malformed_raises_witness :
  Reference.json_loads (py "{" ++ quote ++ py "a" ++ quote ++ py ": ") = None
  /\ DefaultPromptStrategy._parse_openai_json_output_to_fields
       Reference.json_loads Samples.a_b
       (RawStr (py "{" ++ quote ++ py "a" ++ quote ++ py ": "))
     = raise JSONDecodeError.
Proof.
  assert (Hloads : Reference.json_loads
                     (py "{" ++ quote ++ py "a" ++ quote ++ py ": ") = None).
  { vm_compute. reflexivity. }
  split; [exact Hloads|].
  exact (json_parse_malformed_raises Reference.json_loads Samples.a_b _ Hloads).
Defined.

(** ** Example validation *)

Lemma check_declared_returns (declared : dict.t Field.t) (err : str -> message)
  (names : list str) :
  returns (for_each (fun name =>
             if negb (dict.contains declared name)
             then raise (ValueError (err name))
             else ret tt) names)
  = negb (undeclared declared names).
Proof.
  rewrite for_each_returns. unfold undeclared.
  induction names as [|n names IH]; simpl; [reflexivity|].
  rewrite IH. destruct (dict.contains declared n); reflexivity.
Qed.

(** What makes [validate_example] raise. *)
Lemma validate_example_returns (self : PromptSignature)
  (example_input : dict.t value) (example_output : value) :
  returns (validate_example self (example_input, example_output))
  = negb (undeclared (input_variables self) (dict.keys example_input))
    && match example_output with
       | VDict d => negb (undeclared (output_variables self) (dict.keys d))
       | _ => length (output_variables self) =? 1
       end.
Proof.
  unfold validate_example.
  pose proof (check_declared_returns (input_variables self)
                ExampleInputNotFound (dict.keys example_input)) as Hin.
  destruct (for_each _ (dict.keys example_input)) as [e|[]]; simpl in *;
    rewrite <- Hin; simpl; [reflexivity|].
  destruct example_output;
    try (destruct (length (output_variables self) =? 1); reflexivity).
  apply check_declared_returns.
Qed.

Lemma undeclared_iff (declared : dict.t Field.t) (names : list str) :
  undeclared declared names = true
  <-> exists name, In name names /\ ~ In name (dict.keys declared).
Proof.
  unfold undeclared. rewrite existsb_exists. split.
  - intros [name [Hin Hc]]. exists name. split; [exact Hin|].
    apply dict_contains_false. now destruct (dict.contains declared name).
  - intros [name [Hin Hc]]. exists name. split; [exact Hin|].
    apply dict_contains_false in Hc. now rewrite Hc.
Qed.

Lemma result_unit_cases (c : result unit) :
  returns c = true <-> c = ret tt.
Proof.
  destruct c as [e|[]]; simpl; split; intros H; try reflexivity;
    discriminate H.
Qed.

Lemma result_raises_cases {A : Type} (c : result A) :
  returns c = false <-> exists e, c = raise e.
Proof.
  destruct c as [e|a]; simpl; split; intros H; try reflexivity;
    try discriminate H.
  - now exists e.
  - destruct H as [e H]. discriminate H.
Qed.

(** C8, as the code has it: example validation raises exactly when some
    example has an input key that is no declared input name, or a dict
    output with a key that is no declared output name, or an output that is
    no dict while the number of declared output fields is not one; otherwise
    it returns. *)
Theorem validate_examples_raises_iff :
  forall (self : PromptSignature),
    ((exists e, validate_examples self = raise e) <->
     exists example_input example_output,
       In (example_input, example_output) (__examples__ self)
       /\ ((exists input_name,
               In input_name (dict.keys example_input)
               /\ ~ In input_name (dict.keys (input_variables self)))
           \/ (exists d output_name,
                 example_output = VDict d
                 /\ In output_name (dict.keys d)
                 /\ ~ In output_name (dict.keys (output_variables self)))
           \/ (is_dict example_output = false
               /\ length (output_variables self) <> 1)))
    /\ (validate_examples self = ret tt
        \/ exists e, validate_examples self = raise e).
Proof.
  intros self. split.
  - rewrite <- result_raises_cases. unfold validate_examples.
    rewrite for_each_returns.
    assert (Hneg : forall l, forallb (fun x => returns
                       (validate_example self x)) l
                     = negb (existsb (fun x => negb (returns
                         (validate_example self x))) l)).
    { induction l as [|x l IH]; simpl; [reflexivity|].
      rewrite negb_orb, negb_involutive, IH. reflexivity. }
    rewrite Hneg, negb_false_iff, existsb_exists. split.
    + intros [[example_input example_output] [Hin Hbad]].
      exists example_input, example_output. split; [exact Hin|].
      rewrite validate_example_returns, negb_andb, negb_involutive in Hbad.
      apply orb_true_iff in Hbad. destruct Hbad as [Hbad|Hbad].
      * left. now apply undeclared_iff.
      * right. destruct example_output; simpl in Hbad;
          try (right; split; [reflexivity|];
               apply negb_true_iff, Nat.eqb_neq in Hbad; exact Hbad).
        left. rewrite negb_involutive in Hbad.
        apply undeclared_iff in Hbad. destruct Hbad as [name [H1 H2]].
        now exists d, name.
    + intros [example_input [example_output [Hin Hbad]]].
      exists (example_input, example_output). split; [exact Hin|].
      rewrite validate_example_returns, negb_andb, negb_involutive.
      apply orb_true_iff.
      destruct Hbad as [Hbad|[[d [name [-> [H1 H2]]]]|[Hd Hlen]]].
      * left. now apply undeclared_iff.
      * right. rewrite negb_involutive. apply undeclared_iff. now exists name.
      * right. apply Nat.eqb_neq in Hlen.
        destruct example_output; simpl in Hd; try discriminate Hd;
          now rewrite Hlen.
  - destruct (validate_examples self) as [e|[]].
    + right. now exists e.
    + now left.
Qed.

(** C8 as the claim words it fails: with no output field declared, an
    example with a scalar output is rejected, although no key is undeclared
    and no more than one output field is declared. *)
Lemma validate_examples_scalar_without_output :
  validate_examples Samples.no_output = raise (ValueError ExampleOutputMustBeDict)
  /\ existsb (rejected_as_specified Samples.no_output)
       (__examples__ Samples.no_output) = false
  /\ length (output_variables Samples.no_output) = 0.
Proof. repeat split. Qed.

(** ** The role partition *)

Lemma dict_in_get {V : Type} (d : dict.t V) k v :
  dict.wf d -> (In (k, v) d <-> dict.get d k = Some v).
Proof.
  unfold dict.wf, dict.keys. induction d as [|[k0 v0] d IH]; simpl; intros Hwf.
  - split; [contradiction|discriminate].
  - inversion Hwf as [|? ? Hnin Hnd]; subst.
    destruct (str_eqb k k0) eqn:E.
    + apply str_eqb_eq in E. subst k0. split.
      * intros [H|H]; [congruence|].
        exfalso. apply Hnin. apply (in_map fst) in H. exact H.
      * intros H. left. congruence.
    + apply str_eqb_neq in E. rewrite <- (IH Hnd). split.
      * intros [H|H]; [congruence|exact H].
      * intros H. now right.
Qed.


(** With unique field names, the loop of [__init__] sorts the declared
    fields into the three mappings, each in declaration order. *)
Lemma assign_roles_filter (fields : dict.t ModelField) (r : Roles) :
  NoDup (dict.keys fields) ->
  (forall name, In name (dict.keys fields) ->
                ~ In name (dict.keys (inputs r))
                /\ ~ In name (dict.keys (outputs r))
                /\ ~ In name (dict.keys (hints r))) ->
  fold_left assign_role fields r
  = {| inputs := inputs r ++ map role_entry (filter input_role fields);
       outputs := outputs r ++ map role_entry (filter output_role fields);
       hints := hints r ++ map role_entry (filter hint_role fields) |}.
Proof.
  revert r. induction fields as [|[k a] fields IH]; intros r Hnd Hfresh.
  - simpl. rewrite !app_nil_r. now destruct r.
  - simpl in Hnd. inversion Hnd as [|? ? Hk Hnd']; subst.
    destruct (Hfresh k (or_introl eq_refl)) as [Hi [Ho Hh]].
    assert (Hrest : forall name, In name (dict.keys fields) -> name <> k).
    { intros name Hin ->. contradiction. }
    simpl fold_left. unfold input_role, output_role, hint_role. simpl.
    unfold assign_role.
    destruct (is_InputField (type_ a)) eqn:Ein;
      [|destruct (is_OutputField (type_ a)) eqn:Eout;
        [|destruct (is_HintField (type_ a)) eqn:Ehint]]; simpl.
    + rewrite IH; simpl; [|exact Hnd'|].
      * rewrite (dict_set_fresh _ _ _ Hi), <- app_assoc. reflexivity.
      * intros name Hin. destruct (Hfresh name (or_intror Hin)) as [? [? ?]].
        repeat split; try assumption.
        rewrite dict_in_keys_set. intros [->|H']; [|contradiction].
        now apply (Hrest k).
    + rewrite IH; simpl; [|exact Hnd'|].
      * rewrite (dict_set_fresh _ _ _ Ho), <- app_assoc. reflexivity.
      * intros name Hin. destruct (Hfresh name (or_intror Hin)) as [? [? ?]].
        repeat split; try assumption.
        rewrite dict_in_keys_set. intros [->|H']; [|contradiction].
        now apply (Hrest k).
    + rewrite IH; simpl; [|exact Hnd'|].
      * rewrite (dict_set_fresh _ _ _ Hh), <- app_assoc. reflexivity.
      * intros name Hin. destruct (Hfresh name (or_intror Hin)) as [? [? ?]].
        repeat split; try assumption.
        rewrite dict_in_keys_set. intros [->|H']; [|contradiction].
        now apply (Hrest k).
    + apply IH; [exact Hnd'|].
      intros name Hin. apply Hfresh. now right.
Qed.

(** Each role mapping lists its fields in declaration order, with the
    descriptor each field declares. *)
Theorem role_mappings_filter (fields : dict.t ModelField) :
  dict.wf fields ->
  role_mappings fields
  = {| inputs := map role_entry (filter input_role fields);
       outputs := map role_entry (filter output_role fields);
       hints := map role_entry (filter hint_role fields) |}.
Proof.
  intros Hwf. unfold role_mappings.
  rewrite assign_roles_filter; [reflexivity|exact Hwf|].
  intros name _. simpl. tauto.
Qed.

Lemma role_mappings_filter_witness :
  dict.wf (__fields__ Samples.qa_class)
  /\ role_mappings (__fields__ Samples.qa_class)
     = {| inputs := map role_entry
                      (filter input_role (__fields__ Samples.qa_class));
          outputs := map role_entry
                       (filter output_role (__fields__ Samples.qa_class));
          hints := map role_entry
                     (filter hint_role (__fields__ Samples.qa_class)) |}.
Proof.
  assert (Hwf : dict.wf (__fields__ Samples.qa_class)).
  { unfold dict.wf. vm_compute.
    repeat constructor; simpl; intuition discriminate. }
  split; [exact Hwf|].
  exact (role_mappings_filter (__fields__ Samples.qa_class) Hwf).
Defined.



(** ** Input validation *)

Lemma validate_field_cases (input_dict validated_input : dict.t value)
  (item : str * Field.t) :
  (accepts input_dict item = true
   /\ exists value,
        validate_field input_dict validated_input item
        = ret (dict.set validated_input (fst item) value))
  \/ (accepts input_dict item = false
      /\ exists e, validate_field input_dict validated_input item = raise e).
Proof.
  destruct item as [name field]. unfold validate_field, accepts. simpl.
  destruct (dict.get input_dict name) as [value|].
  - destruct (Field.validate_value field value); simpl.
    + left. split; [reflexivity|]. now eexists.
    + right. split; [reflexivity|]. now eexists.
  - destruct (Field.optional field); simpl.
    + left. split; [reflexivity|]. now eexists.
    + right. split; [reflexivity|]. now eexists.
Qed.

Lemma validate_loop_returns (input_dict : dict.t value)
  (fields : dict.t Field.t) (acc : dict.t value) :
  returns (foldM (validate_field input_dict) fields acc)
  = forallb (accepts input_dict) fields.
Proof.
  revert acc. induction fields as [|item fields IH]; intros acc; simpl;
    [reflexivity|].
  destruct (validate_field_cases input_dict acc item)
    as [[Ha [value Hv]]|[Ha [e He]]].
  - rewrite Hv, Ha. simpl. apply IH.
  - rewrite He, Ha. reflexivity.
Qed.

Lemma validate_loop_keys (input_dict : dict.t value)
  (fields : dict.t Field.t) (acc validated_input : dict.t value) :
  foldM (validate_field input_dict) fields acc = ret validated_input ->
  forall name,
    In name (dict.keys validated_input)
    <-> In name (dict.keys acc) \/ In name (dict.keys fields).
Proof.
  revert acc. induction fields as [|item fields IH]; intros acc H name.
  - simpl in H. injection H as <-. simpl. tauto.
  - simpl in H.
    destruct (validate_field_cases input_dict acc item)
      as [[_ [value Hv]]|[_ [e He]]].
    + rewrite Hv in H. simpl in H. rewrite (IH _ H name).
      rewrite dict_in_keys_set. simpl. intuition.
    + rewrite He in H. discriminate H.
Qed.

Lemma validate_loop_agrees (input_dict other : dict.t value)
  (fields : dict.t Field.t) (acc : dict.t value) :
  (forall name, In name (dict.keys fields) ->
                dict.get other name = dict.get input_dict name) ->
  foldM (validate_field other) fields acc
  = foldM (validate_field input_dict) fields acc.
Proof.
  revert acc. induction fields as [|[name field] fields IH]; intros acc H;
    cbn [foldM]; [reflexivity|].
  assert (Hstep : forall a, validate_field other a (name, field)
                            = validate_field input_dict a (name, field)).
  { intros a. unfold validate_field. rewrite (H name) by now left.
    reflexivity. }
  rewrite Hstep. destruct (validate_field input_dict acc (name, field));
    cbn [bind]; [reflexivity|].
  apply IH. intros n Hn. apply H. now right.
Qed.

(** C10: [_validate_input] returns the caller's dict as it is when no input
    field is declared.  When one is, the keys of a returned dict are the
    declared input names; the outcome depends on the caller's dict only
    through its entries for declared names, so a key that is not declared is
    dropped and never rejected; and the call returns exactly when every
    declared input passes. *)
Theorem validate_input_key_set :
  forall (self : PromptSignature) (input_dict : dict.t value),
    (input_variables self = [] ->
     _validate_input self input_dict = ret input_dict)
    /\ (input_variables self <> [] ->
        (forall validated_input,
            _validate_input self input_dict = ret validated_input ->
            forall name,
              In name (dict.keys validated_input)
              <-> In name (dict.keys (input_variables self)))
        /\ (forall other,
              (forall name, In name (dict.keys (input_variables self)) ->
                            dict.get other name = dict.get input_dict name) ->
              _validate_input self other = _validate_input self input_dict)
        /\ returns (_validate_input self input_dict)
           = forallb (accepts input_dict) (input_variables self)).
Proof.
  intros self input_dict. unfold _validate_input. split.
  - intros ->. reflexivity.
  - intros Hne.
    destruct (input_variables self) as [|item fields] eqn:E;
      [contradiction|]. cbn [dict.is_empty].
    split; [|split].
    + intros validated_input H name.
      rewrite (validate_loop_keys _ _ _ _ H name). simpl. tauto.
    + intros other H. now apply validate_loop_agrees.
    + apply validate_loop_returns.
Qed.

Lemma validate_input_key_set_witness :
  input_variables Samples.qa <> []
  /\ _validate_input Samples.qa
       [(py "seed", VInt 7); (py "question", VStr (py "why"))]
     = ret [(py "question", VStr (py "why"))]
  /\ (forall name,
        In name (dict.keys [(py "question", VStr (py "why"))])
        <-> In name (dict.keys (input_variables Samples.qa)))
  /\ _validate_input Samples.qa [(py "question", VStr (py "why"))]
     = _validate_input Samples.qa
         [(py "seed", VInt 7); (py "question", VStr (py "why"))].
Proof.
  assert (Hne : input_variables Samples.qa <> []) by discriminate.
  assert (Hret : _validate_input Samples.qa
                   [(py "seed", VInt 7); (py "question", VStr (py "why"))]
                 = ret [(py "question", VStr (py "why"))]) by reflexivity.
  destruct (proj2 (validate_input_key_set Samples.qa
                     [(py "seed", VInt 7); (py "question", VStr (py "why"))])
              Hne) as [Hkeys [Hagree _]].
  split; [exact Hne|]. split; [exact Hret|]. split.
  - exact (Hkeys _ Hret).
  - apply Hagree. intros name [<-|[]]. reflexivity.
Defined.

(** An undeclared key of the caller's dict is dropped. *)
Example validate_input_drops_undeclared :
  _validate_input Samples.qa
    [(py "seed", VInt 7); (py "question", VStr (py "why"))]
  = ret [(py "question", VStr (py "why"))].
Proof. reflexivity. Qed.

(** Without declared inputs the caller's dict comes back as it is. *)
Example validate_input_without_inputs :
  _validate_input Samples.a_b [(py "seed", VInt 7)]
  = ret [(py "seed", VInt 7)].
Proof. reflexivity. Qed.

(** ** Plain-text parsing *)

Lemma resolve_line_Some (self : PromptSignature) (line key content : str) :
  DefaultPromptStrategy.resolve_line self line = Some (key, content) ->
  exists field_name,
    DefaultPromptStrategy.match_field line = Some (field_name, content)
    /\ PromptStrategy._get_output_field self field_name = Some key.
Proof.
  unfold DefaultPromptStrategy.resolve_line.
  destruct (DefaultPromptStrategy.match_field line) as [[field_name c]|];
    [|discriminate].
  destruct (PromptStrategy._get_output_field self field_name) as [k|] eqn:Eg;
    [|discriminate].
  destruct (truthy (VStr k)); [|discriminate].
  intros H. injection H as -> ->. now exists field_name.
Qed.

(** The chunks that resolve to no output leave the parsed fields alone. *)
Lemma parse_lines_unresolved (self : PromptSignature) (lines : list str)
  (acc : dict.t value) :
  (forall line, In line lines ->
                DefaultPromptStrategy.resolve_line self line = None) ->
  fold_left (DefaultPromptStrategy.parse_line self) lines acc = acc.
Proof.
  revert acc. induction lines as [|line lines IH]; intros acc H; simpl;
    [reflexivity|].
  unfold DefaultPromptStrategy.parse_line at 2.
  rewrite (H line) by now left. apply IH. intros l Hl. apply H. now right.
Qed.

(** Every entry of the parsed fields comes from a chunk that resolved to
    its key. *)
Lemma parse_lines_get (self : PromptSignature) (lines : list str)
  (acc : dict.t value) (key : str) (v : value) :
  dict.get (fold_left (DefaultPromptStrategy.parse_line self) lines acc) key
  = Some v ->
  dict.get acc key = Some v
  \/ exists line content,
       In line lines
       /\ DefaultPromptStrategy.resolve_line self line = Some (key, content)
       /\ v = VStr content.
Proof.
  revert acc. induction lines as [|line lines IH]; intros acc H; simpl in H.
  - now left.
  - apply IH in H. destruct H as [H|[l [c [Hin [Hr Hv]]]]].
    + unfold DefaultPromptStrategy.parse_line in H.
      destruct (DefaultPromptStrategy.resolve_line self line)
        as [[k c]|] eqn:E; [|now left].
      destruct (str_dec key k) as [->|Hne].
      * rewrite dict_get_set_same in H. injection H as <-.
        right. exists line, c. repeat split; [now left|exact E].
      * rewrite dict_get_set_other in H by exact Hne. now left.
    + right. exists l, c. repeat split; [now right|exact Hr|exact Hv].
Qed.

(** A chunk that resolves to a key puts the key among the parsed fields. *)
Lemma parse_lines_keys (self : PromptSignature) (lines : list str)
  (acc : dict.t value) (key : str) :
  In key (dict.keys
            (fold_left (DefaultPromptStrategy.parse_line self) lines acc))
  <-> In key (dict.keys acc)
      \/ exists line content,
           In line lines
           /\ DefaultPromptStrategy.resolve_line self line
              = Some (key, content).
Proof.
  revert acc. induction lines as [|line lines IH]; intros acc; simpl.
  - split; [now left|]. intros [H|[l [c [[] _]]]]. exact H.
  - rewrite IH. unfold DefaultPromptStrategy.parse_line at 1.
    destruct (DefaultPromptStrategy.resolve_line self line) as [[k c]|] eqn:E.
    + rewrite dict_in_keys_set. split.
      * intros [[->|H]|[l [c' [Hin Hr]]]].
        -- right. exists line, c. split; [now left|exact E].
        -- now left.
        -- right. exists l, c'. split; [now right|exact Hr].
      * intros [H|[l [c' [[<-|Hin] Hr]]]].
        -- left. now right.
        -- rewrite E in Hr. injection Hr as -> ->. left. now left.
        -- right. now exists l, c'.
    + split.
      * intros [H|[l [c' [Hin Hr]]]]; [now left|].
        right. exists l, c'. split; [now right|exact Hr].
      * intros [H|[l [c' [[<-|Hin] Hr]]]]; [now left|congruence|].
        right. now exists l, c'.
Qed.

(** C6: with exactly one declared output field and no chunk of the split
    raw output matching its display name through the name-and-content
    pattern, the parser returns the whole last chunk as the value of that
    field; with more than one declared output field, every entry of the
    result comes from a chunk that matched and named its field, so a field
    no chunk resolved is absent and nothing is filled in for it. *)
Theorem plain_text_fallback_and_drop :
  forall (self : PromptSignature) (raw : str),
    (forall key field,
        output_variables self = [(key, field)] ->
        (forall line content,
            In line (DefaultPromptStrategy.split
                       DefaultPromptStrategy.OUTPUT_TOKEN raw) ->
            DefaultPromptStrategy.match_field line
            <> Some (Field.name field, content)) ->
        DefaultPromptStrategy._parse_openai_output_to_fields self (RawStr raw)
        = ret [(key,
                VStr (last (DefaultPromptStrategy.split
                              DefaultPromptStrategy.OUTPUT_TOKEN raw) []))])
    /\ (1 < length (output_variables self) ->
        exists parsed_fields,
          DefaultPromptStrategy._parse_openai_output_to_fields self
            (RawStr raw) = ret parsed_fields
          /\ (forall key v,
                dict.get parsed_fields key = Some v ->
                exists line field_name content,
                  In line (DefaultPromptStrategy.split
                             DefaultPromptStrategy.OUTPUT_TOKEN raw)
                  /\ DefaultPromptStrategy.match_field line
                     = Some (field_name, content)
                  /\ PromptStrategy._get_output_field self field_name
                     = Some key
                  /\ v = VStr content)
          /\ (forall key,
                (forall line content,
                    In line (DefaultPromptStrategy.split
                               DefaultPromptStrategy.OUTPUT_TOKEN raw) ->
                    DefaultPromptStrategy.resolve_line self line
                    <> Some (key, content)) ->
                ~ In key (dict.keys parsed_fields))).
Proof.
  intros self raw. split.
  - intros key field Hov Hnone.
    unfold DefaultPromptStrategy._parse_openai_output_to_fields.
    rewrite parse_lines_unresolved.
    + rewrite Hov. reflexivity.
    + intros line Hin.
      destruct (DefaultPromptStrategy.resolve_line self line)
        as [[k c]|] eqn:E; [|reflexivity].
      exfalso. apply resolve_line_Some in E.
      destruct E as [field_name [Hm Hg]].
      unfold PromptStrategy._get_output_field in Hg. rewrite Hov in Hg.
      simpl in Hg.
      destruct (str_eqb (Field.name field) field_name) eqn:Ename;
        [|discriminate].
      apply str_eqb_eq in Ename. subst field_name.
      exact (Hnone line c Hin Hm).
  - intros Hlen.
    unfold DefaultPromptStrategy._parse_openai_output_to_fields.
    assert (E : (length (output_variables self) =? 1) = false).
    { apply Nat.eqb_neq. lia. }
    rewrite E. eexists. split; [reflexivity|]. split.
    + intros key v Hget. apply parse_lines_get in Hget.
      destruct Hget as [Hget|[line [content [Hin [Hr Hv]]]]];
        [discriminate|].
      apply resolve_line_Some in Hr. destruct Hr as [field_name [Hm Hg]].
      now exists line, field_name, content.
    + intros key Hnone Hin. apply parse_lines_keys in Hin.
      destruct Hin as [[]|[line [content [Hin Hr]]]].
      exact (Hnone line content Hin Hr).
Qed.

Lemma plain_text_fallback_and_drop_witness :
  output_variables Samples.qa
  = [(py "answer", Reference.plain_field (py "Answer") (py "given") false)]
  /\ (forall line content,
        In line (DefaultPromptStrategy.split
                   DefaultPromptStrategy.OUTPUT_TOKEN (py "42")) ->
        DefaultPromptStrategy.match_field line
        <> Some (py "Answer", content))
  /\ DefaultPromptStrategy._parse_openai_output_to_fields Samples.qa
       (RawStr (py "42"))
     = ret [(py "answer",
             VStr (last (DefaultPromptStrategy.split
                           DefaultPromptStrategy.OUTPUT_TOKEN (py "42")) []))].
Proof.
  assert (Hov : output_variables Samples.qa
                = [(py "answer",
                    Reference.plain_field (py "Answer") (py "given") false)]).
  { reflexivity. }
  assert (Hnone : forall line content,
             In line (DefaultPromptStrategy.split
                        DefaultPromptStrategy.OUTPUT_TOKEN (py "42")) ->
             DefaultPromptStrategy.match_field line
             <> Some (Field.name
                        (Reference.plain_field (py "Answer") (py "given")
                           false), content)).
  { intros line content [<-|[]]. discriminate. }
  split; [exact Hov|]. split; [exact Hnone|].
  exact (proj1 (plain_text_fallback_and_drop Samples.qa (py "42"))
           (py "answer")
           (Reference.plain_field (py "Answer") (py "given") false)
           Hov Hnone).
Defined.

(** The round trip of the specification: one output field, and a raw output
    that is just the answer. *)
Example plain_text_single_answer :
  DefaultPromptStrategy._parse_openai_output_to_fields Samples.qa
    (RawStr (py "42"))
  = ret [(py "answer", VStr (py "42"))].
Proof. reflexivity. Qed.

(** Two output fields, one of them answered after the marker: the other is
    not in the result. *)
Example plain_text_one_of_two :
  DefaultPromptStrategy._parse_openai_output_to_fields Samples.summary_score
    (RawStr (DefaultPromptStrategy.OUTPUT_TOKEN ++ py "summary: ok"))
  = ret [(py "summary", VStr (py "ok"))].
Proof. reflexivity. Qed.

(** ** Trained examples in the rendered prompts *)

Lemma use_trained_iff (trained_state : option TrainedState)
  (use_training : bool) :
  use_trained trained_state use_training = true
  <-> use_training = true
      /\ exists state, trained_state = Some state /\ examples state <> [].
Proof.
  unfold use_trained. destruct trained_state as [state|].
  - destruct (examples state) as [|e l] eqn:E.
    + split; [discriminate|]. intros [_ [s [Hs Hne]]].
      injection Hs as <-. congruence.
    + split.
      * intros ->. split; [reflexivity|]. exists state.
        split; [reflexivity|]. rewrite E. discriminate.
      * now intros [-> _].
  - split; [discriminate|]. intros [_ [s [Hs _]]]. discriminate Hs.
Qed.

Lemma trained_examples_nonempty (trained_state : option TrainedState)
  (use_training : bool) :
  use_trained trained_state use_training = true ->
  trained_examples trained_state <> [].
Proof.
  intros H. apply use_trained_iff in H. destruct H as [_ [s [-> Hne]]].
  exact Hne.
Qed.

Lemma text_trained_block_nonempty (self : PromptSignature)
  (l : list Example) :
  l <> [] -> DefaultPromptStrategy.text_trained_block self l <> [].
Proof.
  destruct l as [|[example_input example_output] l]; [congruence|].
  intros _. unfold DefaultPromptStrategy.text_trained_block. simpl.
  discriminate.
Qed.

(** C7: each of the three renderers includes the trained-state examples
    exactly when [use_training] is true and a trained state with a
    non-empty examples list is given.  When this holds, the prompt is the
    prompt without trained state with the rendering of the trained examples,
    which is not empty, put in at one place; when it does not, the prompt is
    the prompt without trained state, whatever the inline examples. *)
Theorem trained_examples_gate :
  forall (json_dumps : value -> str) (self : PromptSignature)
         (trained_state : option TrainedState) (use_training : bool)
         (inline : list Example) (kwargs : dict.t value),
    (use_trained trained_state use_training = true
     <-> use_training = true
         /\ exists state, trained_state = Some state /\ examples state <> [])
    /\ (use_trained trained_state use_training = false ->
        DefaultPromptStrategy._format_openai_prompt self trained_state
          use_training inline kwargs
        = DefaultPromptStrategy._format_openai_prompt self None use_training
            inline kwargs
        /\ DefaultPromptStrategy._format_openai_json_prompt json_dumps self
             trained_state use_training inline kwargs
           = DefaultPromptStrategy._format_openai_json_prompt json_dumps self
               None use_training inline kwargs
        /\ DefaultPromptStrategy._format_anthropic_prompt self trained_state
             use_training inline kwargs
           = DefaultPromptStrategy._format_anthropic_prompt self None
               use_training inline kwargs)
    /\ (use_trained trained_state use_training = true ->
        (exists before after,
            DefaultPromptStrategy._format_openai_prompt self None use_training
              inline kwargs = before ++ after
            /\ DefaultPromptStrategy._format_openai_prompt self trained_state
                 use_training inline kwargs
               = before
                 ++ concat (map (DefaultPromptStrategy.text_example self)
                              (trained_examples trained_state))
                 ++ after
            /\ concat (map (DefaultPromptStrategy.text_example self)
                         (trained_examples trained_state)) <> [])
        /\ (exists before after,
              DefaultPromptStrategy._format_openai_json_prompt json_dumps self
                None use_training inline kwargs = before ++ after
              /\ DefaultPromptStrategy._format_openai_json_prompt json_dumps
                   self trained_state use_training inline kwargs
                 = before
                   ++ (nl ++ py "Trained Examples:" ++ nl
                       ++ concat (map (fun example =>
                                     json_dumps
                                       (DefaultPromptStrategy.example_dict
                                          self example) ++ nl)
                                  (trained_examples trained_state)))
                   ++ after
              /\ nl ++ py "Trained Examples:" ++ nl
                 ++ concat (map (fun example =>
                               json_dumps
                                 (DefaultPromptStrategy.example_dict self
                                    example) ++ nl)
                            (trained_examples trained_state)) <> [])
        /\ (exists before after,
              DefaultPromptStrategy._format_anthropic_prompt self None
                use_training inline kwargs = before ++ after
              /\ DefaultPromptStrategy._format_anthropic_prompt self
                   trained_state use_training inline kwargs
                 = before
                   ++ map (DefaultPromptStrategy.example_message self)
                        (trained_examples trained_state)
                   ++ after
              /\ map (DefaultPromptStrategy.example_message self)
                   (trained_examples trained_state) <> [])).
Proof.
  intros json_dumps self trained_state use_training inline kwargs.
  split; [apply use_trained_iff|]. split.
  - intros Hoff.
    unfold DefaultPromptStrategy._format_openai_prompt,
      DefaultPromptStrategy._format_openai_json_prompt,
      DefaultPromptStrategy._format_anthropic_prompt.
    rewrite Hoff. simpl. repeat split.
  - intros Hon.
    pose proof (trained_examples_nonempty _ _ Hon) as Hne.
    unfold DefaultPromptStrategy._format_openai_prompt,
      DefaultPromptStrategy._format_openai_json_prompt,
      DefaultPromptStrategy._format_anthropic_prompt.
    rewrite Hon. simpl use_trained. cbv iota.
    split; [|split].
    + exists (DefaultPromptStrategy.text_head self inline),
             (DefaultPromptStrategy.text_tail self kwargs).
      split; [reflexivity|]. split; [reflexivity|].
      now apply text_trained_block_nonempty.
    + exists (DefaultPromptStrategy.json_head json_dumps self inline),
             (DefaultPromptStrategy.json_tail json_dumps self kwargs).
      split; [reflexivity|]. split; [reflexivity|discriminate].
    + exists (DefaultPromptStrategy.messages_head self inline),
             (DefaultPromptStrategy.messages_tail self kwargs).
      split; [reflexivity|]. split; [reflexivity|].
      destruct (trained_examples trained_state); [congruence|discriminate].
Qed.

Lemma trained_examples_gate_witness :
  let state := {| examples := [([(py "question", VStr (py "who"))],
                               VStr (py "me"))] |} in
  use_trained (Some state) true = true
  /\ exists before after,
       DefaultPromptStrategy._format_openai_prompt Samples.qa None true []
         [(py "question", VStr (py "why"))] = before ++ after
       /\ DefaultPromptStrategy._format_openai_prompt Samples.qa (Some state)
            true [] [(py "question", VStr (py "why"))]
          = before
            ++ concat (map (DefaultPromptStrategy.text_example Samples.qa)
                         (trained_examples (Some state)))
            ++ after
       /\ concat (map (DefaultPromptStrategy.text_example Samples.qa)
                    (trained_examples (Some state))) <> [].
Proof.
  intros state. split; [reflexivity|].
  exact (proj1 (proj2 (proj2 (trained_examples_gate Reference.json_dumps
                                Samples.qa (Some state) true []
                                [(py "question", VStr (py "why"))]))
                  eq_refl)).
Defined.

(** A trained example enters the plain-text prompt only with
    [use_training]. *)
Example trained_example_in_text_prompt :
  let state := {| examples := [([(py "question", VStr (py "who"))],
                               VStr (py "me"))] |} in
  DefaultPromptStrategy._format_openai_prompt Samples.qa (Some state) true []
    [(py "question", VStr (py "why"))]
  = py "Follow the following format. Attributes that have values should not be changed or repeated. "
    ++ nl ++ nl ++ py "Question: asked" ++ nl ++ py "Answer: given" ++ nl
    ++ nl ++ py "---" ++ nl ++ nl
    ++ py "Question: who" ++ nl ++ py "Answer: me" ++ nl
    ++ nl ++ py "---" ++ nl ++ nl
    ++ py "Question: why" ++ nl ++ py "Answer:" ++ nl
  /\ DefaultPromptStrategy._format_openai_prompt Samples.qa (Some state)
       false [] [(py "question", VStr (py "why"))]
     = py "Follow the following format. Attributes that have values should not be changed or repeated. "
       ++ nl ++ nl ++ py "Question: asked" ++ nl ++ py "Answer: given" ++ nl
       ++ nl ++ py "---" ++ nl ++ nl
       ++ py "Question: why" ++ nl ++ py "Answer:" ++ nl.
Proof. split; vm_compute; reflexivity. Qed.

(** ** Tagged-markup parsing *)

(** The round trip of the specification: both tags are found, and the last
    occurrence of a tag wins. *)
Example tagged_parse_summary_score :
  DefaultPromptStrategy._parse_anthropic_output_to_fields Reference.re_findall
    Samples.summary_score
    (RawStr (py "<summary>ok</summary><score>5</score>"))
  = ret [(py "summary", VStr (py "ok")); (py "score", VStr (py "5"))]
  /\ DefaultPromptStrategy._parse_anthropic_output_to_fields
       Reference.re_findall Samples.summary_score
       (RawMessage (py "<summary>draft</summary> <summary> final "
                    ++ nl ++ py "</summary>"))
     = ret [(py "summary", VStr (py "final"))].
Proof. split; vm_compute; reflexivity. Qed.

(** C5, at an output field with the display name [Score (1-5)]: the name
    goes into the pattern as it is, so its parentheses are a group of the
    pattern.  On a raw output with the tag [<Score 1-5>] the pattern matches
    with three groups and the parser raises [AttributeError]; on a raw
    output with the tag [<Score (1-5)>] the pattern does not match and the
    field is left out, although the tag with the field's name is there. *)
Theorem tagged_parse_name_with_parentheses :
  DefaultPromptStrategy.tag_pattern (py "Score (1-5)")
  = py "<Score (1-5)>(.*?)</Score (1-5)>"
  /\ Reference.re_findall (py "<Score (1-5)>(.*?)</Score (1-5)>")
       (py "<Score 1-5>4</Score 1-5>")
     = ret [MTuple [py "1-5"; py "4"; py "1-5"]]
  /\ DefaultPromptStrategy._parse_anthropic_output_to_fields
       Reference.re_findall Samples.rated
       (RawStr (py "<Score 1-5>4</Score 1-5>"))
     = raise (AttributeError (py "strip"))
  /\ DefaultPromptStrategy._parse_anthropic_output_to_fields
       Reference.re_findall Samples.rated
       (RawStr (py "<Score (1-5)>4</Score (1-5)>"))
     = ret [].
Proof. repeat split; vm_compute; reflexivity. Qed.

(** *** The pattern matcher on the pattern of a literal tag *)

Section LiteralTags.
Import Reference.

Lemma is_meta_chars (c : char) :
  is_meta c
  = existsb (N.eqb c) [92; 46; 94; 36; 42; 43; 63; 123; 125; 91; 93; 124;
                       40; 41]%N.
Proof. reflexivity. Qed.

Lemma literal_char (c : char) :
  is_meta c = false ->
  quant_of c = None /\ (c =? 40)%N = false /\ (c =? 41)%N = false
  /\ (c =? 46)%N = false.
Proof.
  rewrite is_meta_chars. simpl. intros H.
  repeat (apply orb_false_iff in H; destruct H as [? H]).
  unfold quant_of.
  repeat match goal with E : (c =? _)%N = false |- _ => rewrite E; clear E end.
  repeat split.
Qed.

Lemma emit_flush (p : pending) (more : option (list instr)) :
  emit p more = option_map (app (flush p)) (emit PNone more).
Proof. destruct more; reflexivity. Qed.

Lemma option_map_app (l1 l2 : list instr) (more : option (list instr)) :
  option_map (app l1) (option_map (app l2) more)
  = option_map (app (l1 ++ l2)) more.
Proof. destruct more; simpl; [now rewrite app_assoc|reflexivity]. Qed.

Lemma compile_flush (p : pending) (g : bool) (rest : str) :
  match rest with [] => True | c :: _ => quant_of c = None end ->
  compile p g rest = option_map (app (flush p)) (compile PNone g rest).
Proof.
  destruct rest as [|c rest]; simpl.
  - intros _. destruct g; simpl; [reflexivity|now rewrite app_nil_r].
  - intros ->.
    destruct (c =? 40)%N; [destruct g; [reflexivity|apply emit_flush]|].
    destruct (c =? 41)%N; [destruct g; [apply emit_flush|reflexivity]|].
    destruct (c =? 46)%N; [apply emit_flush|].
    destruct (is_meta c); [reflexivity|apply emit_flush].
Qed.

Lemma compile_literal (lit rest : str) (p : pending) (g : bool) :
  regex_literal lit = true ->
  match rest with [] => True | c :: _ => quant_of c = None end ->
  compile p g (lit ++ rest)
  = option_map (app (flush p ++ atoms lit)) (compile PNone g rest).
Proof.
  intros Hlit Hrest. revert p.
  induction lit as [|c lit IH]; intros p.
  - simpl. rewrite app_nil_r. now apply compile_flush.
  - simpl in Hlit. apply andb_true_iff in Hlit. destruct Hlit as [Hc Hlit].
    apply negb_true_iff in Hc.
    destruct (literal_char c Hc) as [Hq [H40 [H41 H46]]].
    cbn [app compile]. rewrite Hq, H40, H41, H46, Hc.
    rewrite (IH Hlit). unfold emit. rewrite option_map_app.
    simpl. rewrite <- ?app_assoc. reflexivity.
Qed.

Lemma regex_literal_app (a b : str) :
  regex_literal (a ++ b) = regex_literal a && regex_literal b.
Proof. apply forallb_app. Qed.

Lemma tag_pattern_parts (name : str) :
  DefaultPromptStrategy.tag_pattern name
  = (py "<" ++ name ++ py ">")
    ++ [40; 46; 42; 63; 41]%N ++ (py "</" ++ name ++ py ">") ++ [].
Proof.
  unfold DefaultPromptStrategy.tag_pattern.
  rewrite app_nil_r, <- !app_assoc. reflexivity.
Qed.

Lemma tag_literal (name : str) :
  regex_literal name = true ->
  regex_literal (py "<" ++ name ++ py ">") = true
  /\ regex_literal (py "</" ++ name ++ py ">") = true.
Proof.
  intros H. rewrite !regex_literal_app, H. split; reflexivity.
Qed.

Lemma compile_tag_pattern (name : str) :
  regex_literal name = true ->
  compile PNone false (DefaultPromptStrategy.tag_pattern name)
  = Some (tag_program name).
Proof.
  intros Hlit. destruct (tag_literal name Hlit) as [Hopen Hclose].
  rewrite tag_pattern_parts.
  rewrite (compile_literal _ _ PNone false Hopen) by reflexivity.
  cbn [app compile quant_of N.eqb Pos.eqb emit option_map flush is_meta].
  rewrite (compile_literal _ _ PNone false Hclose) by exact I.
  unfold tag_program. simpl. rewrite app_nil_r. reflexivity.
Qed.

Lemma take_chars_spec (text : str) (st : mstate) :
  take_chars st text
  = {| groups := groups st;
       open_group := option_map (app (rev text)) (open_group st);
       consumed := consumed st + length text |}.
Proof.
  unfold take_chars. revert st.
  induction text as [|c text IH]; intros st; simpl.
  - rewrite Nat.add_0_r. destruct st as [g [o|] n]; reflexivity.
  - rewrite IH. unfold take_char. simpl. f_equal.
    + destruct (open_group st); simpl; [|reflexivity].
      now rewrite <- app_assoc.
    + lia.
Qed.

Lemma run_atoms (lit : str) (p : list instr) (s : str) (st : mstate) :
  run (atoms lit ++ p) s st
  = match strip_prefix lit s with
    | Some rest => run p rest (take_chars st lit)
    | None => None
    end.
Proof.
  revert s st. induction lit as [|c lit IH]; intros s st; [reflexivity|].
  cbn [atoms map app run strip_prefix atom_matches].
  destruct s as [|d s]; [reflexivity|].
  destruct (N.eqb c d) eqn:E; [|reflexivity].
  apply N.eqb_eq in E. subst d. apply IH.
Qed.

Lemma run_lazy_any (p : list instr) (s : str) (st : mstate) :
  run (IRepeat AAny QStar false :: p) s st
  = or_else (run p s st)
      (match s with
       | c :: s' => run (IRepeat AAny QStar false :: p) s' (take_char st c)
       | [] => None
       end).
Proof. destruct s; reflexivity. Qed.

Lemma run_close_tag (close s : str) (st : mstate) :
  run (IClose :: atoms close) s st
  = match strip_prefix close s with
    | Some _ => Some (take_chars (close_ st) close)
    | None => None
    end.
Proof.
  cbn [run]. rewrite <- (app_nil_r (atoms close)), run_atoms.
  destruct (strip_prefix close s); reflexivity.
Qed.

Lemma run_lazy_until (close s : str) (st : mstate) :
  run (IRepeat AAny QStar false :: IClose :: atoms close) s st
  = match until_tag close s with
    | Some (body, _) => Some (take_chars (close_ (take_chars st body)) close)
    | None => None
    end.
Proof.
  revert st. induction s as [|c s IH]; intros st;
    rewrite run_lazy_any, run_close_tag; cbn [until_tag].
  - destruct (strip_prefix close []); reflexivity.
  - destruct (strip_prefix close (c :: s)); [reflexivity|].
    cbn [or_else]. rewrite IH.
    destruct (until_tag close s) as [[body rest]|]; reflexivity.
Qed.

Lemma run_open (p : list instr) (s : str) (st : mstate) :
  run (IOpen :: p) s st = run p s (open_ st).
Proof. reflexivity. Qed.

Lemma run_tag_program (name s : str) :
  run (tag_program name) s start
  = match strip_prefix (py "<" ++ name ++ py ">") s with
    | None => None
    | Some inner =>
        match until_tag (py "</" ++ name ++ py ">") inner with
        | None => None
        | Some (body, _) =>
            Some {| groups := [body];
                    open_group := None;
                    consumed := length (py "<" ++ name ++ py ">")
                                + length body
                                + length (py "</" ++ name ++ py ">") |}
        end
    end.
Proof.
  unfold tag_program. rewrite run_atoms.
  destruct (strip_prefix (py "<" ++ name ++ py ">") s) as [inner|];
    [|reflexivity].
  cbn [app]. rewrite run_open, run_lazy_until.
  destruct (until_tag (py "</" ++ name ++ py ">") inner) as [[body rest]|];
    [|reflexivity].
  rewrite !take_chars_spec. unfold close_, open_, start, pop. simpl.
  rewrite app_nil_r, rev_involutive. reflexivity.
Qed.

Lemma findall_tag_program (name : str) (skip : nat) (s : str) :
  findall_go (tag_program name) skip s
  = Some (map MStr (find_tags_go (py "<" ++ name ++ py ">")
                      (py "</" ++ name ++ py ">") skip s)).
Proof.
  revert skip. induction s as [|c s IH]; intros skip; [reflexivity|].
  cbn [findall_go find_tags_go]. destruct skip as [|n]; [|apply IH].
  rewrite run_tag_program.
  destruct (strip_prefix (py "<" ++ name ++ py ">") (c :: s)) as [inner|];
    [|apply IH].
  destruct (until_tag (py "</" ++ name ++ py ">") inner) as [[body rest]|];
    [|apply IH].
  cbn [consumed]. simpl length.
  match goal with
  | |- match ?t with _ => _ end = _ => destruct t as [|n] eqn:En
  end; [simpl in En; discriminate En|].
  rewrite IH. simpl. rewrite Nat.sub_0_r. reflexivity.
Qed.

Lemma re_findall_literal_tag (name text : str) :
  regex_literal name = true ->
  re_findall (DefaultPromptStrategy.tag_pattern name) text
  = ret (map MStr (find_tags name text)).
Proof.
  intros Hlit. unfold re_findall, findall_fragment.
  rewrite (compile_tag_pattern name Hlit), run_tag_program.
  simpl strip_prefix. cbv iota.
  rewrite findall_tag_program. reflexivity.
Qed.

End LiteralTags.

(** *** The tagged-markup parser over string matches *)

Lemma last_map_MStr (l : list str) (d : str) :
  last (map MStr l) (MStr d) = MStr (last l d).
Proof.
  induction l as [|x l IH]; [reflexivity|].
  destruct l as [|y l]; [reflexivity|]. exact IH.
Qed.

(** When [re.findall] yields group texts, the parser binds a field to the
    stripped text of the last match, and leaves it out without a match. *)
Lemma parse_tag_strings (re_findall : str -> str -> result (list re_match))
  (text : str) (found : list str) (parsed_fields : dict.t value)
  (output_name : str) (output_field : Field.t) :
  re_findall (DefaultPromptStrategy.tag_pattern (Field.name output_field))
    text = ret (map MStr found) ->
  DefaultPromptStrategy.parse_tag re_findall text parsed_fields
    (output_name, output_field)
  = ret (match found with
         | [] => parsed_fields
         | first :: _ =>
             dict.set parsed_fields output_name
               (VStr (strip (last found first)))
         end).
Proof.
  intros H. unfold DefaultPromptStrategy.parse_tag. rewrite H. cbn [bind ret].
  destruct found as [|first rest]; [reflexivity|].
  change (MStr first :: map MStr rest) with (map MStr (first :: rest)).
  cbn [map]. change (MStr first :: map MStr rest)
    with (map MStr (first :: rest)).
  rewrite last_map_MStr. reflexivity.
Qed.

Lemma parse_tags_strings (re_findall : str -> str -> result (list re_match))
  (text : str) (found : str -> list str) (fields : dict.t Field.t)
  (acc : dict.t value) :
  (forall k f, In (k, f) fields ->
               re_findall (DefaultPromptStrategy.tag_pattern (Field.name f))
                 text = ret (map MStr (found (Field.name f)))) ->
  NoDup (dict.keys acc ++ dict.keys fields) ->
  exists parsed_fields,
    foldM (DefaultPromptStrategy.parse_tag re_findall text) fields acc
    = ret parsed_fields
    /\ (forall k, ~ In k (dict.keys fields) ->
                  dict.get parsed_fields k = dict.get acc k)
    /\ (forall k f, In (k, f) fields ->
                    dict.get parsed_fields k
                    = match found (Field.name f) with
                      | [] => None
                      | first :: _ =>
                          Some (VStr (strip (last (found (Field.name f))
                                               first)))
                      end).
Proof.
  revert acc. induction fields as [|[k f] fields IH]; intros acc Hfind Hnd.
  - exists acc. split; [reflexivity|]. split; [reflexivity|].
    intros k f [].
  - cbn [foldM].
    rewrite (parse_tag_strings re_findall text (found (Field.name f)) acc k f)
      by (apply (Hfind k f); now left).
    cbn [bind ret].
    assert (Hk_acc : ~ In k (dict.keys acc)).
    { intros Hin. apply NoDup_remove_2 in Hnd. apply Hnd.
      apply in_or_app. now left. }
    assert (Hk_rest : ~ In k (dict.keys fields)).
    { intros Hin. apply NoDup_remove_2 in Hnd. apply Hnd.
      apply in_or_app. now right. }
    set (acc' := match found (Field.name f) with
                 | [] => acc
                 | first :: _ =>
                     dict.set acc k
                       (VStr (strip (last (found (Field.name f)) first)))
                 end).
    assert (Hnd' : NoDup (dict.keys acc' ++ dict.keys fields)).
    { unfold acc'. destruct (found (Field.name f)) as [|first rest].
      - now apply NoDup_remove_1 in Hnd.
      - rewrite (dict_set_fresh _ _ _ Hk_acc), dict_keys_app.
        simpl. rewrite <- app_assoc. exact Hnd. }
    destruct (IH acc' (fun k0 f0 H => Hfind k0 f0 (or_intror H)) Hnd')
      as [parsed_fields [Hrun [Hother Hbound]]].
    exists parsed_fields. split; [exact Hrun|]. split.
    + intros k0 Hk0. rewrite Hother by (intros H; apply Hk0; now right).
      unfold acc'. destruct (found (Field.name f)); [reflexivity|].
      apply dict_get_set_other. intros ->. apply Hk0. now left.
    + intros k0 f0 [Heq|Hin].
      * injection Heq as <- <-. rewrite (Hother k Hk_rest). unfold acc'.
        destruct (found (Field.name f)) as [|first rest].
        -- apply (proj2 (dict_get_None acc k)). exact Hk_acc.
        -- apply dict_get_set_same.
      * now apply Hbound.
Qed.

(** For output fields whose display names hold no character that is
    special in a pattern, the tagged-markup parser returns, and binds each
    field to the stripped text of the last occurrence of its tag, or leaves
    it out when the tag does not occur. *)
Theorem tagged_parse_literal_names :
  forall (self : PromptSignature) (output : RawOutput),
    dict.wf (output_variables self) ->
    (forall output_name output_field,
        In (output_name, output_field) (output_variables self) ->
        Reference.regex_literal (Field.name output_field) = true) ->
    exists parsed_fields,
      DefaultPromptStrategy._parse_anthropic_output_to_fields
        Reference.re_findall self output = ret parsed_fields
      /\ (forall output_name output_field,
            dict.get (output_variables self) output_name = Some output_field ->
            dict.get parsed_fields output_name
            = match find_tags (Field.name output_field) (text_of output) with
              | [] => None
              | first :: _ =>
                  Some (VStr (strip
                                (last (find_tags (Field.name output_field)
                                         (text_of output)) first)))
              end)
      /\ (forall output_name,
            ~ In output_name (dict.keys (output_variables self)) ->
            dict.get parsed_fields output_name = None).
Proof.
  intros self output Hwf Hlit.
  destruct (parse_tags_strings Reference.re_findall (text_of output)
              (fun name => find_tags name (text_of output))
              (output_variables self) dict.empty)
    as [parsed_fields [Hrun [Hother Hbound]]].
  - intros k f Hin. apply re_findall_literal_tag. exact (Hlit k f Hin).
  - exact Hwf.
  - exists parsed_fields. split; [|split].
    + unfold DefaultPromptStrategy._parse_anthropic_output_to_fields.
      destruct output; exact Hrun.
    + intros k f Hget. apply Hbound. now apply dict_in_get.
    + intros k Hk. now rewrite (Hother k Hk).
Qed.

Lemma tagged_parse_literal_names_witness :
  dict.wf (output_variables Samples.summary_score)
  /\ (forall output_name output_field,
        In (output_name, output_field)
          (output_variables Samples.summary_score) ->
        Reference.regex_literal (Field.name output_field) = true)
  /\ exists parsed_fields,
       DefaultPromptStrategy._parse_anthropic_output_to_fields
         Reference.re_findall Samples.summary_score
         (RawStr (py "<summary>ok</summary><score>5</score>"))
       = ret parsed_fields
       /\ dict.get parsed_fields (py "score") = Some (VStr (py "5")).
Proof.
  assert (Hwf : dict.wf (output_variables Samples.summary_score)).
  { unfold dict.wf. vm_compute.
    repeat constructor; simpl; intuition discriminate. }
  assert (Hlit : forall output_name output_field,
             In (output_name, output_field)
               (output_variables Samples.summary_score) ->
             Reference.regex_literal (Field.name output_field) = true).
  { intros k f [H|[H|[]]]; injection H as <- <-; reflexivity. }
  split; [exact Hwf|]. split; [exact Hlit|].
  destruct (tagged_parse_literal_names Samples.summary_score
              (RawStr (py "<summary>ok</summary><score>5</score>")) Hwf Hlit)
    as [parsed_fields [Hrun [Hbound _]]].
  exists parsed_fields. split; [exact Hrun|].
  exact (Hbound (py "score") _ eq_refl).
Defined.

(** ** Key checking of [validate_inputs] *)

Lemma key_in_iff (keys : list str) (k : str) :
  key_in keys k = true <-> In k keys.
Proof.
  unfold key_in. rewrite existsb_exists. split.
  - intros [x [Hin Heq]]. apply str_eqb_eq in Heq. now subst.
  - intros Hin. exists k. split; [exact Hin|apply str_eqb_refl].
Qed.

Lemma set_difference_iff (a b : list str) (k : str) :
  In k (set_difference a b) <-> In k a /\ ~ In k b.
Proof.
  unfold set_difference. rewrite filter_In, negb_true_iff.
  rewrite <- (key_in_iff b k). destruct (key_in b k); intuition congruence.
Qed.

Lemma set_eqb_iff (a b : list str) :
  set_eqb a b = true <-> forall k, In k a <-> In k b.
Proof.
  unfold set_eqb. rewrite andb_true_iff, !forallb_forall. split.
  - intros [Hab Hba] k. split; intros H.
    + apply key_in_iff. now apply Hab.
    + apply key_in_iff. now apply Hba.
  - intros H. split; intros k Hk; apply key_in_iff; now apply H.
Qed.

(** [validate_inputs] returns exactly when the keys received are the
    declared input names, as sets; otherwise it raises, and its error lists
    as missing the declared names not received and as unexpected the keys
    received that are not declared, at least one of the two being there. *)
Theorem validate_inputs_compares_key_sets :
  forall (self : PromptSignature) (inputs_dict : dict.t value),
    match snd (validate_inputs self inputs_dict) with
    | inr _ =>
        forall k, In k (dict.keys (input_variables self))
                  <-> In k (dict.keys inputs_dict)
    | inl error =>
        (forall k, In k (missing_keys error)
                   <-> In k (dict.keys (input_variables self))
                       /\ ~ In k (dict.keys inputs_dict))
        /\ (forall k, In k (unexpected_keys error)
                      <-> In k (dict.keys inputs_dict)
                          /\ ~ In k (dict.keys (input_variables self)))
        /\ (missing_keys error <> [] \/ unexpected_keys error <> [])
    end.
Proof.
  intros self inputs_dict. unfold validate_inputs.
  destruct (set_eqb (dict.keys (input_variables self)) (dict.keys inputs_dict))
    eqn:E; cbn [negb snd].
  - now apply set_eqb_iff.
  - cbn [missing_keys unexpected_keys]. split; [|split].
    + intros k. apply set_difference_iff.
    + intros k. apply set_difference_iff.
    + destruct (set_difference (dict.keys (input_variables self))
                  (dict.keys inputs_dict)) as [|m ms] eqn:Em;
        [|left; discriminate].
      destruct (set_difference (dict.keys inputs_dict)
                  (dict.keys (input_variables self))) as [|u us] eqn:Eu;
        [|right; discriminate].
      exfalso. apply not_true_iff_false in E. apply E. apply set_eqb_iff.
      intros k. split; intros Hk.
      * destruct (in_dec str_dec k (dict.keys inputs_dict)) as [H|H];
          [exact H|].
        assert (Hd : In k (set_difference (dict.keys (input_variables self))
                             (dict.keys inputs_dict)))
          by now apply set_difference_iff.
        rewrite Em in Hd. destruct Hd.
      * destruct (in_dec str_dec k (dict.keys (input_variables self)))
          as [H|H]; [exact H|].
        assert (Hd : In k (set_difference (dict.keys inputs_dict)
                             (dict.keys (input_variables self))))
          by now apply set_difference_iff.
        rewrite Eu in Hd. destruct Hd.
Qed.

Lemma validate_loop_all_present (input_dict : dict.t value)
  (fields : dict.t Field.t) (acc : dict.t value) (e : exn) :
  (forall k, In k (dict.keys fields) -> In k (dict.keys input_dict)) ->
  foldM (validate_field input_dict) fields acc = raise e ->
  exists name value field,
    e = ValueError (InvalidInputFor name value)
    /\ dict.get input_dict name = Some value
    /\ In (name, field) fields
    /\ Field.validate_value field value = false.
Proof.
  revert acc. induction fields as [|[name field] fields IH]; intros acc Hkeys H.
  - discriminate H.
  - cbn [foldM] in H.
    destruct (dict_in_keys_get input_dict name (Hkeys name (or_introl eq_refl)))
      as [value Hv].
    unfold validate_field in H at 1. rewrite Hv in H.
    destruct (Field.validate_value field value) eqn:Eval;
      cbn [negb bind ret raise] in H.
    + destruct (IH _ (fun k Hk => Hkeys k (or_intror Hk)) H)
        as [n [v [f [He [Hg [Hin Hf]]]]]].
      exists n, v, f. repeat split; try assumption. now right.
    + injection H as <-. exists name, value, field.
      repeat split; try assumption. now left.
Qed.

(** When [validate_inputs] accepts the keys of a dict, [_validate_input] on
    that dict never reports a missing input: whatever it raises is the
    error of an invalid value, for a declared input whose validator rejects
    the value given. *)
Theorem validate_inputs_then_validate_input :
  forall (self : PromptSignature) (inputs_dict : dict.t value),
    snd (validate_inputs self inputs_dict) = inr tt ->
    forall e,
      _validate_input self inputs_dict = raise e ->
      exists name value field,
        e = ValueError (InvalidInputFor name value)
        /\ dict.get inputs_dict name = Some value
        /\ In (name, field) (input_variables self)
        /\ Field.validate_value field value = false.
Proof.
  intros self inputs_dict Hok e Hraise.
  assert (Hkeys : forall k, In k (dict.keys (input_variables self))
                            -> In k (dict.keys inputs_dict)).
  { unfold validate_inputs in Hok.
    destruct (set_eqb (dict.keys (input_variables self))
                (dict.keys inputs_dict)) eqn:E; cbn [negb snd] in Hok;
      [|discriminate Hok].
    intros k Hk. apply (proj1 (set_eqb_iff _ _) E). exact Hk. }
  unfold _validate_input in Hraise.
  destruct (dict.is_empty (input_variables self)); [discriminate Hraise|].
  exact (validate_loop_all_present _ _ _ _ Hkeys Hraise).
Qed.

Lemma validate_inputs_then_validate_input_witness :
  snd (validate_inputs Cases.strict [(py "question", VInt 7)]) = inr tt
  /\ _validate_input Cases.strict [(py "question", VInt 7)]
     = raise (ValueError (InvalidInputFor (py "question") (VInt 7)))
  /\ exists name value field,
       ValueError (InvalidInputFor (py "question") (VInt 7))
       = ValueError (InvalidInputFor name value)
       /\ dict.get [(py "question", VInt 7)] name = Some value
       /\ In (name, field) (input_variables Cases.strict)
       /\ Field.validate_value field value = false.
Proof.
  split; [reflexivity|]. split; [reflexivity|].
  exact (validate_inputs_then_validate_input Cases.strict
           [(py "question", VInt 7)] eq_refl _ eq_refl).
Defined.

(** ** Looking up an output field by its display name *)

(** [_get_output_field] answers with the first declared output whose
    display name is the one asked for, and with [None] exactly when no
    declared output has that display name. *)
Theorem get_output_field_first_match :
  forall (self : PromptSignature) (field_name : str),
    match PromptStrategy._get_output_field self field_name with
    | Some output_name =>
        exists before output_field after,
          output_variables self
          = before ++ (output_name, output_field) :: after
          /\ Field.name output_field = field_name
          /\ forall item, In item before ->
                          Field.name (snd item) <> field_name
    | None =>
        forall item, In item (output_variables self) ->
                     Field.name (snd item) <> field_name
    end.
Proof.
  intros self field_name. unfold PromptStrategy._get_output_field.
  induction (output_variables self) as [|[k f] l IH]; simpl.
  - intros item [].
  - destruct (str_eqb (Field.name f) field_name) eqn:E.
    + apply str_eqb_eq in E. exists [], f, l.
      split; [reflexivity|]. split; [exact E|]. intros item [].
    + apply str_eqb_neq in E.
      destruct (PromptStrategy.find_output_field l field_name) as [k'|].
      * destruct IH as [before [f' [after [Hl [Hn Hb]]]]].
        exists ((k, f) :: before), f', after.
        split; [simpl; now rewrite Hl|]. split; [exact Hn|].
        intros item [<-|Hin]; [exact E|now apply Hb].
      * intros item [<-|Hin]; [exact E|now apply IH].
Qed.

(** ** Construction *)

Lemma NoDup_keys_filter {V : Type} (p : str * V -> bool) (l : dict.t V) :
  NoDup (dict.keys l) -> NoDup (dict.keys (filter p l)).
Proof.
  unfold dict.keys. induction l as [|[k v] l IH]; simpl; intros H;
    [constructor|].
  inversion H as [|? ? Hk Hnd]; subst.
  destruct (p (k, v)); simpl; [|now apply IH].
  constructor; [|now apply IH].
  intros Hin. apply Hk. apply in_map_iff in Hin.
  destruct Hin as [[k' v'] [Hfst Hin]]. simpl in Hfst. subst k'.
  apply filter_In in Hin. destruct Hin as [Hin _].
  apply (in_map fst) in Hin. exact Hin.
Qed.

Lemma role_entries_wf (p : str * ModelField -> bool)
  (fields : dict.t ModelField) :
  dict.wf fields -> dict.wf (map role_entry (filter p fields)).
Proof.
  intros Hwf. unfold dict.wf, dict.keys. rewrite map_map. simpl.
  exact (NoDup_keys_filter p fields Hwf).
Qed.

Lemma undeclared_false (declared : dict.t Field.t) (names : list str) :
  undeclared declared names = false
  <-> forall name, In name names -> In name (dict.keys declared).
Proof.
  split.
  - intros H name Hin.
    destruct (in_dec str_dec name (dict.keys declared)) as [Hd|Hd];
      [exact Hd|].
    assert (Hu : undeclared declared names = true)
      by (apply undeclared_iff; now exists name).
    congruence.
  - intros H. destruct (undeclared declared names) eqn:E; [|reflexivity].
    apply undeclared_iff in E. destruct E as [name [Hin Hn]].
    exfalso. apply Hn. now apply H.
Qed.

(** A signature that [__init__] returns, for a class with unique field
    names, has unique keys in each of its three mappings, holds the class's
    examples, and every example fits it: its input keys are declared
    inputs, and its output is a dict whose keys are declared outputs, or
    else exactly one output is declared. *)
Theorem init_establishes_invariant :
  forall (cls : SignatureClass) (self : PromptSignature),
    dict.wf (__fields__ cls) ->
    __init__ cls = ret self ->
    dict.wf (input_variables self)
    /\ dict.wf (output_variables self)
    /\ dict.wf (hint_variables self)
    /\ __examples__ self = class_examples cls
    /\ forall example_input example_output,
         In (example_input, example_output) (__examples__ self) ->
         (forall input_name, In input_name (dict.keys example_input) ->
                             In input_name (dict.keys (input_variables self)))
         /\ match example_output with
            | VDict d =>
                forall output_name,
                  In output_name (dict.keys d) ->
                  In output_name (dict.keys (output_variables self))
            | _ => length (output_variables self) = 1
            end.
Proof.
  intros cls self Hwf Hinit. unfold __init__ in Hinit.
  unfold role_mappings in Hinit.
  rewrite assign_roles_filter in Hinit;
    [|exact Hwf|intros name _; simpl; tauto].
  cbn [inputs outputs hints no_roles dict.empty app] in Hinit.
  match type of Hinit with
  | (validate_examples ?s ;;; _) = _ =>
      destruct (validate_examples s) as [e|[]] eqn:Eval;
        cbn [bind ret] in Hinit; [discriminate Hinit|];
        injection Hinit as <-
  end.
  cbn [input_variables output_variables hint_variables __examples__] in *.
  split; [now apply role_entries_wf|].
  split; [now apply role_entries_wf|].
  split; [now apply role_entries_wf|].
  split; [reflexivity|].
  intros example_input example_output Hin.
  assert (Hret : returns (validate_examples
                   {| input_variables :=
                        map role_entry (filter input_role (__fields__ cls));
                      output_variables :=
                        map role_entry (filter output_role (__fields__ cls));
                      hint_variables :=
                        map role_entry (filter hint_role (__fields__ cls));
                      __examples__ := class_examples cls |}) = true)
    by now rewrite Eval.
  unfold validate_examples in Hret. rewrite for_each_returns in Hret.
  cbn [__examples__] in Hret.
  rewrite forallb_forall in Hret. specialize (Hret _ Hin).
  rewrite validate_example_returns in Hret.
  cbn [input_variables output_variables] in Hret.
  apply andb_true_iff in Hret. destruct Hret as [Hi Ho].
  apply negb_true_iff in Hi. split.
  - now apply undeclared_false.
  - destruct example_output; try (now apply Nat.eqb_eq in Ho).
    apply negb_true_iff in Ho. now apply undeclared_false.
Qed.

Lemma init_establishes_invariant_witness :
  dict.wf (__fields__ Cases.qa_examples_class)
  /\ __init__ Cases.qa_examples_class
     = ret (Samples.signature_of Cases.qa_examples_class)
  /\ length (output_variables (Samples.signature_of Cases.qa_examples_class))
     = 1.
Proof.
  assert (Hwf : dict.wf (__fields__ Cases.qa_examples_class)).
  { unfold dict.wf. vm_compute.
    repeat constructor; simpl; intuition discriminate. }
  assert (Hinit : __init__ Cases.qa_examples_class
                  = ret (Samples.signature_of Cases.qa_examples_class))
    by reflexivity.
  split; [exact Hwf|]. split; [exact Hinit|].
  destruct (init_establishes_invariant _ _ Hwf Hinit)
    as [_ [_ [_ [_ Hexamples]]]].
  exact (proj2 (Hexamples [(py "question", VStr (py "who"))] (VStr (py "me"))
                  (or_introl eq_refl))).
Defined.

(** ** The values [_validate_input] returns *)

Lemma validate_field_returns (input_dict acc acc' : dict.t value)
  (item : str * Field.t) :
  validate_field input_dict acc item = ret acc' ->
  accepts input_dict item = true
  /\ acc' = dict.set acc (fst item)
              (match dict.get input_dict (fst item) with
               | Some value => Field.transform_value (snd item) value
               | None => VNone
               end).
Proof.
  destruct item as [name field]. unfold validate_field, accepts. simpl.
  destruct (dict.get input_dict name) as [value|].
  - destruct (Field.validate_value field value); simpl; intros H;
      [|discriminate H]. injection H as <-. now split.
  - destruct (Field.optional field); simpl; intros H; [|discriminate H].
    injection H as <-. now split.
Qed.

Lemma validate_loop_result (input_dict : dict.t value)
  (fields : dict.t Field.t) (acc validated_input : dict.t value) :
  foldM (validate_field input_dict) fields acc = ret validated_input ->
  validated_input
  = fold_left (fun a item =>
                 dict.set a (fst item)
                   (match dict.get input_dict (fst item) with
                    | Some value => Field.transform_value (snd item) value
                    | None => VNone
                    end))
      fields acc.
Proof.
  revert acc. induction fields as [|item fields IH]; intros acc H.
  - simpl in H. injection H as <-. reflexivity.
  - cbn [foldM] in H.
    destruct (validate_field input_dict acc item) as [e|acc'] eqn:E;
      cbn [bind] in H; [discriminate H|].
    apply validate_field_returns in E. destruct E as [_ ->].
    simpl. now apply IH.
Qed.

(** With at least one declared input, what [_validate_input] returns lists
    the declared inputs in declaration order, each with the transform of
    the value given for it, or with [None] when none was given. *)
Theorem validate_input_result :
  forall (self : PromptSignature) (input_dict validated_input : dict.t value),
    dict.wf (input_variables self) ->
    input_variables self <> [] ->
    _validate_input self input_dict = ret validated_input ->
    validated_input
    = map (fun item =>
             (fst item,
              match dict.get input_dict (fst item) with
              | Some value => Field.transform_value (snd item) value
              | None => VNone
              end))
        (input_variables self).
Proof.
  intros self input_dict validated_input Hwf Hne H.
  unfold _validate_input in H.
  destruct (input_variables self) as [|item fields] eqn:E; [contradiction|].
  cbn [dict.is_empty] in H. apply validate_loop_result in H. subst.
  exact (fold_set_fresh
           (fun k f => match dict.get input_dict k with
                       | Some value => Field.transform_value f value
                       | None => VNone
                       end)
           (item :: fields) dict.empty Hwf).
Qed.

Lemma validate_input_result_witness :
  dict.wf (input_variables Samples.qa)
  /\ input_variables Samples.qa <> []
  /\ _validate_input Samples.qa [(py "question", VStr (py "why"))]
     = ret [(py "question", VStr (py "why"))]
  /\ [(py "question", VStr (py "why"))]
     = map (fun item =>
              (fst item,
               match dict.get [(py "question", VStr (py "why"))] (fst item)
               with
               | Some value => Field.transform_value (snd item) value
               | None => VNone
               end))
         (input_variables Samples.qa).
Proof.
  assert (Hwf : dict.wf (input_variables Samples.qa)).
  { unfold dict.wf. vm_compute.
    repeat constructor; simpl; intuition discriminate. }
  assert (Hne : input_variables Samples.qa <> []) by discriminate.
  split; [exact Hwf|]. split; [exact Hne|]. split; [reflexivity|].
  exact (validate_input_result Samples.qa [(py "question", VStr (py "why"))]
           _ Hwf Hne eq_refl).
Defined.

Lemma validate_loop_first_failure (input_dict : dict.t value)
  (fields : dict.t Field.t) (acc : dict.t value) (e : exn) :
  foldM (validate_field input_dict) fields acc = raise e ->
  exists before name field after,
    fields = before ++ (name, field) :: after
    /\ (forall item, In item before -> accepts input_dict item = true)
    /\ ((dict.get input_dict name = None
         /\ Field.optional field = false
         /\ e = ValueError (MissingRequiredInput name))
        \/ (exists value,
              dict.get input_dict name = Some value
              /\ Field.validate_value field value = false
              /\ e = ValueError (InvalidInputFor name value))).
Proof.
  revert acc. induction fields as [|[name field] fields IH]; intros acc H.
  - discriminate H.
  - cbn [foldM] in H.
    destruct (validate_field input_dict acc (name, field)) as [e'|acc'] eqn:E;
      cbn [bind] in H.
    + injection H as ->. exists [], name, field, fields.
      split; [reflexivity|]. split; [intros item []|].
      unfold validate_field in E.
      destruct (dict.get input_dict name) as [value|].
      * right. exists value.
        destruct (Field.validate_value field value); simpl in E;
          [discriminate E|]. injection E as <-. now repeat split.
      * left. destruct (Field.optional field); simpl in E;
          [discriminate E|]. injection E as <-. now repeat split.
    + apply validate_field_returns in E. destruct E as [Hacc _].
      destruct (IH _ H) as [before [n [f [after [Hf [Hb He]]]]]].
      exists ((name, field) :: before), n, f, after.
      split; [simpl; now rewrite Hf|]. split; [|exact He].
      intros item [<-|Hin]; [exact Hacc|now apply Hb].
Qed.

(** What [_validate_input] raises is decided by the first declared input,
    in declaration order, that does not pass: the error of a missing
    required input when no value is given for it and it is not optional,
    the error of an invalid input, with the value, when its validator
    rejects the value given. *)
Theorem validate_input_first_failure :
  forall (self : PromptSignature) (input_dict : dict.t value) (e : exn),
    _validate_input self input_dict = raise e ->
    exists before name field after,
      input_variables self = before ++ (name, field) :: after
      /\ (forall item, In item before -> accepts input_dict item = true)
      /\ ((dict.get input_dict name = None
           /\ Field.optional field = false
           /\ e = ValueError (MissingRequiredInput name))
          \/ (exists value,
                dict.get input_dict name = Some value
                /\ Field.validate_value field value = false
                /\ e = ValueError (InvalidInputFor name value))).
Proof.
  intros self input_dict e H. unfold _validate_input in H.
  destruct (dict.is_empty (input_variables self)); [discriminate H|].
  exact (validate_loop_first_failure _ _ _ _ H).
Qed.

Lemma validate_input_first_failure_witness :
  _validate_input Cases.strict dict.empty
  = raise (ValueError (MissingRequiredInput (py "question")))
  /\ exists before name field after,
       input_variables Cases.strict = before ++ (name, field) :: after
       /\ (forall item, In item before -> accepts (@dict.empty value) item = true)
       /\ ((dict.get (@dict.empty value) name = None
            /\ Field.optional field = false
            /\ ValueError (MissingRequiredInput (py "question"))
               = ValueError (MissingRequiredInput name))
           \/ (exists v,
                 dict.get (@dict.empty value) name = Some v
                 /\ Field.validate_value field v = false
                 /\ ValueError (MissingRequiredInput (py "question"))
                    = ValueError (InvalidInputFor name v))).
Proof.
  split; [reflexivity|].
  exact (validate_input_first_failure Cases.strict dict.empty _ eq_refl).
Defined.

(** ** Splitting on the marker *)

Lemma split_go_nonempty (sep : str) (skip : nat) (chunk s : str) :
  DefaultPromptStrategy.split_go sep skip chunk s <> [].
Proof.
  revert skip chunk. induction s as [|c s IH]; intros skip chunk; simpl.
  - discriminate.
  - destruct skip; [|apply IH].
    destruct (strip_prefix sep (c :: s)); [discriminate|apply IH].
Qed.

Lemma split_go_skip (sep : str) (passed : str) (chunk s : str) :
  DefaultPromptStrategy.split_go sep (length passed) chunk (passed ++ s)
  = DefaultPromptStrategy.split_go sep 0 chunk s.
Proof.
  induction passed as [|c passed IH]; [reflexivity|].
  simpl. exact IH.
Qed.

Lemma join_cons (sep x : str) (l : list str) :
  l <> [] -> join sep (x :: l) = x ++ sep ++ join sep l.
Proof. destruct l; [congruence|reflexivity]. Qed.

Lemma split_go_join (sep : str) (n : nat) :
  sep <> [] ->
  forall (s chunk : str),
    length s <= n ->
    join sep (DefaultPromptStrategy.split_go sep 0 chunk s) = rev chunk ++ s.
Proof.
  intros Hsep. induction n as [|n IH]; intros s chunk Hlen.
  - destruct s; [|simpl in Hlen; lia]. simpl. now rewrite app_nil_r.
  - destruct s as [|c s]; [simpl; now rewrite app_nil_r|].
    cbn [DefaultPromptStrategy.split_go].
    destruct (strip_prefix sep (c :: s)) as [rest|] eqn:E.
    + apply strip_prefix_Some in E.
      destruct sep as [|c0 sep']; [congruence|].
      simpl in E. injection E as <- ->.
      rewrite join_cons by apply split_go_nonempty.
      replace (length (c :: sep') - 1) with (length sep')
        by (simpl; lia).
      rewrite split_go_skip, IH.
      * reflexivity.
      * simpl in Hlen. rewrite length_app in Hlen. lia.
    + rewrite IH by (simpl in Hlen; lia).
      simpl. now rewrite <- app_assoc.
Qed.

(** Splitting a text on a separator that is not empty gives at least one
    chunk, and joining the chunks with the separator gives the text back. *)
Theorem split_then_join :
  forall (sep s : str),
    sep <> [] ->
    DefaultPromptStrategy.split sep s <> []
    /\ join sep (DefaultPromptStrategy.split sep s) = s.
Proof.
  intros sep s Hsep. split.
  - apply split_go_nonempty.
  - unfold DefaultPromptStrategy.split.
    now rewrite (split_go_join sep (length s) Hsep s []).
Qed.

Lemma split_then_join_witness :
  DefaultPromptStrategy.OUTPUT_TOKEN <> []
  /\ DefaultPromptStrategy.split DefaultPromptStrategy.OUTPUT_TOKEN
       (py "a" ++ DefaultPromptStrategy.OUTPUT_TOKEN ++ py "b")
     <> []
  /\ join DefaultPromptStrategy.OUTPUT_TOKEN
       (DefaultPromptStrategy.split DefaultPromptStrategy.OUTPUT_TOKEN
          (py "a" ++ DefaultPromptStrategy.OUTPUT_TOKEN ++ py "b"))
     = py "a" ++ DefaultPromptStrategy.OUTPUT_TOKEN ++ py "b".
Proof.
  assert (Hsep : DefaultPromptStrategy.OUTPUT_TOKEN <> []) by discriminate.
  split; [exact Hsep|].
  exact (split_then_join DefaultPromptStrategy.OUTPUT_TOKEN
           (py "a" ++ DefaultPromptStrategy.OUTPUT_TOKEN ++ py "b") Hsep).
Defined.

(** ** The name-and-content pattern *)

Lemma span_name_spec (s : str) :
  s = fst (DefaultPromptStrategy.span_name s)
      ++ snd (DefaultPromptStrategy.span_name s)
  /\ ~ In 58%N (fst (DefaultPromptStrategy.span_name s))
  /\ (snd (DefaultPromptStrategy.span_name s) = []
      \/ exists rest, snd (DefaultPromptStrategy.span_name s) = 58%N :: rest).
Proof.
  induction s as [|c s IH]; simpl.
  - split; [reflexivity|]. split; [intros []|now left].
  - destruct (c =? 58)%N eqn:E.
    + apply N.eqb_eq in E. subst c. simpl.
      split; [reflexivity|]. split; [intros []|]. right. now exists s.
    + destruct (DefaultPromptStrategy.span_name s) as [name rest].
      simpl in *. destruct IH as [Hs [Hn Hr]].
      split; [now rewrite <- Hs|]. split; [|exact Hr].
      intros [H|H]; [|contradiction]. apply N.eqb_neq in E. congruence.
Qed.

Lemma span_name_app (name rest : str) :
  ~ In 58%N name ->
  DefaultPromptStrategy.span_name (name ++ 58%N :: rest)
  = (name, 58%N :: rest).
Proof.
  induction name as [|c name IH]; intros H; [reflexivity|].
  simpl. destruct (c =? 58)%N eqn:E.
  - apply N.eqb_eq in E. exfalso. apply H. now left.
  - rewrite IH; [reflexivity|]. intros Hin. apply H. now right.
Qed.

Lemma line_content_spec (s : str) :
  ~ In 10%N (DefaultPromptStrategy.line_content s)
  /\ exists rest,
       s = DefaultPromptStrategy.line_content s ++ rest
       /\ (rest = [] \/ exists more, rest = 10%N :: more).
Proof.
  induction s as [|c s IH]; simpl.
  - split; [intros []|]. exists []. split; [reflexivity|now left].
  - destruct (c =? 10)%N eqn:E.
    + apply N.eqb_eq in E. subst c. split; [intros []|].
      exists (10%N :: s). split; [reflexivity|]. right. now exists s.
    + destruct IH as [Hn [rest [Hs Hr]]]. split.
      * intros [H|H]; [|contradiction]. apply N.eqb_neq in E. congruence.
      * exists rest. split; [simpl; now rewrite <- Hs|exact Hr].
Qed.

Lemma line_content_app (content rest : str) :
  ~ In 10%N content ->
  (rest = [] \/ exists more, rest = 10%N :: more) ->
  DefaultPromptStrategy.line_content (content ++ rest) = content.
Proof.
  intros Hc Hr. induction content as [|c content IH]; simpl.
  - destruct Hr as [->|[more ->]]; reflexivity.
  - destruct (c =? 10)%N eqn:E.
    + apply N.eqb_eq in E. exfalso. apply Hc. now left.
    + rewrite IH; [reflexivity|]. intros H. apply Hc. now right.
Qed.

(** The name-and-content pattern matches a chunk exactly when the chunk
    starts with a name that is not empty and holds no colon, a colon and a
    space; the name is the first group, and the second group is what
    follows up to the first newline, or to the end. *)
Theorem match_field_iff :
  forall (line field_name field_content : str),
    DefaultPromptStrategy.match_field line = Some (field_name, field_content)
    <-> field_name <> []
        /\ ~ In 58%N field_name
        /\ ~ In 10%N field_content
        /\ exists rest,
             line = field_name ++ py ": " ++ field_content ++ rest
             /\ (rest = [] \/ exists more, rest = 10%N :: more).
Proof.
  intros line field_name field_content. split.
  - unfold DefaultPromptStrategy.match_field.
    destruct (span_name_spec line) as [Hline [Hn _]].
    destruct (DefaultPromptStrategy.span_name line) as [name tail].
    simpl in Hline, Hn.
    destruct name as [|n name]; [discriminate|].
    destruct tail as [|c1 [|c2 tail]]; try discriminate.
    destruct (c1 =? 58)%N eqn:E1; [|discriminate].
    destruct (c2 =? 32)%N eqn:E2; [|discriminate].
    apply N.eqb_eq in E1, E2. subst c1 c2. simpl.
    intros H. injection H as <- <-.
    destruct (line_content_spec tail) as [Hc [rest [Ht Hr]]].
    split; [discriminate|]. split; [exact Hn|]. split; [exact Hc|].
    exists rest. split; [|exact Hr].
    rewrite Hline. change (py ": ") with [58%N; 32%N]. simpl.
    now rewrite <- Ht.
  - intros [Hne [Hn [Hc [rest [-> Hr]]]]].
    unfold DefaultPromptStrategy.match_field.
    change (py ": ") with [58%N; 32%N]. simpl app.
    rewrite span_name_app by exact Hn.
    destruct field_name as [|n name]; [congruence|].
    simpl. now rewrite line_content_app.
Qed.

(** ** Plain-text parsing with one output field *)

Lemma get_single_output (self : PromptSignature) (key : str)
  (field : Field.t) (field_name output_name : str) :
  output_variables self = [(key, field)] ->
  PromptStrategy._get_output_field self field_name = Some output_name ->
  output_name = key /\ field_name = Field.name field.
Proof.
  intros Hov. unfold PromptStrategy._get_output_field. rewrite Hov. simpl.
  destruct (str_eqb (Field.name field) field_name) eqn:E; [|discriminate].
  apply str_eqb_eq in E. intros H. injection H as <-. now split.
Qed.

Lemma parse_lines_single (self : PromptSignature) (key : str)
  (field : Field.t) (lines : list str) (acc : dict.t value) :
  output_variables self = [(key, field)] ->
  (acc = [] \/ exists c, acc = [(key, VStr c)]) ->
  fold_left (DefaultPromptStrategy.parse_line self) lines acc = []
  \/ exists c,
       fold_left (DefaultPromptStrategy.parse_line self) lines acc
       = [(key, VStr c)].
Proof.
  intros Hov. revert acc. induction lines as [|line lines IH]; intros acc Hacc.
  - exact Hacc.
  - simpl. apply IH. unfold DefaultPromptStrategy.parse_line.
    destruct (DefaultPromptStrategy.resolve_line self line) as [[k c]|] eqn:E;
      [|exact Hacc].
    apply resolve_line_Some in E. destruct E as [field_name [_ Hg]].
    destruct (get_single_output self key field _ _ Hov Hg) as [-> _].
    right. exists c.
    destruct Hacc as [->|[c0 ->]]; simpl; [reflexivity|].
    now rewrite str_eqb_refl.
Qed.

(** With exactly one declared output field, the plain-text parser returns,
    for every raw string, a dict with that one key: its value is a content
    that is not empty, taken from a chunk that names the field, or else the
    whole last chunk. *)
Theorem plain_text_single_output_total :
  forall (self : PromptSignature) (key : str) (field : Field.t) (raw : str),
    output_variables self = [(key, field)] ->
    exists v,
      DefaultPromptStrategy._parse_openai_output_to_fields self (RawStr raw)
      = ret [(key, VStr v)]
      /\ (v = last (DefaultPromptStrategy.split
                      DefaultPromptStrategy.OUTPUT_TOKEN raw) []
          \/ (v <> []
              /\ exists line,
                   In line (DefaultPromptStrategy.split
                              DefaultPromptStrategy.OUTPUT_TOKEN raw)
                   /\ DefaultPromptStrategy.match_field line
                      = Some (Field.name field, v))).
Proof.
  intros self key field raw Hov.
  unfold DefaultPromptStrategy._parse_openai_output_to_fields.
  set (lines := DefaultPromptStrategy.split
                  DefaultPromptStrategy.OUTPUT_TOKEN raw).
  pose proof (parse_lines_single self key field lines dict.empty Hov
                (or_introl eq_refl)) as Hcases.
  pose proof (parse_lines_get self lines dict.empty key) as Hget.
  rewrite Hov. cbn [length Nat.eqb dict.keys map fst].
  destruct Hcases as [Hr|[c Hr]]; rewrite Hr in *.
  - simpl. eexists. split; [reflexivity|now left].
  - destruct c as [|c0 c]; simpl.
    + rewrite str_eqb_refl. eexists. split; [reflexivity|now left].
    + exists (c0 :: c). split; [reflexivity|]. right.
      split; [discriminate|].
      destruct (Hget (VStr (c0 :: c))) as [H|[line [content [Hin [Hres Hv]]]]].
      * simpl. now rewrite str_eqb_refl.
      * discriminate H.
      * injection Hv as <-. apply resolve_line_Some in Hres.
        destruct Hres as [field_name [Hm Hg]].
        destruct (get_single_output self key field _ _ Hov Hg) as [_ ->].
        now exists line.
Qed.

Lemma plain_text_single_output_total_witness :
  output_variables Samples.qa
  = [(py "answer", Reference.plain_field (py "Answer") (py "given") false)]
  /\ exists v,
       DefaultPromptStrategy._parse_openai_output_to_fields Samples.qa
         (RawStr (py "Answer: 42"))
       = ret [(py "answer", VStr v)].
Proof.
  split; [reflexivity|].
  destruct (plain_text_single_output_total Samples.qa (py "answer")
              (Reference.plain_field (py "Answer") (py "given") false)
              (py "Answer: 42") eq_refl) as [v [Hrun _]].
  now exists v.
Defined.

(** ** The last answer wins *)

Lemma parse_lines_other_key (self : PromptSignature) (lines : list str)
  (acc : dict.t value) (key : str) :
  (forall line content,
      In line lines ->
      DefaultPromptStrategy.resolve_line self line <> Some (key, content)) ->
  dict.get (fold_left (DefaultPromptStrategy.parse_line self) lines acc) key
  = dict.get acc key.
Proof.
  revert acc. induction lines as [|line lines IH]; intros acc H;
    [reflexivity|].
  simpl. rewrite IH by (intros l c Hl; apply H; now right).
  unfold DefaultPromptStrategy.parse_line.
  destruct (DefaultPromptStrategy.resolve_line self line) as [[k c]|] eqn:E;
    [|reflexivity].
  apply dict_get_set_other. intros ->.
  exact (H line c (or_introl eq_refl) E).
Qed.

Lemma parse_lines_last (self : PromptSignature)
  (before after : list str) (line key content : str) (acc : dict.t value) :
  DefaultPromptStrategy.resolve_line self line = Some (key, content) ->
  (forall l c, In l after ->
               DefaultPromptStrategy.resolve_line self l <> Some (key, c)) ->
  dict.get (fold_left (DefaultPromptStrategy.parse_line self)
              (before ++ line :: after) acc) key
  = Some (VStr content).
Proof.
  intros Hres Hafter. rewrite fold_left_app. simpl.
  rewrite parse_lines_other_key by exact Hafter.
  unfold DefaultPromptStrategy.parse_line at 1. rewrite Hres.
  apply dict_get_set_same.
Qed.

(** When several chunks of the raw output name the same output field, the
    parser keeps the content of the last of them, provided more than one
    output field is declared or that content is not empty. *)
Theorem plain_text_last_answer_wins :
  forall (self : PromptSignature) (raw : str) (before after : list str)
         (line field_name key content : str),
    DefaultPromptStrategy.split DefaultPromptStrategy.OUTPUT_TOKEN raw
    = before ++ line :: after ->
    DefaultPromptStrategy.match_field line = Some (field_name, content) ->
    PromptStrategy._get_output_field self field_name = Some key ->
    key <> [] ->
    (forall l c, In l after ->
                 DefaultPromptStrategy.resolve_line self l <> Some (key, c)) ->
    length (output_variables self) <> 1 \/ content <> [] ->
    exists parsed_fields,
      DefaultPromptStrategy._parse_openai_output_to_fields self (RawStr raw)
      = ret parsed_fields
      /\ dict.get parsed_fields key = Some (VStr content).
Proof.
  intros self raw before after line field_name key content
         Hsplit Hm Hg Hkey Hafter Hcond.
  assert (Hres : DefaultPromptStrategy.resolve_line self line
                 = Some (key, content)).
  { unfold DefaultPromptStrategy.resolve_line. rewrite Hm, Hg.
    destruct key; [congruence|reflexivity]. }
  pose proof (parse_lines_last self before after line key content dict.empty
                Hres Hafter) as Hlast.
  unfold DefaultPromptStrategy._parse_openai_output_to_fields.
  rewrite Hsplit.
  destruct (length (output_variables self) =? 1) eqn:Elen.
  - apply Nat.eqb_eq in Elen.
    destruct (output_variables self) as [|[k f] [|item rest]] eqn:Hov;
      try discriminate Elen.
    unfold PromptStrategy._get_output_field in Hg. rewrite Hov in Hg.
    simpl in Hg. destruct (str_eqb (Field.name f) field_name);
      [|discriminate Hg]. injection Hg as ->.
    destruct (parse_lines_single self key f (before ++ line :: after)
                dict.empty Hov (or_introl eq_refl)) as [Hr|[c Hr]];
      rewrite Hr in *.
    + discriminate Hlast.
    + simpl in Hlast. rewrite str_eqb_refl in Hlast.
      injection Hlast as ->.
      destruct Hcond as [H|H]; [congruence|].
      destruct content as [|c0 content]; [congruence|].
      cbn. eexists. split; [reflexivity|].
      simpl. now rewrite str_eqb_refl.
  - eexists. split; [reflexivity|exact Hlast].
Qed.

Lemma plain_text_last_answer_wins_witness :
  DefaultPromptStrategy.split DefaultPromptStrategy.OUTPUT_TOKEN
    (DefaultPromptStrategy.OUTPUT_TOKEN ++ py "summary: a"
     ++ DefaultPromptStrategy.OUTPUT_TOKEN ++ py "summary: b")
  = [[]; py "summary: a"] ++ py "summary: b" :: []
  /\ DefaultPromptStrategy.match_field (py "summary: b")
     = Some (py "summary", py "b")
  /\ PromptStrategy._get_output_field Samples.summary_score (py "summary")
     = Some (py "summary")
  /\ exists parsed_fields,
       DefaultPromptStrategy._parse_openai_output_to_fields
         Samples.summary_score
         (RawStr (DefaultPromptStrategy.OUTPUT_TOKEN ++ py "summary: a"
                  ++ DefaultPromptStrategy.OUTPUT_TOKEN ++ py "summary: b"))
       = ret parsed_fields
       /\ dict.get parsed_fields (py "summary") = Some (VStr (py "b")).
Proof.
  split; [reflexivity|]. split; [reflexivity|]. split; [reflexivity|].
  apply (plain_text_last_answer_wins Samples.summary_score _
           [[]; py "summary: a"] [] (py "summary: b") (py "summary")
           (py "summary") (py "b")).
  - reflexivity.
  - reflexivity.
  - reflexivity.
  - discriminate.
  - intros l c0 [].
  - left. discriminate.
Defined.

(** ** A well-formed plain-text answer parses back *)









(** ** JSON that is no object *)

Lemma parse_json_field_non_object (json_output : value)
  (parsed_fields : dict.t value) (item : str * Field.t) :
  is_dict json_output = false ->
  DefaultPromptStrategy.parse_json_field json_output parsed_fields item
  = if match json_output with
       | VList l => existsb (fun v => value_is_str v (Field.name (snd item))) l
       | VStr s => is_substring (Field.name (snd item)) s
       | _ => true
       end
    then raise TypeError
    else ret (dict.set parsed_fields (fst item) VNone).
Proof.
  destruct item as [k f]. unfold DefaultPromptStrategy.parse_json_field.
  destruct json_output; simpl; try reflexivity; discriminate.
Qed.

Lemma foldM_guarded {A S : Type} (bad : A -> bool) (g : S -> A -> S)
  (e : exn) (body : S -> A -> result S) (l : list A) (s : S) :
  (forall s x, body s x = if bad x then raise e else ret (g s x)) ->
  foldM body l s = if existsb bad l then raise e else ret (fold_left g l s).
Proof.
  intros H. revert s. induction l as [|x l IH]; intros s; [reflexivity|].
  cbn [foldM existsb fold_left]. rewrite H.
  destruct (bad x); [reflexivity|]. cbn [bind ret orb]. apply IH.
Qed.

(** When the raw output decodes to JSON that is no object, no output field
    gets a value: the JSON parser raises [TypeError] when the decoded value
    is no list and no string and an output field is declared, or when it
    is a list holding, or a string containing, the display name of a
    declared output field; otherwise it returns [None] for every declared
    output. *)
Theorem json_parse_non_object :
  forall (json_loads : str -> option value) (self : PromptSignature)
         (raw : str) (json_output : value),
    dict.wf (output_variables self) ->
    json_loads raw = Some json_output ->
    is_dict json_output = false ->
    DefaultPromptStrategy._parse_openai_json_output_to_fields json_loads self
      (RawStr raw)
    = if existsb (fun item =>
                    match json_output with
                    | VList l =>
                        existsb (fun v =>
                                   value_is_str v (Field.name (snd item))) l
                    | VStr s => is_substring (Field.name (snd item)) s
                    | _ => true
                    end)
           (output_variables self)
      then raise TypeError
      else ret (map (fun item => (fst item, VNone)) (output_variables self)).
Proof.
  intros json_loads self raw json_output Hwf Hloads Hnd.
  unfold DefaultPromptStrategy._parse_openai_json_output_to_fields.
  rewrite Hloads.
  rewrite (foldM_guarded
             (fun item =>
                match json_output with
                | VList l =>
                    existsb (fun v => value_is_str v (Field.name (snd item))) l
                | VStr s => is_substring (Field.name (snd item)) s
                | _ => true
                end)
             (fun a item => dict.set a (fst item) VNone) TypeError).
  - destruct (existsb _ (output_variables self)); [reflexivity|].
    now rewrite (fold_set_fresh (fun _ _ => VNone)).
  - intros s x. now apply parse_json_field_non_object.
Qed.

Lemma json_parse_non_object_witness :
  dict.wf (output_variables Samples.a_b)
  /\ Reference.json_loads (py "[1]") = Some (VList [VInt 1])
  /\ DefaultPromptStrategy._parse_openai_json_output_to_fields
       Reference.json_loads Samples.a_b (RawStr (py "[1]"))
     = ret [(py "a", VNone); (py "b", VNone)].
Proof.
  assert (Hwf : dict.wf (output_variables Samples.a_b)).
  { unfold dict.wf. vm_compute.
    repeat constructor; simpl; intuition discriminate. }
  assert (Hloads : Reference.json_loads (py "[1]") = Some (VList [VInt 1]))
    by reflexivity.
  split; [exact Hwf|]. split; [exact Hloads|].
  exact (json_parse_non_object Reference.json_loads Samples.a_b (py "[1]")
           (VList [VInt 1]) Hwf Hloads eq_refl).
Defined.

(** ** The keys a parser returns *)

Lemma find_output_field_in (outputs : dict.t Field.t)
  (field_name output_name : str) :
  PromptStrategy.find_output_field outputs field_name = Some output_name ->
  In output_name (dict.keys outputs).
Proof.
  induction outputs as [|[k f] outputs IH]; simpl; [discriminate|].
  destruct (str_eqb (Field.name f) field_name).
  - intros H. injection H as <-. now left.
  - intros H. right. now apply IH.
Qed.

Lemma foldM_keys {S : Type} (body : dict.t S -> str * Field.t
                                    -> result (dict.t S))
  (fields : dict.t Field.t) (acc parsed : dict.t S) :
  (forall a item a', body a item = ret a' ->
                     forall k, In k (dict.keys a') ->
                               In k (dict.keys a) \/ k = fst item) ->
  foldM body fields acc = ret parsed ->
  forall k, In k (dict.keys parsed) ->
            In k (dict.keys acc) \/ In k (dict.keys fields).
Proof.
  intros Hbody. revert acc. induction fields as [|item fields IH];
    intros acc H k Hk.
  - simpl in H. injection H as <-. now left.
  - cbn [foldM] in H. destruct (body acc item) as [e|a'] eqn:E;
      cbn [bind] in H; [discriminate H|].
    destruct (IH _ H k Hk) as [Hin|Hin].
    + destruct (Hbody _ _ _ E k Hin) as [Ha | ->]; [now left|].
      right. now left.
    + right. now right.
Qed.

Lemma parse_tag_keys (re_findall : str -> str -> result (list re_match))
  (text : str) (a : dict.t value) (item : str * Field.t)
  (a' : dict.t value) :
  DefaultPromptStrategy.parse_tag re_findall text a item = ret a' ->
  forall k, In k (dict.keys a') -> In k (dict.keys a) \/ k = fst item.
Proof.
  destruct item as [n f]. unfold DefaultPromptStrategy.parse_tag.
  intros Hstep k Hk.
  destruct (re_findall _ _) as [e|matches]; cbn [bind] in Hstep;
    [discriminate Hstep|].
  destruct matches as [|m ms]; [injection Hstep as <-; now left|].
  destruct (last (m :: ms) m); [|discriminate Hstep].
  injection Hstep as <-. apply dict_in_keys_set in Hk.
  destruct Hk as [-> | Hk]; [now right|now left].
Qed.

Lemma parse_json_field_keys (json_output : value) (a : dict.t value)
  (item : str * Field.t) (a' : dict.t value) :
  DefaultPromptStrategy.parse_json_field json_output a item = ret a' ->
  forall k, In k (dict.keys a') -> In k (dict.keys a) \/ k = fst item.
Proof.
  destruct item as [n f]. unfold DefaultPromptStrategy.parse_json_field.
  intros Hstep k Hk.
  destruct (DefaultPromptStrategy.json_contains json_output (Field.name f))
    as [e|[|]]; cbn [bind] in Hstep; [discriminate Hstep| |].
  - destruct (DefaultPromptStrategy.json_getitem json_output (Field.name f));
      cbn [bind] in Hstep; [discriminate Hstep|].
    injection Hstep as <-. apply dict_in_keys_set in Hk.
    destruct Hk as [-> | Hk]; [now right|now left].
  - injection Hstep as <-. apply dict_in_keys_set in Hk.
    destruct Hk as [-> | Hk]; [now right|now left].
Qed.

(** No parser returns a key that is no declared output name: whatever the
    library functions yield, every key of a dict that the plain-text, the
    tagged-markup or the JSON parser returns is a key of the output
    mapping. *)
Theorem parsers_return_declared_keys :
  forall (json_loads : str -> option value)
         (re_findall : str -> str -> result (list re_match))
         (self : PromptSignature) (output : RawOutput)
         (parsed_fields : dict.t value),
    (DefaultPromptStrategy._parse_openai_output_to_fields self output
     = ret parsed_fields ->
     forall key, In key (dict.keys parsed_fields) ->
                 In key (dict.keys (output_variables self)))
    /\ (DefaultPromptStrategy._parse_anthropic_output_to_fields re_findall
         self output = ret parsed_fields ->
        forall key, In key (dict.keys parsed_fields) ->
                    In key (dict.keys (output_variables self)))
    /\ (DefaultPromptStrategy._parse_openai_json_output_to_fields json_loads
         self output = ret parsed_fields ->
        forall key, In key (dict.keys parsed_fields) ->
                    In key (dict.keys (output_variables self))).
Proof.
  intros json_loads re_findall self output parsed_fields.
  split; [|split]; intros H key Hkey.
  - unfold DefaultPromptStrategy._parse_openai_output_to_fields in H.
    destruct output as [raw|content]; [|discriminate H].
    assert (Hloop : forall k,
               In k (dict.keys
                       (fold_left (DefaultPromptStrategy.parse_line self)
                          (DefaultPromptStrategy.split
                             DefaultPromptStrategy.OUTPUT_TOKEN raw)
                          dict.empty)) ->
               In k (dict.keys (output_variables self))).
    { intros k Hk. apply parse_lines_keys in Hk.
      destruct Hk as [[]|[line [content [_ Hres]]]].
      apply resolve_line_Some in Hres. destruct Hres as [n [_ Hg]].
      exact (find_output_field_in _ _ _ Hg). }
    destruct (length (output_variables self) =? 1).
    + destruct (negb (truthy _)).
      * destruct (dict.keys (output_variables self)) as [|k0 ks] eqn:Ek;
          [discriminate H|]. injection H as <-.
        apply dict_in_keys_set in Hkey. destruct Hkey as [-> | Hkey].
        -- now left.
        -- now apply Hloop.
      * injection H as <-. now apply Hloop.
    + injection H as <-. now apply Hloop.
  - unfold DefaultPromptStrategy._parse_anthropic_output_to_fields in H.
    destruct (foldM_keys _ _ _ _ (parse_tag_keys re_findall _) H key Hkey)
      as [[]|Hin]. exact Hin.
  - unfold DefaultPromptStrategy._parse_openai_json_output_to_fields in H.
    destruct output as [raw|content]; [|discriminate H].
    destruct (json_loads raw) as [json_output|]; [|discriminate H].
    destruct (foldM_keys _ _ _ _ (parse_json_field_keys json_output) H
                key Hkey) as [[]|Hin]. exact Hin.
Qed.

Lemma parsers_return_declared_keys_witness :
  DefaultPromptStrategy._parse_openai_output_to_fields Samples.qa
    (RawStr (py "<Answer>42</Answer>"))
  = ret [(py "answer", VStr (py "<Answer>42</Answer>"))]
  /\ DefaultPromptStrategy._parse_anthropic_output_to_fields
       Reference.re_findall Samples.qa (RawStr (py "<Answer>42</Answer>"))
     = ret [(py "answer", VStr (py "42"))]
  /\ forall key,
       In key (dict.keys [(py "answer", VStr (py "42"))]) ->
       In key (dict.keys (output_variables Samples.qa)).
Proof.
  split; [reflexivity|]. split; [reflexivity|].
  exact (proj1 (proj2 (parsers_return_declared_keys Reference.json_loads
                         Reference.re_findall Samples.qa
                         (RawStr (py "<Answer>42</Answer>"))
                         [(py "answer", VStr (py "42"))]))
           eq_refl).
Defined.

(** ** Scalar and dict outputs of examples *)

Lemma example_output_value_as_mapping (key : str) (example : Example) :
  DefaultPromptStrategy.example_output_value (snd (as_mapping key example)) key
  = DefaultPromptStrategy.example_output_value (snd example) key.
Proof.
  unfold as_mapping, DefaultPromptStrategy.example_output_value. simpl.
  destruct (is_dict (snd example)) eqn:E; [now rewrite E|].
  simpl. unfold get_or_none. simpl. now rewrite str_eqb_refl.
Qed.

Lemma text_example_as_mapping (self : PromptSignature) (key : str)
  (field : Field.t) (example : Example) :
  output_variables self = [(key, field)] ->
  DefaultPromptStrategy.text_example self (as_mapping key example)
  = DefaultPromptStrategy.text_example self example.
Proof.
  intros Hov. destruct example as [i o].
  pose proof (example_output_value_as_mapping key (i, o)) as H.
  unfold DefaultPromptStrategy.text_example, as_mapping in *.
  cbn [fst snd] in *. rewrite Hov. cbn [map fst snd concat].
  now rewrite H.
Qed.

Lemma example_dict_as_mapping (self : PromptSignature) (key : str)
  (field : Field.t) (example : Example) :
  output_variables self = [(key, field)] ->
  DefaultPromptStrategy.example_dict self (as_mapping key example)
  = DefaultPromptStrategy.example_dict self example.
Proof.
  intros Hov. destruct example as [i o].
  pose proof (example_output_value_as_mapping key (i, o)) as H.
  unfold DefaultPromptStrategy.example_dict, as_mapping in *.
  cbn [fst snd] in *. rewrite Hov. cbn [fold_left fst snd].
  now rewrite H.
Qed.

Lemma example_message_as_mapping (self : PromptSignature) (key : str)
  (field : Field.t) (example : Example) :
  output_variables self = [(key, field)] ->
  DefaultPromptStrategy.example_message self (as_mapping key example)
  = DefaultPromptStrategy.example_message self example.
Proof.
  intros Hov. destruct example as [i o].
  pose proof (example_output_value_as_mapping key (i, o)) as H.
  unfold DefaultPromptStrategy.example_message, as_mapping in *.
  cbn [fst snd] in *. rewrite Hov. cbn [map fst snd].
  now rewrite H.
Qed.

Lemma map_as_mapping {B : Type} (f : Example -> B) (key : str)
  (l : list Example) :
  (forall example, f (as_mapping key example) = f example) ->
  map f (map (as_mapping key) l) = map f l.
Proof.
  intros H. rewrite map_map. apply map_ext. exact H.
Qed.

(** With exactly one declared output field, an example whose output is a
    scalar and the example whose output is the dict binding that field to
    the scalar are rendered alike: each of the three renderers gives the
    same prompt when the scalar outputs of the inline and of the trained
    examples are replaced by such dicts. *)
Theorem scalar_output_renders_as_mapping :
  forall (json_dumps : value -> str) (self : PromptSignature)
         (key : str) (field : Field.t)
         (trained : list Example) (use_training : bool)
         (inline : list Example) (kwargs : dict.t value),
    output_variables self = [(key, field)] ->
    DefaultPromptStrategy._format_openai_prompt self
      (Some {| examples := map (as_mapping key) trained |}) use_training
      (map (as_mapping key) inline) kwargs
    = DefaultPromptStrategy._format_openai_prompt self
        (Some {| examples := trained |}) use_training inline kwargs
    /\ DefaultPromptStrategy._format_openai_json_prompt json_dumps self
         (Some {| examples := map (as_mapping key) trained |}) use_training
         (map (as_mapping key) inline) kwargs
       = DefaultPromptStrategy._format_openai_json_prompt json_dumps self
           (Some {| examples := trained |}) use_training inline kwargs
    /\ DefaultPromptStrategy._format_anthropic_prompt self
         (Some {| examples := map (as_mapping key) trained |}) use_training
         (map (as_mapping key) inline) kwargs
       = DefaultPromptStrategy._format_anthropic_prompt self
           (Some {| examples := trained |}) use_training inline kwargs.
Proof.
  intros json_dumps self key field trained use_training inline kwargs Hov.
  assert (Hgate : use_trained (Some {| examples := map (as_mapping key)
                                                     trained |})
                    use_training
                  = use_trained (Some {| examples := trained |})
                      use_training).
  { unfold use_trained. simpl. now destruct trained. }
  split; [|split].
  - unfold DefaultPromptStrategy._format_openai_prompt,
      DefaultPromptStrategy.text_head,
      DefaultPromptStrategy.text_trained_block.
    rewrite Hgate. cbn [trained_examples examples].
    rewrite !(map_as_mapping (DefaultPromptStrategy.text_example self) key)
      by (intros; now apply (text_example_as_mapping self key field)).
    reflexivity.
  - unfold DefaultPromptStrategy._format_openai_json_prompt,
      DefaultPromptStrategy.json_head,
      DefaultPromptStrategy.json_trained_block,
      DefaultPromptStrategy.json_examples.
    rewrite Hgate. cbn [trained_examples examples].
    rewrite !(map_as_mapping
                (fun example =>
                   json_dumps (DefaultPromptStrategy.example_dict self example)
                   ++ nl) key)
      by (intros; now rewrite (example_dict_as_mapping self key field)).
    now destruct inline.
  - unfold DefaultPromptStrategy._format_anthropic_prompt,
      DefaultPromptStrategy.messages_head,
      DefaultPromptStrategy.trained_messages.
    rewrite Hgate. cbn [trained_examples examples].
    rewrite !(map_as_mapping (DefaultPromptStrategy.example_message self) key)
      by (intros; now apply (example_message_as_mapping self key field)).
    reflexivity.
Qed.

Lemma scalar_output_renders_as_mapping_witness :
  output_variables Samples.qa
  = [(py "answer", Reference.plain_field (py "Answer") (py "given") false)]
  /\ DefaultPromptStrategy._format_openai_prompt Samples.qa
       (Some {| examples := [] |}) false
       [([(py "question", VStr (py "who"))],
         VDict [(py "answer", VStr (py "me"))])]
       [(py "question", VStr (py "why"))]
     = DefaultPromptStrategy._format_openai_prompt Samples.qa
         (Some {| examples := [] |}) false
         [([(py "question", VStr (py "who"))], VStr (py "me"))]
         [(py "question", VStr (py "why"))].
Proof.
  split; [reflexivity|].
  exact (proj1 (scalar_output_renders_as_mapping Reference.json_dumps
                  Samples.qa (py "answer")
                  (Reference.plain_field (py "Answer") (py "given") false)
                  [] false
                  [([(py "question", VStr (py "who"))], VStr (py "me"))]
                  [(py "question", VStr (py "why"))] eq_refl)).
Defined.

(** ** The keyword arguments a renderer reads *)

Lemma fold_left_ext_in {A S : Type} (f g : S -> A -> S) (l : list A) (s : S) :
  (forall a x, In x l -> f a x = g a x) ->
  fold_left f l s = fold_left g l s.
Proof.
  revert s. induction l as [|x l IH]; intros s H; [reflexivity|].
  simpl. rewrite H by now left. apply IH. intros a y Hy. apply H. now right.
Qed.

(** A renderer reads the keyword arguments only at the declared input
    names, and reads an absent name as [None]: two dicts of input values
    that give the same value, or none, at every declared input name give
    the same prompt in each of the three renderers. *)
Theorem renderers_read_declared_inputs :
  forall (json_dumps : value -> str) (self : PromptSignature)
         (trained_state : option TrainedState) (use_training : bool)
         (inline : list Example) (kwargs other : dict.t value),
    (forall name, In name (dict.keys (input_variables self)) ->
                  get_or_none other name = get_or_none kwargs name) ->
    DefaultPromptStrategy._format_openai_prompt self trained_state
      use_training inline other
    = DefaultPromptStrategy._format_openai_prompt self trained_state
        use_training inline kwargs
    /\ DefaultPromptStrategy._format_openai_json_prompt json_dumps self
         trained_state use_training inline other
       = DefaultPromptStrategy._format_openai_json_prompt json_dumps self
           trained_state use_training inline kwargs
    /\ DefaultPromptStrategy._format_anthropic_prompt self trained_state
         use_training inline other
       = DefaultPromptStrategy._format_anthropic_prompt self trained_state
           use_training inline kwargs.
Proof.
  intros json_dumps self trained_state use_training inline kwargs other H.
  assert (Hitem : forall item, In item (input_variables self) ->
                               get_or_none other (fst item)
                               = get_or_none kwargs (fst item)).
  { intros item Hin. apply H. apply (in_map fst) in Hin. exact Hin. }
  assert (Htext : DefaultPromptStrategy.text_tail self other
                  = DefaultPromptStrategy.text_tail self kwargs).
  { unfold DefaultPromptStrategy.text_tail.
    rewrite (map_ext_in
               (fun item =>
                  Field.format_prompt_value (snd item)
                    (get_or_none other (fst item)) (py "openai") ++ nl)
               (fun item =>
                  Field.format_prompt_value (snd item)
                    (get_or_none kwargs (fst item)) (py "openai") ++ nl));
      [reflexivity|].
    intros item Hin. now rewrite Hitem. }
  assert (Hjson : DefaultPromptStrategy.json_tail json_dumps self other
                  = DefaultPromptStrategy.json_tail json_dumps self kwargs).
  { unfold DefaultPromptStrategy.json_tail.
    rewrite (fold_left_ext_in
               (fun acc item =>
                  dict.update acc
                    (Field.format_prompt_value_json (snd item)
                       (get_or_none other (fst item)) (py "openai_json")))
               (fun acc item =>
                  dict.update acc
                    (Field.format_prompt_value_json (snd item)
                       (get_or_none kwargs (fst item)) (py "openai_json"))));
      [reflexivity|].
    intros a item Hin. now rewrite Hitem. }
  assert (Hmessages : DefaultPromptStrategy.messages_tail self other
                      = DefaultPromptStrategy.messages_tail self kwargs).
  { unfold DefaultPromptStrategy.messages_tail.
    rewrite (map_ext_in
               (fun item =>
                  Field.format_prompt_value (snd item)
                    (get_or_none other (fst item)) (py "anthropic"))
               (fun item =>
                  Field.format_prompt_value (snd item)
                    (get_or_none kwargs (fst item)) (py "anthropic")));
      [reflexivity|].
    intros item Hin. now rewrite Hitem. }
  unfold DefaultPromptStrategy._format_openai_prompt,
    DefaultPromptStrategy._format_openai_json_prompt,
    DefaultPromptStrategy._format_anthropic_prompt.
  rewrite Htext, Hjson, Hmessages. repeat split.
Qed.

Lemma renderers_read_declared_inputs_witness :
  (forall name,
      In name (dict.keys (input_variables Samples.qa)) ->
      get_or_none [(py "seed", VInt 7); (py "question", VStr (py "why"))] name
      = get_or_none [(py "question", VStr (py "why"))] name)
  /\ DefaultPromptStrategy._format_anthropic_prompt Samples.qa None false []
       [(py "seed", VInt 7); (py "question", VStr (py "why"))]
     = DefaultPromptStrategy._format_anthropic_prompt Samples.qa None false []
         [(py "question", VStr (py "why"))].
Proof.
  assert (H : forall name,
             In name (dict.keys (input_variables Samples.qa)) ->
             get_or_none
               [(py "seed", VInt 7); (py "question", VStr (py "why"))] name
             = get_or_none [(py "question", VStr (py "why"))] name).
  { intros name [<-|[]]. reflexivity. }
  split; [exact H|].
  exact (proj2 (proj2 (renderers_read_declared_inputs Reference.json_dumps
                         Samples.qa None false [] _ _ H))).
Defined.

(** ** A well-formed tagged answer parses back *)

Lemma tag_texts (name : str) :
  py "<" ++ name ++ py ">" = 60%N :: name ++ [62%N]
  /\ py "</" ++ name ++ py ">" = 60%N :: 47%N :: name ++ [62%N].
Proof. split; reflexivity. Qed.

Lemma scan_free (opening close x rest : str) :
  ~ In 60%N x ->
  find_tags_go (60%N :: opening) close 0 (x ++ rest)
  = find_tags_go (60%N :: opening) close 0 rest.
Proof.
  induction x as [|c x IH]; intros H; [reflexivity|].
  cbn [app find_tags_go strip_prefix].
  assert (Hc : (60 =? c)%N = false).
  { apply N.eqb_neq. intros Heq. apply H. now left. }
  rewrite Hc. apply IH. intros Hin. apply H. now right.
Qed.

Lemma scan_skip (opening close passed rest : str) :
  find_tags_go opening close (length passed) (passed ++ rest)
  = find_tags_go opening close 0 rest.
Proof.
  induction passed as [|c passed IH]; [|exact IH].
  simpl. destruct rest; reflexivity.
Qed.

Lemma until_tag_eq (close s : str) :
  until_tag close s
  = match strip_prefix close s with
    | Some rest => Some ([], rest)
    | None =>
        match s with
        | [] => None
        | c :: s' =>
            match until_tag close s' with
            | Some (body, rest) => Some (c :: body, rest)
            | None => None
            end
        end
    end.
Proof. destruct s; reflexivity. Qed.

Lemma until_tag_found (close body rest : str) :
  ~ In 60%N body ->
  until_tag (60%N :: close) (body ++ 60%N :: close ++ rest)
  = Some (body, rest).
Proof.
  induction body as [|c body IH]; intros H; rewrite until_tag_eq.
  - cbn [app strip_prefix]. now rewrite N.eqb_refl, strip_prefix_app.
  - cbn [app strip_prefix].
    assert (Hc : (60 =? c)%N = false).
    { apply N.eqb_neq. intros Heq. apply H. now left. }
    rewrite Hc. rewrite IH; [reflexivity|].
    intros Hin. apply H. now right.
Qed.

Lemma opening_mismatch (n m rest : str) :
  ~ In 62%N n -> ~ In 62%N m -> n <> m ->
  strip_prefix (n ++ [62%N]) (m ++ 62%N :: rest) = None.
Proof.
  revert m. induction n as [|a n IH]; intros m Hn Hm Hne.
  - destruct m as [|b m]; [congruence|]. cbn [app strip_prefix].
    assert (Hb : (62 =? b)%N = false).
    { apply N.eqb_neq. intros Heq. apply Hm. now left. }
    now rewrite Hb.
  - destruct m as [|b m]; cbn [app strip_prefix].
    + assert (Ha : (a =? 62)%N = false).
      { apply N.eqb_neq. intros Heq. apply Hn. now left. }
      now rewrite Ha.
    + destruct (a =? b)%N eqn:E; [|reflexivity].
      apply N.eqb_eq in E. subst b. apply IH.
      * intros H. apply Hn. now right.
      * intros H. apply Hm. now right.
      * congruence.
Qed.

Lemma closing_mismatch (n rest : str) :
  match n with c :: _ => c <> 47%N | [] => True end ->
  strip_prefix (n ++ [62%N]) (47%N :: rest) = None.
Proof.
  destruct n as [|c n]; intros H; cbn [app strip_prefix]; [reflexivity|].
  destruct (c =? 47)%N eqn:E; [|reflexivity].
  apply N.eqb_eq in E. contradiction.
Qed.

Lemma find_tags_go_step (opening close : str) (c : char) (s : str) :
  find_tags_go opening close 0 (c :: s)
  = match strip_prefix opening (c :: s) with
    | None => find_tags_go opening close 0 s
    | Some inner =>
        match until_tag close inner with
        | None => find_tags_go opening close 0 s
        | Some (body, _) =>
            body :: find_tags_go opening close
                      (length opening + length body + length close - 1) s
        end
    end.
Proof. reflexivity. Qed.

Lemma tagged_text (name content : str) :
  tagged name content
  = 60%N :: name ++ 62%N :: content ++ 60%N :: 47%N :: name ++ [62%N].
Proof. reflexivity. Qed.

Lemma block_parts {A : Type} (name content tail rest : list A) (x : A) :
  name ++ x :: (content ++ tail) ++ rest
  = (name ++ x :: content) ++ tail ++ rest.
Proof. now rewrite <- !app_assoc. Qed.

(** Scanning for the tag of [n] passes over the block of another tag. *)
Lemma scan_other_block (n m pre content rest : str) :
  ~ In 62%N n ->
  match n with c :: _ => c <> 47%N | [] => True end ->
  ~ In 60%N m -> ~ In 62%N m -> n <> m ->
  ~ In 60%N pre -> ~ In 60%N content ->
  find_tags_go (py "<" ++ n ++ py ">") (py "</" ++ n ++ py ">") 0
    ((pre ++ tagged m content) ++ rest)
  = find_tags_go (py "<" ++ n ++ py ">") (py "</" ++ n ++ py ">") 0 rest.
Proof.
  intros Hn Hslash Hm60 Hm62 Hne Hpre Hcontent.
  rewrite tagged_text. destruct (tag_texts n) as [-> ->].
  rewrite <- !app_assoc. rewrite scan_free by exact Hpre.
  cbn [app]. rewrite find_tags_go_step. cbn [strip_prefix].
  rewrite N.eqb_refl. rewrite <- !app_assoc. cbn [app].
  rewrite opening_mismatch by assumption.
  rewrite block_parts.
  rewrite (scan_free _ _ (m ++ 62%N :: content)).
  2:{ intros H. apply in_app_or in H. destruct H as [H|[H|H]];
        [contradiction|discriminate H|contradiction]. }
  cbn [app]. rewrite find_tags_go_step. cbn [strip_prefix].
  rewrite N.eqb_refl. rewrite closing_mismatch by exact Hslash.
  rewrite app_comm_cons. apply scan_free.
  intros H. apply in_app_or in H. destruct H as [H|[H|[]]];
    [contradiction|discriminate H].
Qed.

Lemma own_parts {A : Type} (name content tail rest : list A) (x : A) :
  (name ++ x :: content ++ tail) ++ rest
  = (name ++ [x]) ++ content ++ tail ++ rest.
Proof. rewrite <- !app_assoc. cbn [app]. now rewrite <- !app_assoc. Qed.

(** Scanning for the tag of [n] finds the content of its own block. *)
Lemma scan_own_block (n pre content rest : str) :
  ~ In 60%N pre -> ~ In 60%N content ->
  find_tags_go (py "<" ++ n ++ py ">") (py "</" ++ n ++ py ">") 0
    ((pre ++ tagged n content) ++ rest)
  = content
    :: find_tags_go (py "<" ++ n ++ py ">") (py "</" ++ n ++ py ">") 0 rest.
Proof.
  intros Hpre Hcontent.
  rewrite tagged_text. destruct (tag_texts n) as [-> ->].
  rewrite <- !app_assoc. rewrite scan_free by exact Hpre.
  cbn [app]. rewrite find_tags_go_step. cbn [strip_prefix].
  rewrite N.eqb_refl.
  set (whole := n ++ 62%N :: content ++ 60%N :: 47%N :: n ++ [62%N]).
  pose proof (until_tag_found (47%N :: n ++ [62%N]) content rest Hcontent)
    as Hu.
  match type of Hu with
  | until_tag _ ?inner = _ =>
      assert (Hs : strip_prefix (n ++ [62%N]) (whole ++ rest) = Some inner)
  end.
  { unfold whole. rewrite own_parts. cbn [app]. apply strip_prefix_app. }
  rewrite Hs, Hu.
  f_equal. rewrite <- (scan_skip _ _ whole rest). f_equal.
  unfold whole. cbn [length]. rewrite !length_app. cbn [length].
  rewrite !length_app. cbn [length]. rewrite ?length_app. cbn [length]. lia.
Qed.

Lemma filter_name_none (n : str) (l : dict.t Field.t) :
  ~ In n (map (fun item => Field.name (snd item)) l) ->
  filter (fun item => str_eqb (Field.name (snd item)) n) l = [].
Proof.
  induction l as [|[k f] l IH]; intros H; [reflexivity|]. simpl.
  destruct (str_eqb (Field.name f) n) eqn:E.
  - apply str_eqb_eq in E. exfalso. apply H. now left.
  - apply IH. intros Hin. apply H. now right.
Qed.

Lemma filter_name_distinct (outputs : dict.t Field.t) (key : str)
  (field : Field.t) :
  NoDup (map (fun item => Field.name (snd item)) outputs) ->
  In (key, field) outputs ->
  filter (fun item => str_eqb (Field.name (snd item)) (Field.name field))
    outputs
  = [(key, field)].
Proof.
  induction outputs as [|[k f] outputs IH]; intros Hnd Hin; [destruct Hin|].
  simpl in Hnd. inversion Hnd as [|? ? Hk Hnd']; subst. simpl.
  destruct Hin as [Heq|Hin].
  - injection Heq as -> ->. rewrite str_eqb_refl.
    now rewrite filter_name_none.
  - destruct (str_eqb (Field.name f) (Field.name field)) eqn:E.
    + apply str_eqb_eq in E. exfalso. apply Hk. rewrite E.
      apply (in_map (fun item => Field.name (snd item))) in Hin. exact Hin.
    + now apply IH.
Qed.

(** Scanning a sequence of blocks for the tag of [n] finds the contents of
    the blocks with that name. *)
Lemma scan_blocks (n : str) (l : dict.t Field.t) (answer between : str -> str)
  (post : str) :
  ~ In 62%N n ->
  match n with c :: _ => c <> 47%N | [] => True end ->
  (forall item, In item l ->
                ~ In 60%N (Field.name (snd item))
                /\ ~ In 62%N (Field.name (snd item))
                /\ ~ In 60%N (answer (fst item))
                /\ ~ In 60%N (between (fst item))) ->
  ~ In 60%N post ->
  find_tags_go (py "<" ++ n ++ py ">") (py "</" ++ n ++ py ">") 0
    (concat (map (fun item =>
                    between (fst item)
                    ++ tagged (Field.name (snd item)) (answer (fst item)))
               l) ++ post)
  = map (fun item => answer (fst item))
      (filter (fun item => str_eqb (Field.name (snd item)) n) l).
Proof.
  intros Hn Hslash Hl Hpost. induction l as [|[k f] l IH].
  - cbn [map concat app filter]. destruct (tag_texts n) as [-> _].
    rewrite <- (app_nil_r post), scan_free by exact Hpost. reflexivity.
  - cbn [map concat filter fst snd].
    rewrite <- (app_assoc (between k ++ tagged (Field.name f) (answer k))).
    destruct (Hl (k, f) (or_introl eq_refl)) as [H60 [H62 [Ha Hb]]].
    cbn [fst snd] in H60, H62, Ha, Hb.
    specialize (IH (fun item Hin => Hl item (or_intror Hin))).
    destruct (str_eqb (Field.name f) n) eqn:E.
    + apply str_eqb_eq in E. subst n.
      rewrite scan_own_block by assumption. cbn [map]. now rewrite IH.
    + apply str_eqb_neq in E.
      rewrite scan_other_block by (try assumption; congruence). exact IH.
Qed.

(** The answer a model writes in the tagged-markup convention parses back:
    when every output field is answered in a tag with its display name,
    with text between the tags and after them, the parser returns the
    stripped contents under the output names, in order.  The display names
    are distinct, hold no character that is special in a pattern, no angle
    bracket, and do not start with a slash; the contents and the text
    around the tags hold no opening angle bracket. *)
Theorem tagged_answer_round_trip :
  forall (self : PromptSignature) (answer between : str -> str) (post : str),
    dict.wf (output_variables self) ->
    NoDup (map (fun item => Field.name (snd item)) (output_variables self)) ->
    (forall key field,
        In (key, field) (output_variables self) ->
        Reference.regex_literal (Field.name field) = true
        /\ ~ In 60%N (Field.name field)
        /\ ~ In 62%N (Field.name field)
        /\ match Field.name field with c :: _ => c <> 47%N | [] => True end
        /\ ~ In 60%N (answer key)
        /\ ~ In 60%N (between key)) ->
    ~ In 60%N post ->
    DefaultPromptStrategy._parse_anthropic_output_to_fields
      Reference.re_findall self
      (RawStr (tagged_answer self answer between ++ post))
    = ret (map (fun item => (fst item, VStr (strip (answer (fst item)))))
             (output_variables self)).
Proof.
  intros self answer between post Hwf Hnames Hok Hpost.
  unfold DefaultPromptStrategy._parse_anthropic_output_to_fields.
  rewrite (foldM_ret _
             (fun a item =>
                dict.set a (fst item) (VStr (strip (answer (fst item)))))).
  - now rewrite (fold_set_fresh (fun k _ => VStr (strip (answer k)))).
  - intros acc [k f] Hin.
    destruct (Hok k f Hin) as [Hlit [H60 [H62 [Hslash _]]]].
    rewrite (parse_tag_strings Reference.re_findall _ [answer k]).
    + reflexivity.
    + rewrite re_findall_literal_tag by exact Hlit. f_equal. f_equal.
      unfold find_tags, tagged_answer.
      rewrite scan_blocks; try assumption.
      * now rewrite (filter_name_distinct _ k f Hnames Hin).
      * intros [k' f'] Hin'.
        destruct (Hok k' f' Hin') as [_ [A [B [_ [C D]]]]]. now repeat split.
Qed.

Lemma tagged_answer_round_trip_witness :
  DefaultPromptStrategy._parse_anthropic_output_to_fields
    Reference.re_findall Samples.summary_score
    (RawStr (tagged_answer Samples.summary_score (fun _ => py " ok ")
               (fun _ => nl) ++ nl))
  = ret [(py "summary", VStr (py "ok")); (py "score", VStr (py "ok"))].
Proof.
  apply (tagged_answer_round_trip Samples.summary_score (fun _ => py " ok ")
           (fun _ => nl) nl).
  - unfold dict.wf. vm_compute.
    repeat constructor; simpl; intuition discriminate.
  - vm_compute. repeat constructor; simpl; intuition discriminate.
  - intros key field [H|[H|[]]]; injection H as <- <-;
      (split; [reflexivity|]);
      (split; [vm_compute; intuition discriminate|]);
      (split; [vm_compute; intuition discriminate|]);
      (split; [discriminate|]);
      (split; vm_compute; intuition discriminate).
  - vm_compute. intuition discriminate.
Defined.

(** ** The shape of the tagged-markup prompt *)

Lemma Forall_human_map (self : PromptSignature) (l : list Example) :
  Forall (fun m => role m = Human)
    (map (DefaultPromptStrategy.example_message self) l).
Proof.
  induction l as [|[i o] l IH]; constructor; [reflexivity|exact IH].
Qed.

(** The tagged-markup prompt starts with the system message, and every
    message after it is a human message; it holds five messages, one more
    when there are hint fields, one per inline example, and one per trained
    example when the trained state is used. *)
Theorem anthropic_prompt_shape :
  forall (self : PromptSignature) (trained_state : option TrainedState)
         (use_training : bool) (inline : list Example)
         (kwargs : dict.t value),
    exists rest,
      DefaultPromptStrategy._format_anthropic_prompt self trained_state
        use_training inline kwargs
      = DefaultPromptStrategy.system_message :: rest
      /\ Forall (fun m => role m = Human) rest
      /\ length rest
         = 4
           + (if dict.is_empty (hint_variables self) then 0 else 1)
           + length inline
           + (if use_trained trained_state use_training
              then length (trained_examples trained_state)
              else 0).
Proof.
  intros self trained_state use_training inline kwargs.
  unfold DefaultPromptStrategy._format_anthropic_prompt,
    DefaultPromptStrategy.messages_head,
    DefaultPromptStrategy.messages_tail,
    DefaultPromptStrategy.trained_messages.
  cbn [app]. eexists. split; [reflexivity|]. split.
  - repeat match goal with
           | |- Forall _ (_ :: _) => constructor; [reflexivity|]
           | |- Forall _ [] => constructor
           | |- Forall _ (map _ _) => apply Forall_human_map
           | |- Forall _ (_ ++ _) => apply Forall_app; split
           | |- Forall _ (if ?b then _ else _) => destruct b
           end.
  - destruct (dict.is_empty (hint_variables self));
      destruct (use_trained trained_state use_training);
      cbn [length app]; rewrite ?length_app, ?length_map; cbn [length];
      rewrite ?length_app, ?length_map; cbn [length]; lia.
Qed.
